(** * claude-harness: memory and self-evolution layer

    A shallow embedding of the parts of the harness that own durable state:

    - [hooks/capture-session.py]      (module [CaptureSession])
    - [scripts/memory-retrieval.py]   (module [MemoryRetrieval])
    - [scripts/context-compression.py] (module [ContextCompression])
    - [scripts/harness-evolve.py]     (module [HarnessEvolve])

    Conventions of the embedding.

    - A JSON-lines store is modelled by the list of records its lines parse
      to; a store whose byte content matters (the skill collection seen from
      the evolution pipeline) is modelled by its raw content.
    - A dictionary read with [d.get(k, default)] is a record field holding
      the default when the key is absent; where the code reads one key with
      two different defaults, or distinguishes absence, the field is an
      [option].
    - Python [str] is [string]; case folding and the regular expression
      class [\w] are the ASCII ones.
    - Python [float] is IEEE binary64, i.e. Rocq's primitive [float].
    - [datetime.now()] reads a clock oracle carried by the world. *)

From Stdlib Require Import ZArith List String Ascii Bool Lia.
From Stdlib Require Import PrimFloat Uint63.
From Stdlib Require Import Sorting.Permutation Sorting.Sorted.
From stdpp Require Import base decidable option list sorting strings gmap.

Local Open Scope string_scope.
Local Open Scope Z_scope.

(** ** Python strings *)

Module PyStr.

Definition is_upper (c : ascii) : bool :=
  let n := nat_of_ascii c in (65 <=? n)%nat && (n <=? 90)%nat.

Definition is_lower (c : ascii) : bool :=
  let n := nat_of_ascii c in (97 <=? n)%nat && (n <=? 122)%nat.

Definition is_digit (c : ascii) : bool :=
  let n := nat_of_ascii c in (48 <=? n)%nat && (n <=? 57)%nat.

(** The class [\w]: letters, digits and the underscore. *)
Definition is_word (c : ascii) : bool :=
  is_upper c || is_lower c || is_digit c || (nat_of_ascii c =? 95)%nat.

(** Whitespace as [str.split()] sees it. *)
Definition is_space (c : ascii) : bool :=
  let n := nat_of_ascii c in
  (n =? 32)%nat || ((9 <=? n)%nat && (n <=? 13)%nat)
  || ((28 <=? n)%nat && (n <=? 31)%nat).

Definition lower_ascii (c : ascii) : ascii :=
  if is_upper c then ascii_of_nat (nat_of_ascii c + 32) else c.

(** [s.lower()] *)
Fixpoint lower (s : string) : string :=
  match s with
  | EmptyString => EmptyString
  | String c r => String (lower_ascii c) (lower r)
  end.

(** [s.startswith(p)] *)
Fixpoint startswith (p s : string) : bool :=
  match p, s with
  | EmptyString, _ => true
  | String _ _, EmptyString => false
  | String a p', String b s' =>
      if Ascii.eqb a b then startswith p' s' else false
  end.

(** [sub in s] *)
Fixpoint contains (sub s : string) : bool :=
  startswith sub s ||
  match s with
  | EmptyString => false
  | String _ r => contains sub r
  end.

(** [s.replace(a, b)] for one-character [a] and [b]. *)
Fixpoint replace_char (a b : ascii) (s : string) : string :=
  match s with
  | EmptyString => EmptyString
  | String c r => String (if Ascii.eqb c a then b else c) (replace_char a b r)
  end.

(** [s[:n]] for [n >= 0]. *)
Fixpoint take (n : nat) (s : string) : string :=
  match n, s with
  | O, _ => EmptyString
  | S _, EmptyString => EmptyString
  | S k, String c r => String c (take k r)
  end.

(** Maximal runs of characters satisfying [p], in order: with [is_word]
    this is [re.findall(r'\w+', s)]; with the complement of [is_space] it
    is [s.split()]. [acc] holds the run being read, reversed. *)
Fixpoint runs_aux (p : ascii -> bool) (acc : list ascii) (s : string)
  : list string :=
  let flush :=
    match acc with
    | [] => []
    | _ => [string_of_list_ascii (rev acc)]
    end in
  match s with
  | EmptyString => flush
  | String c r =>
      if p c then runs_aux p (c :: acc) r
      else (flush ++ runs_aux p [] r)%list
  end.

Definition findall_words (s : string) : list string :=
  runs_aux is_word [] s.

Definition split (s : string) : list string :=
  runs_aux (fun c => negb (is_space c)) [] s.

(** Decimal digits of a natural number; [fuel] bounds the number of
    digits produced. *)
Fixpoint digits_aux (fuel n : nat) (acc : string) : string :=
  match fuel with
  | O => acc
  | S f =>
      let acc' := String (ascii_of_nat (48 + n mod 10)) acc in
      if (n <? 10)%nat then acc' else digits_aux f (n / 10) acc'
  end.

(** [str(n)] *)
Definition of_nat (n : nat) : string := digits_aux (S n) n EmptyString.

(** [str(z)] *)
Definition of_Z (z : Z) : string :=
  match z with
  | Zneg p => "-" ++ of_nat (Pos.to_nat p)
  | _ => of_nat (Z.to_nat z)
  end.

Fixpoint zeros (k : nat) : string :=
  match k with
  | O => EmptyString
  | S k' => String "0" (zeros k')
  end.

(** [f'{n:0{w}d}'] *)
Definition pad (w n : nat) : string :=
  let d := of_nat n in zeros (w - String.length d) ++ d.

(** Line boundaries of [str.splitlines()]. *)
Definition is_linebreak (c : ascii) : bool :=
  let n := nat_of_ascii c in
  ((10 <=? n)%nat && (n <=? 13)%nat) || ((28 <=? n)%nat && (n <=? 30)%nat).

(** [s.splitlines()]; a carriage return followed by a line feed is one
    boundary. [acc] holds the line being read, reversed. *)
Fixpoint splitlines_aux (acc : list ascii) (s : string) : list string :=
  match s with
  | EmptyString =>
      match acc with
      | [] => []
      | _ => [string_of_list_ascii (rev acc)]
      end
  | String c r =>
      if is_linebreak c then
        string_of_list_ascii (rev acc) ::
          match r with
          | String c' r' =>
              if ((nat_of_ascii c =? 13)%nat && (nat_of_ascii c' =? 10)%nat)%bool
              then splitlines_aux [] r'
              else splitlines_aux [] r
          | EmptyString => splitlines_aux [] r
          end
      else splitlines_aux (c :: acc) r
  end.

Definition splitlines (s : string) : list string := splitlines_aux [] s.

(** [not s.strip()] *)
Fixpoint is_blank (s : string) : bool :=
  match s with
  | EmptyString => true
  | String c r => is_space c && is_blank r
  end.

(** The line feed, as a string. *)
Definition newline : string := String (ascii_of_nat 10) EmptyString.

(** The double quote character, as a string. *)
Definition dquote : string := String (ascii_of_nat 34) EmptyString.

(** [f'{x}'] for a value that may be [None]. *)
Definition fmt (x : option string) : string := default "None" x.

(** [sep.join(items)] *)
Fixpoint join (sep : string) (items : list string) : string :=
  match items with
  | [] => EmptyString
  | [x] => x
  | x :: rest => x ++ sep ++ join sep rest
  end.

(** [re.split] on a class of single characters: the pieces between the
    separators, empty ones included. [acc] holds the piece being read,
    reversed. *)
Fixpoint split_on (p : ascii -> bool) (acc : list ascii) (s : string)
  : list string :=
  match s with
  | EmptyString => [string_of_list_ascii (rev acc)]
  | String c r =>
      if p c then string_of_list_ascii (rev acc) :: split_on p [] r
      else split_on p (c :: acc) r
  end.

(** [s.lstrip()] *)
Fixpoint lstrip (s : string) : string :=
  match s with
  | EmptyString => EmptyString
  | String c r => if is_space c then lstrip r else s
  end.

Definition reverse (s : string) : string :=
  string_of_list_ascii (rev (list_ascii_of_string s)).

(** [s.strip()] *)
Definition strip (s : string) : string :=
  reverse (lstrip (reverse (lstrip s))).

End PyStr.

(** ** The clock *)

(** What [datetime.now()] returns. *)
Record datetime := {
  year : nat; month : nat; day : nat;
  hour : nat; minute : nat; second : nat; microsecond : nat
}.

(** [dt.strftime('%Y%m%d_%H%M%S')] *)
Definition strftime_compact (dt : datetime) : string :=
  PyStr.pad 4 (year dt) ++ PyStr.pad 2 (month dt) ++ PyStr.pad 2 (day dt)
  ++ "_" ++ PyStr.pad 2 (hour dt) ++ PyStr.pad 2 (minute dt)
  ++ PyStr.pad 2 (second dt).

(** [dt.strftime('%Y-%m-%d')] *)
Definition strftime_date (dt : datetime) : string :=
  PyStr.pad 4 (year dt) ++ "-" ++ PyStr.pad 2 (month dt) ++ "-"
  ++ PyStr.pad 2 (day dt).

(** [dt.isoformat()] *)
Definition isoformat (dt : datetime) : string :=
  strftime_date dt ++ "T" ++ PyStr.pad 2 (hour dt) ++ ":"
  ++ PyStr.pad 2 (minute dt) ++ ":" ++ PyStr.pad 2 (second dt)
  ++ (if (microsecond dt =? 0)%nat then ""
      else "." ++ PyStr.pad 6 (microsecond dt)).

(** ** Skills, as every script sees them *)

Record Skill := {
  skill_id : option string;
  name : string;
  description : string;
  triggers : list string;
  prerequisites : list string;
  key_steps : list string;
  tools_typically_used : list string;
  estimated_tokens : Z;
  success_rate : option float;
  times_used : option Z;
  last_used : option string;
  created_from_session : string
}.

(** [float(z)], the conversion Python applies to the integer operand of a
    mixed [float]/[int] operation. Exact below 2^53 and correctly rounded
    below 2^63; larger magnitudes are outside the model. *)
Definition float_of_Z (z : Z) : float :=
  match z with
  | Z0 => 0%float
  | Zpos _ => PrimFloat.of_uint63 (Uint63.of_Z z)
  | Zneg p => (- PrimFloat.of_uint63 (Uint63.of_Z (Zpos p)))%float
  end.

(** Exceptions the modelled code can raise. *)
Inductive exn :=
| KeyError (key : string)
| ZeroDivisionError
| AttributeError.

Inductive result (A : Type) :=
| Ok (a : A)
| Raise (e : exn).
Arguments Ok {A} a.
Arguments Raise {A} e.

(** The clock oracle: [readings] lists what successive calls of
    [datetime.now()] return, [tick] counts the calls made so far. *)
Record Clock := {
  readings : nat -> datetime;
  tick : nat
}.

Definition now (c : Clock) : datetime * Clock :=
  (readings c (tick c), {| readings := readings c; tick := S (tick c) |}).

(** ** hooks/capture-session.py *)

Module CaptureSession.

(** [working/context-buffer.json] *)
Record WorkingMemory := {
  started_at : option string;
  wm_project_path : option string;
  current_task : option string;
  wm_tools_used : list string;
  wm_files_modified : list string;
  wm_decisions_made : list string;
  accumulated_context_tokens : Z
}.

(** The empty dictionary [load_working_memory] falls back to. *)
Definition no_working_memory : WorkingMemory :=
  {| started_at := None; wm_project_path := None; current_task := None;
     wm_tools_used := []; wm_files_modified := []; wm_decisions_made := [];
     accumulated_context_tokens := 0 |}.

Record SessionData := {
  session_id : string;
  timestamp_start : string;
  timestamp_end : string;
  project_path : string;
  initial_task : string;
  outcome : string;
  tools_used : list string;
  files_modified : list string;
  decisions_made : list string;
  tokens_used : Z;
  key_decisions : list string
}.

Record OutcomeRecord := {
  o_timestamp : string;
  o_session_id : string;
  o_task : string;
  o_outcome : string;
  o_tokens : Z;
  o_project : string
}.

Record World := {
  clock : Clock;
  cwd : string;
  context_buffer : option WorkingMemory;
  sessions : gmap string SessionData;
  successes : list OutcomeRecord;
  failures : list OutcomeRecord;
  skills_file : option (list Skill)
}.

Definition set_clock (c : Clock) (w : World) : World :=
  {| clock := c; cwd := cwd w; context_buffer := context_buffer w;
     sessions := sessions w; successes := successes w;
     failures := failures w; skills_file := skills_file w |}.

Definition set_sessions (m : gmap string SessionData) (w : World) : World :=
  {| clock := clock w; cwd := cwd w; context_buffer := context_buffer w;
     sessions := m; successes := successes w;
     failures := failures w; skills_file := skills_file w |}.

Definition set_skills_file (f : option (list Skill)) (w : World) : World :=
  {| clock := clock w; cwd := cwd w; context_buffer := context_buffer w;
     sessions := sessions w; successes := successes w;
     failures := failures w; skills_file := f |}.

Definition set_context_buffer (b : option WorkingMemory) (w : World) : World :=
  {| clock := clock w; cwd := cwd w; context_buffer := b;
     sessions := sessions w; successes := successes w;
     failures := failures w; skills_file := skills_file w |}.

(** [get_session_id]: today's date and one more than the number of
    session files already carrying it. *)
Definition get_session_id (w : World) : string * World :=
  let '(dt, c) := now (clock w) in
  let today := strftime_date dt in
  let existing :=
    filter (fun k => Is_true (PyStr.startswith (today ++ "_") k))
           (map fst (map_to_list (sessions w))) in
  let sequence := (length existing + 1)%nat in
  (today ++ "_" ++ PyStr.pad 3 sequence, set_clock c w).

Definition load_working_memory (w : World) : WorkingMemory :=
  default no_working_memory (context_buffer w).

(** [save_session_record]. The default of [session_data.get] is evaluated
    before the lookup, so the clock is read although the key is there. *)
Definition save_session_record (session_data : SessionData) (w : World)
  : World :=
  let '(_, w1) := get_session_id w in
  set_sessions (<[session_id session_data := session_data]> (sessions w1)) w1.

Definition append_outcome (outcome_type : string) (record : OutcomeRecord)
    (w : World) : World :=
  if decide (outcome_type = "successes") then
    {| clock := clock w; cwd := cwd w; context_buffer := context_buffer w;
       sessions := sessions w; successes := (successes w ++ [record])%list;
       failures := failures w; skills_file := skills_file w |}
  else
    {| clock := clock w; cwd := cwd w; context_buffer := context_buffer w;
       sessions := sessions w; successes := successes w;
       failures := (failures w ++ [record])%list; skills_file := skills_file w |}.

Definition keywords : list string :=
  ["auth"; "test"; "api"; "database"; "fix"; "add"; "create";
   "implement"; "refactor"; "update"; "delete"; "remove";
   "component"; "hook"; "middleware"; "config"; "deploy"].

Section WithHash.

(** [hashlib.md5(s.encode()).hexdigest()] *)
Variable md5_hexdigest : string -> string.

Definition task_skill_id (task : string) : string :=
  "skill_" ++ PyStr.take 8 (md5_hexdigest task).

(** [extract_skill]; [None] is Python's [None]. The clock is read only
    when a skill is built. *)
Definition extract_skill (session_data : SessionData) (c : Clock)
  : option Skill * Clock :=
  if negb (String.eqb (outcome session_data) "success") then (None, c)
  else
    let task := initial_task session_data in
    if (String.length task <? 10)%nat then (None, c)
    else
      let task_lower := PyStr.lower task in
      let triggers :=
        filter (fun kw => Is_true (PyStr.contains kw task_lower)) keywords in
      let triggers :=
        match triggers with
        | [] => firstn 3 (PyStr.split task_lower)
        | _ => triggers
        end in
      let '(dt, c') := now c in
      (Some {| skill_id := Some (task_skill_id task);
               name := PyStr.lower
                         (PyStr.replace_char " " "-" (PyStr.take 50 task));
               description := task;
               triggers := triggers;
               prerequisites := [];
               key_steps := key_decisions session_data;
               tools_typically_used := tools_used session_data;
               estimated_tokens := tokens_used session_data;
               success_rate := Some 1.0%float;
               times_used := Some 1;
               last_used := Some (isoformat dt);
               created_from_session := session_id session_data |}, c').

End WithHash.

Definition set_times_used (n : Z) (s : Skill) : Skill :=
  {| skill_id := skill_id s; name := name s; description := description s;
     triggers := triggers s; prerequisites := prerequisites s;
     key_steps := key_steps s;
     tools_typically_used := tools_typically_used s;
     estimated_tokens := estimated_tokens s;
     success_rate := success_rate s; times_used := Some n;
     last_used := last_used s;
     created_from_session := created_from_session s |}.

Definition set_last_used (t : option string) (s : Skill) : Skill :=
  {| skill_id := skill_id s; name := name s; description := description s;
     triggers := triggers s; prerequisites := prerequisites s;
     key_steps := key_steps s;
     tools_typically_used := tools_typically_used s;
     estimated_tokens := estimated_tokens s;
     success_rate := success_rate s; times_used := times_used s;
     last_used := t;
     created_from_session := created_from_session s |}.

Definition set_success_rate (r : float) (s : Skill) : Skill :=
  {| skill_id := skill_id s; name := name s; description := description s;
     triggers := triggers s; prerequisites := prerequisites s;
     key_steps := key_steps s;
     tools_typically_used := tools_typically_used s;
     estimated_tokens := estimated_tokens s;
     success_rate := Some r; times_used := times_used s;
     last_used := last_used s;
     created_from_session := created_from_session s |}.

(** The body of the [if] in [save_skill]'s loop: three assignments to
    [existing], each reading the dictionary as the previous one left it.
    The second reads [skill['last_used']] by subscript: the incoming skill
    is taken to carry the key, as every skill [extract_skill] builds does,
    and [last_used skill] is then its value. *)
Definition merge (existing skill : Skill) : result Skill :=
  let existing := set_times_used (default 0 (times_used existing) + 1) existing in
  let existing := set_last_used (last_used skill) existing in
  let rate := default 1.0%float (success_rate existing) in
  let count := default 1 (times_used existing) in
  let divisor := default 1 (times_used existing) + 1 in
  if divisor =? 0 then Raise ZeroDivisionError
  else
    Ok (set_success_rate
          ((rate * float_of_Z count + 1.0) / float_of_Z divisor)%float
          existing).

(** The loop of [save_skill]: [Ok None] when it ends without a match,
    [Ok (Some l)] when it leaves through [break] with the list [l]. *)
Fixpoint update_existing (skill : Skill) (existing_skills : list Skill)
  : result (option (list Skill)) :=
  match existing_skills with
  | [] => Ok None
  | existing :: rest =>
      match skill_id skill with
      | None => Raise (KeyError "skill_id")
      | Some sid =>
          if decide (skill_id existing = Some sid) then
            match merge existing skill with
            | Ok e => Ok (Some (e :: rest))
            | Raise x => Raise x
            end
          else
            match update_existing skill rest with
            | Ok (Some rest') => Ok (Some (existing :: rest'))
            | other => other
            end
      end
  end.

(** [save_skill] on the parsed lines of the skill file (none when the
    file is absent); the result is what is written back. *)
Definition save_skill (skill : Skill) (file : option (list Skill))
  : result (list Skill) :=
  let existing_skills := default [] file in
  match update_existing skill existing_skills with
  | Ok (Some updated) => Ok updated
  | Ok None => Ok (existing_skills ++ [skill])%list
  | Raise x => Raise x
  end.

Definition clear_working_memory (w : World) : World :=
  set_context_buffer None w.

Section Capture.

Variable md5_hexdigest : string -> string.

Definition build_session_data (working : WorkingMemory)
    (session_id : string) (now_ : datetime) (w : World) : SessionData :=
  {| session_id := session_id;
     timestamp_start := default (isoformat now_) (started_at working);
     timestamp_end := isoformat now_;
     project_path := default (cwd w) (wm_project_path working);
     initial_task := default "Unknown task" (current_task working);
     outcome := "success";
     tools_used := wm_tools_used working;
     files_modified := wm_files_modified working;
     decisions_made := wm_decisions_made working;
     tokens_used := accumulated_context_tokens working;
     key_decisions := [] |}.

(** [capture_session]. The hook input is not read by the function, so
    it is not a parameter of the model. The second component is the
    exception that ends the call early, if any. *)
Definition capture_session (w : World) : World * option exn :=
  let working := load_working_memory w in
  let '(session_id, w) := get_session_id w in
  let '(now_, c) := now (clock w) in
  let w := set_clock c w in
  let session_data := build_session_data working session_id now_ w in
  let w := save_session_record session_data w in
  let outcome_record :=
    {| o_timestamp := isoformat now_;
       o_session_id := session_id;
       o_task := initial_task session_data;
       o_outcome := outcome session_data;
       o_tokens := tokens_used session_data;
       o_project := project_path session_data |} in
  if String.eqb (outcome session_data) "success" then
    let w := append_outcome "successes" outcome_record w in
    let '(skill, c) := extract_skill md5_hexdigest session_data (clock w) in
    let w := set_clock c w in
    match skill with
    | Some skill =>
        match save_skill skill (skills_file w) with
        | Ok written =>
            (clear_working_memory (set_skills_file (Some written) w), None)
        | Raise x => (w, Some x)
        end
    | None => (clear_working_memory w, None)
    end
  else
    let w := append_outcome "failures" outcome_record w in
    (clear_working_memory w, None).

End Capture.

End CaptureSession.

(** ** Python sequences *)

Module PySeq.

(** An index of a slice, clamped as Python does for a sequence of [n]
    elements: negative indices count from the end. *)
Definition clamp (n : nat) (i : Z) : nat :=
  if i <? 0 then Z.to_nat (Z.max 0 (Z.of_nat n + i))
  else Z.to_nat (Z.min i (Z.of_nat n)).

(** [l[lo:hi]]; [None] is an omitted bound. *)
Definition slice {A : Type} (lo hi : option Z) (l : list A) : list A :=
  let n := length l in
  let a := from_option (clamp n) O lo in
  let b := from_option (clamp n) n hi in
  firstn (b - a) (skipn a l).

(** [list.sort(key=fst, reverse=True)] on scored items. Python's sort is
    stable, also under [reverse=True]; the model is the stable insertion
    sort, which yields the same list as any other stable sort. *)
Fixpoint insert_desc {A : Type} (x : nat * A) (l : list (nat * A))
  : list (nat * A) :=
  match l with
  | [] => [x]
  | y :: r =>
      if (fst y <=? fst x)%nat then x :: y :: r else y :: insert_desc x r
  end.

Fixpoint sort_desc {A : Type} (l : list (nat * A)) : list (nat * A) :=
  match l with
  | [] => []
  | x :: r => insert_desc x (sort_desc r)
  end.

End PySeq.

(** ** scripts/memory-retrieval.py *)

Module MemoryRetrieval.

(** [sum(1 for t in triggers if t.lower() in task_lower)] *)
Definition trigger_matches (task_lower : string) (triggers : list string) : nat :=
  length (filter (fun t => Is_true (PyStr.contains (PyStr.lower t) task_lower))
                 triggers).

(** [sum(1 for w in task_words if w in description)] *)
Definition word_matches (task_words : list string) (description : string) : nat :=
  length (filter (fun w => Is_true (PyStr.contains w description)) task_words).

(** [set(re.findall(r'\w+', task_lower))], listed without repetition. *)
Definition task_words (task_lower : string) : list string :=
  remove_dups (PyStr.findall_words task_lower).

(** The score the loop of [match_skills] gives one skill. *)
Definition score (task : string) (skill : Skill) : nat :=
  let task_lower := PyStr.lower task in
  let description := PyStr.lower (description skill) in
  (trigger_matches task_lower (triggers skill) * 2
   + word_matches (task_words task_lower) description)%nat.

(** [scored_skills] as the loop leaves it. *)
Fixpoint scored_skills (task : string) (skills : list Skill)
  : list (nat * Skill) :=
  match skills with
  | [] => []
  | skill :: rest =>
      let score := score task skill in
      if (0 <? score)%nat then (score, skill) :: scored_skills task rest
      else scored_skills task rest
  end.

Definition match_skills (task : string) (skills : list Skill) : list Skill :=
  if String.eqb task "" then []
  else
    map snd (PySeq.slice None (Some 3) (PySeq.sort_desc (scored_skills task skills))).

(** The score as the specification words it: twice the triggers found in
    the lowercased task, plus the distinct words of the skill's description
    found in the lowercased task. *)
Definition spec_score (task : string) (skill : Skill) : nat :=
  let task_lower := PyStr.lower task in
  let description_words :=
    remove_dups (PyStr.findall_words (PyStr.lower (description skill))) in
  (2 * trigger_matches task_lower (triggers skill)
   + length (filter (fun w => Is_true (PyStr.contains w task_lower))
                    description_words))%nat.

(** The table of [detect_domains], in the order the dictionary lists it. *)
Definition domain_keywords : list (string * list string) :=
  [("auth", ["auth"; "login"; "jwt"; "token"; "session"; "password"; "user"]);
   ("api", ["api"; "endpoint"; "route"; "rest"; "graphql"; "request"; "response"]);
   ("database", ["database"; "db"; "sql"; "query"; "postgres"; "mysql"; "mongo";
                 "migration"]);
   ("testing", ["test"; "jest"; "coverage"; "mock"; "spec"; "unit"; "integration"]);
   ("frontend", ["react"; "component"; "ui"; "css"; "html"; "dom"; "render"]);
   ("deployment", ["deploy"; "docker"; "ci"; "cd"; "pipeline"; "build"; "release"])].

(** [any(kw in task_lower for kw in keywords)] *)
Definition any_keyword (task_lower : string) (keywords : list string) : bool :=
  existsb (fun kw => PyStr.contains kw task_lower) keywords.

(** [detect_domains] *)
Definition detect_domains (task : string) : list string :=
  let task_lower := PyStr.lower task in
  map fst (filter (fun dk => Is_true (any_keyword task_lower (snd dk)))
                  domain_keywords).

Section Outcomes.

(** One record of an outcomes file, and [json.loads] of one of its lines
    ([None] when it raises). *)
Variable Outcome : Type.
Variable json_loads : string -> option Outcome.

(** What the loop of [load_recent_outcomes] keeps of the lines it is
    given: those that are not blank and that parse. *)
Definition parse_lines (lines : list string) : list Outcome :=
  omap (fun line => if PyStr.is_blank line then None else json_loads line) lines.

(** [load_recent_outcomes] on the content of the outcomes file, [None]
    when the file does not exist. *)
Definition load_recent_outcomes (n : Z) (outcome_file : option string)
  : list Outcome :=
  match outcome_file with
  | None => []
  | Some text => parse_lines (PySeq.slice (Some (- n)) None (PyStr.splitlines text))
  end.

End Outcomes.

End MemoryRetrieval.

(** ** scripts/context-compression.py *)

Module ContextCompression.

(** [estimate_tokens] *)
Definition estimate_tokens (text : string) : Z :=
  Z.of_nat (String.length text) / 4.

(** A JSON number as Python holds it. *)
Inductive number :=
| Int (z : Z)
| Float (f : float).

(** The dictionary [compress_messages] returns; a key the dictionary lacks
    is [None]. *)
Record CompressionResult (Message : Type) := {
  head : list Message;
  summary : string;
  tail : list Message;
  key_points : list string;
  original_count : option nat;
  compressed_count : option Z;
  token_reduction : option number
}.
Arguments head {Message} _.
Arguments summary {Message} _.
Arguments tail {Message} _.
Arguments key_points {Message} _.
Arguments original_count {Message} _.
Arguments compressed_count {Message} _.
Arguments token_reduction {Message} _.

Section Compress.

(** A message is a JSON object; the compressor reads it through [str(m)]
    and through the text analyses of the middle section. *)
Variable Message : Type.
(** [str(m)] *)
Variable py_str : Message -> string.
(** [extract_key_points] (lines 38-71). *)
Variable extract_key_points : list Message -> list string.
(** The summary text built from the middle section and its key points
    (lines 120-146). *)
Variable middle_summary : list Message -> list string -> string.
(** [round(x, 1)] on a float. *)
Variable round1 : float -> float.

Definition sum_tokens (messages : list Message) : Z :=
  fold_right (fun m acc => estimate_tokens (py_str m) + acc) 0 messages.

Definition compress_messages (messages : list Message)
    (head_count tail_count max_tokens : Z) : CompressionResult Message :=
  match messages with
  | [] =>
      {| head := []; summary := ""; tail := []; key_points := [];
         original_count := None; compressed_count := None;
         token_reduction := None |}
  | _ =>
      let total_messages := length messages in
      let total_tokens := sum_tokens messages in
      if total_tokens <=? max_tokens then
        {| head := messages; summary := ""; tail := []; key_points := [];
           original_count := Some total_messages;
           compressed_count := Some (Z.of_nat total_messages);
           token_reduction := Some (Int 0) |}
      else
        let head_ := PySeq.slice None (Some head_count) messages in
        let tail_ :=
          if head_count + tail_count <? Z.of_nat (length messages)
          then PySeq.slice (Some (- tail_count)) None messages
          else [] in
        let middle :=
          match tail_ with
          | [] => PySeq.slice (Some head_count) None messages
          | _ => PySeq.slice (Some head_count) (Some (- tail_count)) messages
          end in
        let key_points_ := extract_key_points middle in
        let summary_ := middle_summary middle key_points_ in
        let compressed_tokens :=
          sum_tokens head_ + estimate_tokens summary_ + sum_tokens tail_ in
        let reduction :=
          if 0 <? total_tokens then
            Float (round1 ((float_of_Z (total_tokens - compressed_tokens)
                            / float_of_Z total_tokens) * 100)%float)
          else Int 0 in
        {| head := head_; summary := summary_; tail := tail_;
           key_points := key_points_;
           original_count := Some total_messages;
           compressed_count :=
             Some (head_count + 1 + Z.of_nat (length tail_));
           token_reduction := Some reduction |}
  end.

(** The middle section of [compress_messages], which it hands to the
    text analyses once the messages exceed the budget. *)
Definition middle_section (messages : list Message)
    (head_count tail_count : Z) : list Message :=
  let tail_ :=
    if head_count + tail_count <? Z.of_nat (length messages)
    then PySeq.slice (Some (- tail_count)) None messages
    else [] in
  match tail_ with
  | [] => PySeq.slice (Some head_count) None messages
  | _ => PySeq.slice (Some head_count) (Some (- tail_count)) messages
  end.

End Compress.

(** [working/persistent-summary.json] *)
Record Persistent := {
  summaries : list (string * string);
  accumulated_key_points : list string;
  last_updated : option string
}.

Record World := {
  clock : Clock;
  summary_file : option Persistent
}.

(** [load_persistent_summary]; [None] is a missing or unreadable file. *)
Definition load_persistent_summary (w : World) : Persistent :=
  default {| summaries := []; accumulated_key_points := [];
             last_updated := None |} (summary_file w).

Definition save_persistent_summary (p : Persistent) (w : World) : World :=
  let '(dt, c) := now (clock w) in
  {| clock := c;
     summary_file :=
       Some {| summaries := summaries p;
               accumulated_key_points := accumulated_key_points p;
               last_updated := Some (isoformat dt) |} |}.

Section Digest.

(** [list(s)] for the set [s] obtained by inserting the given strings in
    the given order. CPython fixes neither the order nor its relation to
    the insertions: it follows the hash values, which vary from run to
    run. *)
Variable set_order : list string -> list string.

Definition update_persistent_summary (new_summary : string)
    (new_key_points : list string) (w : World) : World :=
  let persistent := load_persistent_summary w in
  let '(dt, c) := now (clock w) in
  let w := {| clock := c; summary_file := summary_file w |} in
  let summaries_ :=
    PySeq.slice (Some (-5)) None
      (summaries persistent ++ [(isoformat dt, new_summary)])%list in
  let existing_points :=
    (accumulated_key_points persistent ++ new_key_points)%list in
  let points := PySeq.slice (Some (-20)) None (set_order existing_points) in
  save_persistent_summary
    {| summaries := summaries_; accumulated_key_points := points;
       last_updated := last_updated persistent |} w.

End Digest.

(** What every iteration order of a set satisfies: each member is listed,
    once. *)
Definition lists_the_set (set_order : list string -> list string) : Prop :=
  forall l, NoDup (set_order l) /\ forall x, In x (set_order l) <-> In x l.

(** ** Key points *)

(** The [content] of a message as [extract_key_points] reads it: a
    string, or a list, of which the items that are strings ([Some]) are
    joined by spaces and the others skipped. A message without [content]
    has the empty string. A content of another kind (a number, [null], an
    object) has no [lower] method: the function raises on it, and such a
    message has no [Content]; [run_compress] below takes it as one that
    cannot be read. *)
Inductive Content :=
| Text (s : string)
| Parts (items : list (option string)).

Definition content_text (c : Content) : string :=
  match c with
  | Text s => s
  | Parts items => PyStr.join " " (omap (fun i => i) items)
  end.

(** The table [keywords] of [extract_key_points], in the order the
    dictionary lists it. *)
Definition key_point_keywords : list (string * list string) :=
  [("decision", ["decided"; "chose"; "using"; "will use"; "going with"]);
   ("action", ["created"; "modified"; "deleted"; "added"; "removed"; "fixed"]);
   ("error", ["error"; "failed"; "issue"; "problem"; "bug"]);
   ("finding", ["found"; "discovered"; "noticed"; "identified"])].

(** The class [[.!?]] *)
Definition is_sentence_end (c : ascii) : bool :=
  let n := nat_of_ascii c in
  (n =? 46)%nat || (n =? 33)%nat || (n =? 63)%nat.

(** The innermost loop: the first sentence that contains the keyword and
    is longer than twenty characters once stripped. *)
Definition sentence_with (kw : string) (sentences : list string) : option string :=
  find (fun sent =>
          PyStr.contains kw (PyStr.lower sent)
          && (20 <? String.length (PyStr.strip sent))%nat)
       sentences.

(** The loop over the keywords of one category: it stops at the first
    keyword the content contains, whether or not a sentence is found. *)
Definition category_points (content : string) (category : string * list string)
  : list string :=
  match find (fun kw => PyStr.contains kw (PyStr.lower content)) (snd category) with
  | None => []
  | Some kw =>
      match sentence_with kw (PyStr.split_on is_sentence_end [] content) with
      | Some sent =>
          ["[" ++ fst category ++ "] " ++ PyStr.take 100 (PyStr.strip sent)]
      | None => []
      end
  end.

Section KeyPoints.

Variable Message : Type.
(** [msg.get('content', '')] *)
Variable content : Message -> Content.
(** [list(s)] for the set of the given strings, as in [Digest]. *)
Variable set_order : list string -> list string.

(** [key_points] as the loops leave it. *)
Definition collected_points (messages : list Message) : list string :=
  flat_map (fun msg =>
              flat_map (category_points (content_text (content msg)))
                       key_point_keywords)
           messages.

(** [extract_key_points] *)
Definition extract_key_points (messages : list Message) : list string :=
  PySeq.slice None (Some 10) (set_order (collected_points messages)).

End KeyPoints.

Section Main.

Variable Message : Type.
Variable py_str : Message -> string.
(** Whether the text analyses can read a message: it is an object, and
    its [content] is absent, a string or a list. On any other message
    [msg.get] or [content.lower()] raises [AttributeError]. *)
Variable readable : Message -> bool.
(** [extract_key_points] and the summary text, on a middle section of
    readable messages. *)
Variable key_points_of : list Message -> list string.
Variable middle_summary : list Message -> list string -> string.
Variable round1 : float -> float.
Variable set_order : list string -> list string.

(** The branch of [main] that runs on the messages read from [--input]:
    compress, feed the persistent digest when the summary is not empty,
    write or print the result, then print the two closing lines, which
    read [original_count], [compressed_count] and [token_reduction] from
    the result. The second component is the exception that ends the call,
    if any. Once the messages exceed the budget, [compress_messages] runs
    [extract_key_points] on the middle section, which raises on the first
    message it cannot read, before anything is written. *)
Definition run_compress (messages : list Message)
    (head_count tail_count max_tokens : Z) (w : World) : World * option exn :=
  let over_budget :=
    match messages with
    | [] => false
    | _ => negb (sum_tokens Message py_str messages <=? max_tokens)
    end in
  if over_budget
     && negb (forallb readable (middle_section Message messages head_count tail_count))
  then (w, Some AttributeError)
  else
    let result :=
      compress_messages Message py_str key_points_of middle_summary round1
        messages head_count tail_count max_tokens in
    let w :=
      if String.eqb (summary result) "" then w
      else update_persistent_summary set_order (summary result) (key_points result) w in
    match original_count result, compressed_count result, token_reduction result with
    | None, _, _ => (w, Some (KeyError "original_count"))
    | Some _, None, _ => (w, Some (KeyError "compressed_count"))
    | Some _, Some _, None => (w, Some (KeyError "token_reduction"))
    | Some _, Some _, Some _ => (w, None)
    end.

End Main.

End ContextCompression.

(** ** scripts/harness-evolve.py *)

Module HarnessEvolve.

(** One entry of the analysis's [recommendations]. *)
Record Recommendation := {
  severity : option string;
  rec_category : option string;
  rec_issue : option string;
  rec_recommendation : option string
}.

(** The [data] of a proposal or of a history entry. *)
Inductive Payload :=
| SkillData (s : Skill)
| RoutingData (from_tool to_tool pattern : string)
| ThresholdData (metric : string) (current_value suggested_value : Z)
| ReviewData (rec : Recommendation).

Record Proposal := {
  id : option string;
  type : option string;
  data : option Payload;
  reason : option string;
  status : option string;
  timestamp : option string;
  updated_at : option string;
  message : option string
}.

Record HistoryEntry := {
  h_timestamp : option string;
  h_proposal_id : option string;
  h_type : option string;
  h_skill_id : option string;
  h_backup : option string;
  h_data : option Payload;
  h_note : option string;
  h_rolled_back : option string;
  h_restored_from : option string
}.

(** One entry of [routing.efficiency_issues]. *)
Record Issue := {
  issue : string;
  count : Z
}.

(** [metrics/latest_analysis.json] *)
Record Analysis := {
  a_status : option string;
  common_missed_patterns : list (string * Z);
  efficiency_issues : list Issue;
  success_rate_pct : option float;
  recommendations : list Recommendation
}.

(** The stores the script reads and writes. [files] holds the files whose
    bytes matter, by path: the skill collection and its backups.
    [latest_analysis] is [None] when the file is missing or holds the empty
    object; the two JSON-lines stores are [None] when their file is
    missing. *)
Record World := {
  clock : Clock;
  files : gmap string string;
  latest_analysis : option Analysis;
  proposals_file : option (list Proposal);
  history_file : option (list HistoryEntry)
}.

Definition set_clock (c : Clock) (w : World) : World :=
  {| clock := c; files := files w; latest_analysis := latest_analysis w;
     proposals_file := proposals_file w; history_file := history_file w |}.

Definition set_files (f : gmap string string) (w : World) : World :=
  {| clock := clock w; files := f; latest_analysis := latest_analysis w;
     proposals_file := proposals_file w; history_file := history_file w |}.

Definition set_proposals (l : list Proposal) (w : World) : World :=
  {| clock := clock w; files := files w; latest_analysis := latest_analysis w;
     proposals_file := Some l; history_file := history_file w |}.

Definition set_history (l : list HistoryEntry) (w : World) : World :=
  {| clock := clock w; files := files w; latest_analysis := latest_analysis w;
     proposals_file := proposals_file w; history_file := Some l |}.

Definition set_status (s t : string) (p : Proposal) : Proposal :=
  {| id := id p; type := type p; data := data p; reason := reason p;
     status := Some s; timestamp := timestamp p; updated_at := Some t;
     message := message p |}.

(** [data.get(key)] on the payloads that have the key. *)
Definition payload_skill_id (d : option Payload) : option string :=
  match d with Some (SkillData s) => skill_id s | _ => None end.

Definition payload_name (d : option Payload) : option string :=
  match d with Some (SkillData s) => Some (name s) | _ => None end.

Definition payload_from_tool (d : option Payload) : option string :=
  match d with Some (RoutingData f _ _) => Some f | _ => None end.

Definition payload_to_tool (d : option Payload) : option string :=
  match d with Some (RoutingData _ t _) => Some t | _ => None end.

Definition payload_metric (d : option Payload) : option string :=
  match d with Some (ThresholdData m _ _) => Some m | _ => None end.

(** The first match of [re.search(r'(\w+)->(\w+)', s)]: the leftmost run of
    word characters that an arrow and a word character follow, with the run
    of word characters after the arrow. Neither character of the arrow is a
    word character, so a match can only start at the start of a run.
    [acc] holds the run being read, reversed. *)
Fixpoint word_prefix (s : string) : string :=
  match s with
  | EmptyString => EmptyString
  | String c r => if PyStr.is_word c then String c (word_prefix r) else EmptyString
  end.

Fixpoint search_arrow_aux (acc : list ascii) (s : string)
  : option (string * string) :=
  match s with
  | EmptyString => None
  | String c r =>
      if PyStr.is_word c then search_arrow_aux (c :: acc) r
      else
        match acc, s with
        | _ :: _, String "-" (String ">" after) =>
            match word_prefix after with
            | EmptyString => search_arrow_aux [] r
            | to_tool => Some (string_of_list_ascii (rev acc), to_tool)
            end
        | _, _ => search_arrow_aux [] r
        end
  end.

Definition search_arrow (s : string) : option (string * string) :=
  search_arrow_aux [] s.

Section Paths.

(** [str(Path.home())] *)
Variable home : string.

Definition CLAUDE_DIR : string := home ++ "/.claude".
Definition MEMORY_DIR : string := CLAUDE_DIR ++ "/memory".
Definition METRICS_DIR : string := CLAUDE_DIR ++ "/metrics".
Definition EVOLUTION_DIR : string := METRICS_DIR ++ "/evolution".
Definition BACKUP_DIR : string := EVOLUTION_DIR ++ "/backups".
Definition skills_file : string := MEMORY_DIR ++ "/procedural/skills.jsonl".
(** [skills_file.name] *)
Definition skills_file_name : string := "skills.jsonl".

(** [hashlib.md5(s.encode()).hexdigest()] *)
Variable md5_hexdigest : string -> string.
(** [json.dumps] of a proposal's data; [None] is the empty object that
    [proposal.get('data', {})] falls back to. *)
Variable json_dumps : option Payload -> string.
(** [json.loads] of one line of the skill collection; [None] when it
    raises. *)
Variable json_loads : string -> option Skill.
(** [str] of a float. *)
Variable str_float : float -> string.

Definition generate_proposal_id (c : Clock) : string * Clock :=
  let '(dt, c) := now c in
  ("prop_" ++ strftime_compact dt, c).

(** [load_skills]: the lines that are not blank and that parse. *)
Definition load_skills (w : World) : list Skill :=
  match files w !! skills_file with
  | None => []
  | Some text =>
      omap (fun line => if PyStr.is_blank line then None else json_loads line)
           (PyStr.splitlines text)
  end.

Definition load_proposals (w : World) : list Proposal :=
  default [] (proposals_file w).

Definition load_history (w : World) : list HistoryEntry :=
  default [] (history_file w).

Definition save_proposal (p : Proposal) (w : World) : World :=
  set_proposals (load_proposals w ++ [p])%list w.

Definition save_history (e : HistoryEntry) (w : World) : World :=
  set_history (load_history w ++ [e])%list w.

(** [backup_file] of the skill collection. *)
Definition backup_file (w : World) : option string * World :=
  match files w !! skills_file with
  | None => (None, w)
  | Some content =>
      let '(dt, c) := now (clock w) in
      let backup_name := skills_file_name ++ "." ++ strftime_compact dt ++ ".bak" in
      let backup_path := BACKUP_DIR ++ "/" ++ backup_name in
      (Some backup_path, set_files (<[backup_path := content]> (files w)) (set_clock c w))
  end.

(** The test of the nested loops of [propose_skill_from_pattern]. *)
Definition similar_skill_exists (pattern : string) (skills : list Skill) : bool :=
  existsb (fun skill =>
             existsb (fun trigger =>
                        PyStr.contains (PyStr.lower pattern) (PyStr.lower trigger))
                     (triggers skill))
          skills.

(** [propose_skill_from_pattern]; the proposal has no [id], [timestamp]
    or [status] yet. *)
Definition propose_skill_from_pattern (pattern : string) (count : Z) (w : World)
  : option Proposal :=
  let skill_id_ := "skill_auto_" ++ PyStr.take 8 (md5_hexdigest pattern) in
  if similar_skill_exists pattern (load_skills w) then None
  else
    Some {| id := None;
            type := Some "skill_add";
            data := Some (SkillData
              {| skill_id := Some skill_id_;
                 name := "auto-" ++ PyStr.replace_char " " "-" pattern;
                 description := "Auto-generated skill for: " ++ pattern;
                 triggers := [pattern; PyStr.replace_char "-" " " pattern];
                 prerequisites := [];
                 key_steps := ["Step 1: TBD - Fill in based on successful patterns"];
                 tools_typically_used := ["Read"; "Edit"; "Bash"];
                 estimated_tokens := 2000;
                 success_rate := Some 0%float;
                 times_used := Some 0;
                 last_used := None;
                 created_from_session := "auto_evolution" |});
            reason := Some ("Pattern " ++ PyStr.dquote ++ pattern ++ PyStr.dquote
                            ++ " appeared " ++ PyStr.of_Z count
                            ++ " times without matching skill");
            status := None; timestamp := None; updated_at := None;
            message := None |}.

Definition propose_routing_update (tool alternative : string) (count : Z)
  : Proposal :=
  {| id := None;
     type := Some "routing_update";
     data := Some (RoutingData tool alternative
                     ("auto-detected from " ++ PyStr.of_Z count ++ " occurrences"));
     reason := Some (alternative ++ " was suggested " ++ PyStr.of_Z count
                     ++ " times when " ++ tool ++ " was used");
     status := None; timestamp := None; updated_at := None; message := None |}.

(** The three assignments that complete a proposal: [id], [timestamp],
    [status]. *)
Definition stamp (p : Proposal) (c : Clock) : Proposal * Clock :=
  let '(id_, c) := generate_proposal_id c in
  let '(dt, c) := now c in
  ({| id := Some id_; type := type p; data := data p; reason := reason p;
      status := Some "pending"; timestamp := Some (isoformat dt);
      updated_at := updated_at p; message := message p |}, c).

(** Loop 1 of [generate_proposals]: missed patterns. *)
Fixpoint skill_proposals (w : World) (missed_patterns : list (string * Z))
    (c : Clock) : list Proposal * Clock :=
  match missed_patterns with
  | [] => ([], c)
  | (pattern, count) :: rest =>
      if 3 <=? count then
        match propose_skill_from_pattern pattern count w with
        | Some skill_proposal =>
            let '(p, c) := stamp skill_proposal c in
            let '(ps, c) := skill_proposals w rest c in
            (p :: ps, c)
        | None => skill_proposals w rest c
        end
      else skill_proposals w rest c
  end.

(** Loop 2: routing updates. *)
Fixpoint routing_proposals (issues : list Issue) (c : Clock)
  : list Proposal * Clock :=
  match issues with
  | [] => ([], c)
  | i :: rest =>
      if PyStr.contains "pattern" (PyStr.lower (issue i)) then
        match search_arrow (issue i) with
        | Some (from_tool, to_tool) =>
            let '(p, c) := stamp (propose_routing_update from_tool to_tool (count i)) c in
            let '(ps, c) := routing_proposals rest c in
            (p :: ps, c)
        | None => routing_proposals rest c
        end
      else routing_proposals rest c
  end.

(** Step 3: the threshold adjustment. *)
Definition threshold_proposals (success_rate : float) (c : Clock)
  : list Proposal * Clock :=
  if PrimFloat.ltb success_rate 60 then
    let '(id_, c) := generate_proposal_id c in
    let '(dt, c) := now c in
    ([{| id := Some id_;
         type := Some "threshold_adjust";
         data := Some (ThresholdData "success_rate_low" 70 60);
         reason := Some ("Current success rate (" ++ str_float success_rate
                         ++ "%) is below threshold");
         status := Some "pending"; timestamp := Some (isoformat dt);
         updated_at := None; message := None |}], c)
  else ([], c).

(** Loop 4: high-severity recommendations. *)
Fixpoint review_proposals (recs : list Recommendation) (c : Clock)
  : list Proposal * Clock :=
  match recs with
  | [] => ([], c)
  | rec :: rest =>
      if bool_decide (severity rec = Some "high") then
        let '(id_, c) := generate_proposal_id c in
        let '(dt, c) := now c in
        let p :=
          {| id := Some id_;
             type := Some "manual_review";
             data := Some (ReviewData rec);
             reason := Some "High severity issue requiring manual review";
             status := Some "pending"; timestamp := Some (isoformat dt);
             updated_at := None; message := None |} in
        let '(ps, c) := review_proposals rest c in
        (p :: ps, c)
      else review_proposals rest c
  end.

Definition generate_proposals (w : World) : list Proposal * World :=
  let no_data c :=
    let '(id_, c) := generate_proposal_id c in
    ([{| id := Some id_; type := Some "info"; data := None; reason := None;
         status := None; timestamp := None; updated_at := None;
         message := Some "Insufficient data for proposals. Continue using the harness." |}],
     set_clock c w) in
  match latest_analysis w with
  | None => no_data (clock w)
  | Some analysis =>
      if bool_decide (a_status analysis = Some "no_data") then no_data (clock w)
      else
        let '(p1, c) := skill_proposals w (common_missed_patterns analysis) (clock w) in
        let '(p2, c) := routing_proposals (efficiency_issues analysis) c in
        let '(p3, c) :=
          threshold_proposals (default 100%float (success_rate_pct analysis)) c in
        let '(p4, c) := review_proposals (recommendations analysis) c in
        ((p1 ++ p2 ++ p3 ++ p4)%list, set_clock c w)
  end.

(** The [--propose] branch of [main]: generate, then append every pending
    proposal to the proposal store. *)
Definition run_propose (w : World) : list Proposal * World :=
  let '(proposals, w) := generate_proposals w in
  (proposals,
   fold_left (fun w p =>
                if bool_decide (status p = Some "pending") then save_proposal p w
                else w)
             proposals w).

(** [update_proposal_status]; the clock is read once for each proposal
    that carries the identifier. *)
Fixpoint mark (proposal_id : option string) (status_ : string)
    (proposals : list Proposal) (c : Clock) : list Proposal * Clock :=
  match proposals with
  | [] => ([], c)
  | p :: rest =>
      if bool_decide (id p = proposal_id) then
        let '(dt, c) := now c in
        let '(ps, c) := mark proposal_id status_ rest c in
        (set_status status_ (isoformat dt) p :: ps, c)
      else
        let '(ps, c) := mark proposal_id status_ rest c in
        (p :: ps, c)
  end.

Definition update_proposal_status (proposal_id : option string)
    (status_ : string) (w : World) : World :=
  let '(updated, c) := mark proposal_id status_ (load_proposals w) (clock w) in
  set_proposals updated (set_clock c w).

Definition apply_skill_add (proposal : Proposal) (w : World)
  : (bool * string) * World :=
  let '(backup_path, w) := backup_file w in
  let skill := data proposal in
  let w :=
    set_files (<[skills_file :=
                   default "" (files w !! skills_file)
                   ++ json_dumps skill ++ PyStr.newline]> (files w)) w in
  let '(dt, c) := now (clock w) in
  let w :=
    save_history
      {| h_timestamp := Some (isoformat dt);
         h_proposal_id := id proposal;
         h_type := Some "skill_add";
         h_skill_id := payload_skill_id skill;
         h_backup := backup_path;
         h_data := None; h_note := None;
         h_rolled_back := None; h_restored_from := None |}
      (set_clock c w) in
  let w := update_proposal_status (id proposal) "applied" w in
  ((true, "Added skill: " ++ PyStr.fmt (payload_name skill)), w).

Definition apply_routing_update (proposal : Proposal) (w : World)
  : (bool * string) * World :=
  let '(dt, c) := now (clock w) in
  let w :=
    save_history
      {| h_timestamp := Some (isoformat dt);
         h_proposal_id := id proposal;
         h_type := Some "routing_update";
         h_skill_id := None; h_backup := None;
         h_data := data proposal;
         h_note := Some "Routing update recorded - manual review recommended";
         h_rolled_back := None; h_restored_from := None |}
      (set_clock c w) in
  let w := update_proposal_status (id proposal) "recorded" w in
  ((true, "Routing update recorded: "
          ++ PyStr.fmt (payload_from_tool (data proposal)) ++ " -> "
          ++ PyStr.fmt (payload_to_tool (data proposal))), w).

Definition apply_threshold_adjust (proposal : Proposal) (w : World)
  : (bool * string) * World :=
  let '(dt, c) := now (clock w) in
  let w :=
    save_history
      {| h_timestamp := Some (isoformat dt);
         h_proposal_id := id proposal;
         h_type := Some "threshold_adjust";
         h_skill_id := None; h_backup := None;
         h_data := data proposal;
         h_note := Some "Threshold adjustment recorded - manual update recommended";
         h_rolled_back := None; h_restored_from := None |}
      (set_clock c w) in
  let w := update_proposal_status (id proposal) "recorded" w in
  ((true, "Threshold adjustment recorded: "
          ++ PyStr.fmt (payload_metric (data proposal))), w).

(** The search loop of [apply_proposal]. *)
Definition find_proposal (proposal_id : string) (proposals : list Proposal)
  : option Proposal :=
  List.find (fun p => bool_decide (id p = Some proposal_id)) proposals.

Definition apply_proposal (proposal_id : string) (dry_run : bool) (w : World)
  : (bool * string) * World :=
  match find_proposal proposal_id (load_proposals w) with
  | None => ((false, "Proposal " ++ proposal_id ++ " not found"), w)
  | Some proposal =>
      if bool_decide (status proposal = Some "applied") then
        ((false, "Proposal " ++ proposal_id ++ " already applied"), w)
      else
        let prop_type := type proposal in
        if dry_run then
          ((true, "[DRY RUN] Would apply " ++ PyStr.fmt prop_type ++ ": "
                  ++ PyStr.fmt (reason proposal)), w)
        else if bool_decide (prop_type = Some "skill_add") then
          apply_skill_add proposal w
        else if bool_decide (prop_type = Some "routing_update") then
          apply_routing_update proposal w
        else if bool_decide (prop_type = Some "threshold_adjust") then
          apply_threshold_adjust proposal w
        else if bool_decide (prop_type = Some "manual_review") then
          ((false, "Manual review items cannot be auto-applied"), w)
        else
          ((false, "Unknown proposal type: " ++ PyStr.fmt prop_type), w)
  end.

Definition rollback_last (w : World) : (bool * string) * World :=
  match last (load_history w) with
  | None => ((false, "No history to rollback"), w)
  | Some last_ =>
      match h_backup last_ with
      | None => ((false, "No backup available for rollback"), w)
      | Some backup_path =>
          match (if String.eqb backup_path "" then None
                 else files w !! backup_path) with
          | None => ((false, "No backup available for rollback"), w)
          | Some content =>
              if bool_decide (h_type last_ = Some "skill_add") then
                let w := set_files (<[skills_file := content]> (files w)) w in
                let '(dt, c) := now (clock w) in
                let w :=
                  save_history
                    {| h_timestamp := Some (isoformat dt);
                       h_proposal_id := None;
                       h_type := Some "rollback";
                       h_skill_id := None; h_backup := None;
                       h_data := None; h_note := None;
                       h_rolled_back := h_proposal_id last_;
                       h_restored_from := Some backup_path |}
                    (set_clock c w) in
                ((true, "Rolled back " ++ PyStr.fmt (h_type last_) ++ " from "
                        ++ PyStr.fmt (h_timestamp last_)), w)
              else
                ((false, "Rollback not supported for type: "
                         ++ PyStr.fmt (h_type last_)), w)
          end
      end
  end.

(** [not proposal] for a proposal read from the store: the empty
    dictionary. *)
Definition is_empty_dict (p : Proposal) : bool :=
  match id p, type p, data p, reason p, status p, timestamp p, updated_at p,
        message p with
  | None, None, None, None, None, None, None, None => true
  | _, _, _, _, _, _, _, _ => false
  end.

(** [apply_proposal] on whatever [p.get('id')] returns, [None] included:
    [--apply-all] passes the identifier of each pending proposal as it
    finds it. *)
Definition apply_proposal_any (proposal_id : option string) (dry_run : bool)
    (w : World) : (bool * string) * World :=
  match List.find (fun p => bool_decide (id p = proposal_id)) (load_proposals w) with
  | None => ((false, "Proposal " ++ PyStr.fmt proposal_id ++ " not found"), w)
  | Some proposal =>
      if is_empty_dict proposal then
        ((false, "Proposal " ++ PyStr.fmt proposal_id ++ " not found"), w)
      else if bool_decide (status proposal = Some "applied") then
        ((false, "Proposal " ++ PyStr.fmt proposal_id ++ " already applied"), w)
      else
        let prop_type := type proposal in
        if dry_run then
          ((true, "[DRY RUN] Would apply " ++ PyStr.fmt prop_type ++ ": "
                  ++ PyStr.fmt (reason proposal)), w)
        else if bool_decide (prop_type = Some "skill_add") then
          apply_skill_add proposal w
        else if bool_decide (prop_type = Some "routing_update") then
          apply_routing_update proposal w
        else if bool_decide (prop_type = Some "threshold_adjust") then
          apply_threshold_adjust proposal w
        else if bool_decide (prop_type = Some "manual_review") then
          ((false, "Manual review items cannot be auto-applied"), w)
        else
          ((false, "Unknown proposal type: " ++ PyStr.fmt prop_type), w)
  end.

(** [p.get('type') not in ['manual_review', 'info']] *)
Definition machine_applicable (p : Proposal) : bool :=
  negb (bool_decide (type p = Some "manual_review"))
  && negb (bool_decide (type p = Some "info")).

(** The loop of the [--apply-all] branch of [main] over the pending
    proposals it listed beforehand; a result is the identifier, the
    success and the message. *)
Fixpoint apply_each (pending : list Proposal) (dry_run : bool) (w : World)
  : list (option string * bool * string) * World :=
  match pending with
  | [] => ([], w)
  | p :: rest =>
      if machine_applicable p then
        let '((success, message_), w) := apply_proposal_any (id p) dry_run w in
        let '(results, w) := apply_each rest dry_run w in
        ((id p, success, message_) :: results, w)
      else apply_each rest dry_run w
  end.

(** The [--apply-all] branch of [main]. *)
Definition run_apply_all (dry_run : bool) (w : World)
  : list (option string * bool * string) * World :=
  let proposals := load_proposals w in
  let pending :=
    List.filter (fun p => bool_decide (status p = Some "pending")) proposals in
  apply_each pending dry_run w.

End Paths.

End HarnessEvolve.

(** * Concrete scenarios

    Stores, sessions and clocks on which the statements below are run. *)

Module Scenarios.

(** A clock that stands still within one second. *)
Definition noon : datetime :=
  {| year := 2025; month := 1; day := 15;
     hour := 12; minute := 0; second := 0; microsecond := 250 |}.

Definition frozen_clock : Clock := {| readings := fun _ => noon; tick := 0 |}.

(** A hash that is good enough to run the code on: the text itself. *)
Definition toy_md5 (s : string) : string := s.

(** A stored skill seen twice, once with success and once without. *)
Definition stored_half : Skill :=
  {| skill_id := Some "skill_ab12cd34";
     name := "fix-login-redirect";
     description := "Fix login redirect";
     triggers := ["fix"];
     prerequisites := [];
     key_steps := [];
     tools_typically_used := ["Read"; "Edit"];
     estimated_tokens := 1200;
     success_rate := Some 0.5%float;
     times_used := Some 2;
     last_used := Some "2025-01-10T09:00:00";
     created_from_session := "2025-01-10_001" |}.

(** The same task observed again, with success. *)
Definition incoming_half : Skill :=
  {| skill_id := Some "skill_ab12cd34";
     name := "fix-login-redirect";
     description := "Fix login redirect";
     triggers := ["fix"];
     prerequisites := [];
     key_steps := [];
     tools_typically_used := ["Read"];
     estimated_tokens := 900;
     success_rate := Some 1%float;
     times_used := Some 1;
     last_used := Some "2025-01-15T12:00:00.000250";
     created_from_session := "2025-01-15_001" |}.

Definition session_fix : CaptureSession.SessionData :=
  {| CaptureSession.session_id := "2025-01-15_001";
     CaptureSession.timestamp_start := "2025-01-15T11:00:00";
     CaptureSession.timestamp_end := "2025-01-15T12:00:00";
     CaptureSession.project_path := "/work/app";
     CaptureSession.initial_task := "Fix login redirect";
     CaptureSession.outcome := "success";
     CaptureSession.tools_used := ["Read"; "Edit"];
     CaptureSession.files_modified := [];
     CaptureSession.decisions_made := [];
     CaptureSession.tokens_used := 1200;
     CaptureSession.key_decisions := [] |}.


(** The two skills of the score-ordering example, and a skill whose
    description contains a word of the task without being one. *)
Definition bare_skill (sid : string) (description_ : string)
    (triggers_ : list string) : Skill :=
  {| skill_id := Some sid; name := sid; description := description_;
     triggers := triggers_; prerequisites := []; key_steps := [];
     tools_typically_used := []; estimated_tokens := 0;
     success_rate := Some 1%float; times_used := Some 1;
     last_used := None; created_from_session := "" |}.

Definition skill_a : Skill := bare_skill "A" "" ["auth"].
Definition skill_b : Skill := bare_skill "B" "" ["test"].
Definition skill_authentication : Skill := bare_skill "skill_9f2c" "authentication" [].

(** One iteration order a set of strings may have: most recent first. *)
Definition newest_first (l : list string) : list string := rev (remove_dups l).

(** Twenty accumulated key points, [point 1] the oldest. *)
Definition twenty_points : list string :=
  map (fun n => "point " ++ PyStr.of_nat n) (seq 1 20).

Definition digest_world (points : list string) : ContextCompression.World :=
  {| ContextCompression.clock := frozen_clock;
     ContextCompression.summary_file :=
       Some {| ContextCompression.summaries := [];
               ContextCompression.accumulated_key_points := points;
               ContextCompression.last_updated := None |} |}.

(** Seven compressions in a row, each folding its summary into the digest. *)
Definition seven_summaries : list string :=
  ["s1"; "s2"; "s3"; "s4"; "s5"; "s6"; "s7"].

Definition after_seven : ContextCompression.World :=
  fold_left
    (fun w s => ContextCompression.update_persistent_summary newest_first s [] w)
    seven_summaries (digest_world []).

(** A message is its text here; [str] is the identity. *)
Definition no_key_points (_ : list string) : list string := [].
Definition no_summary (_ : list string) (_ : list string) : string := "".
Definition no_rounding (f : float) : float := f.

(** The environment of the evolution script. *)
Definition home_dir : string := "/home/dev".

Definition toy_dumps (d : option HarnessEvolve.Payload) : string :=
  match d with
  | Some (HarnessEvolve.SkillData s) => "{skill: " ++ name s ++ "}"
  | Some _ => "{data}"
  | None => "{}"
  end.

Definition toy_loads (_ : string) : option Skill := None.

Definition toy_str_float (_ : float) : string := "45.0".

(** A clock that advances by a microsecond at each reading. *)
Definition ticking_clock : Clock :=
  {| readings := fun n =>
       {| year := 2025; month := 1; day := 15;
          hour := 12; minute := 0; second := 0;
          microsecond := 250 + n |};
     tick := 0 |}.

Definition rec_high (issue_ : string) : HarnessEvolve.Recommendation :=
  {| HarnessEvolve.severity := Some "high";
     HarnessEvolve.rec_category := Some "errors";
     HarnessEvolve.rec_issue := Some issue_;
     HarnessEvolve.rec_recommendation := Some "Review error patterns" |}.

Definition evolve_world (a : option HarnessEvolve.Analysis)
    (skills_text : option string) (proposals : option (list HarnessEvolve.Proposal))
  : HarnessEvolve.World :=
  {| HarnessEvolve.clock := ticking_clock;
     HarnessEvolve.files :=
       match skills_text with
       | Some text => {[ HarnessEvolve.skills_file home_dir := text ]}
       | None => ∅
       end;
     HarnessEvolve.latest_analysis := a;
     HarnessEvolve.proposals_file := proposals;
     HarnessEvolve.history_file := None |}.

(** An analysis with two high-severity recommendations. *)
Definition analysis_two_reviews : HarnessEvolve.Analysis :=
  {| HarnessEvolve.a_status := None;
     HarnessEvolve.common_missed_patterns := [];
     HarnessEvolve.efficiency_issues := [];
     HarnessEvolve.success_rate_pct := Some 80%float;
     HarnessEvolve.recommendations :=
       [rec_high "High error rate"; rec_high "Low task success rate"] |}.

(** An analysis with one routing issue. *)
Definition analysis_routing (issue_ : string) (count_ : Z)
  : HarnessEvolve.Analysis :=
  {| HarnessEvolve.a_status := None;
     HarnessEvolve.common_missed_patterns := [];
     HarnessEvolve.efficiency_issues :=
       [{| HarnessEvolve.issue := issue_; HarnessEvolve.count := count_ |}];
     HarnessEvolve.success_rate_pct := Some 80%float;
     HarnessEvolve.recommendations := [] |}.

Definition pending_skill_add : HarnessEvolve.Proposal :=
  {| HarnessEvolve.id := Some "prop_20250115_120000";
     HarnessEvolve.type := Some "skill_add";
     HarnessEvolve.data :=
       Some (HarnessEvolve.SkillData (bare_skill "skill_auto_1a2b3c4d" "Auto-generated skill for: deploy" ["deploy"]));
     HarnessEvolve.reason := Some "Pattern appeared 4 times without matching skill";
     HarnessEvolve.status := Some "pending";
     HarnessEvolve.timestamp := Some "2025-01-15T12:00:00.000250";
     HarnessEvolve.updated_at := None;
     HarnessEvolve.message := None |}.

Definition recorded_routing : HarnessEvolve.Proposal :=
  {| HarnessEvolve.id := Some "prop_20250114_090000";
     HarnessEvolve.type := Some "routing_update";
     HarnessEvolve.data :=
       Some (HarnessEvolve.RoutingData "Bash" "Grep" "auto-detected from 4 occurrences");
     HarnessEvolve.reason := Some "Grep was suggested 4 times when Bash was used";
     HarnessEvolve.status := Some "recorded";
     HarnessEvolve.timestamp := Some "2025-01-14T09:00:00";
     HarnessEvolve.updated_at := Some "2025-01-14T09:05:00";
     HarnessEvolve.message := None |}.

(** A store with one pending [skill_add] proposal and a skill collection of
    one line. *)
Definition pending_world : HarnessEvolve.World :=
  evolve_world None (Some ("{skill: seed}" ++ PyStr.newline)%string)
    (Some [pending_skill_add]).

(** A store whose routing proposal was recorded once already. *)
Definition recorded_world : HarnessEvolve.World :=
  HarnessEvolve.set_history
    [{| HarnessEvolve.h_timestamp := Some "2025-01-14T09:05:00";
        HarnessEvolve.h_proposal_id := Some "prop_20250114_090000";
        HarnessEvolve.h_type := Some "routing_update";
        HarnessEvolve.h_skill_id := None; HarnessEvolve.h_backup := None;
        HarnessEvolve.h_data := HarnessEvolve.data recorded_routing;
        HarnessEvolve.h_note := Some "Routing update recorded - manual review recommended";
        HarnessEvolve.h_rolled_back := None;
        HarnessEvolve.h_restored_from := None |}]
    (evolve_world None None (Some [recorded_routing])).

(** A store whose only proposal is a manual review item. *)
Definition review_item : HarnessEvolve.Proposal :=
  {| HarnessEvolve.id := Some "prop_20250113_080000";
     HarnessEvolve.type := Some "manual_review";
     HarnessEvolve.data := Some (HarnessEvolve.ReviewData (rec_high "High error rate"));
     HarnessEvolve.reason := Some "High severity issue requiring manual review";
     HarnessEvolve.status := Some "pending";
     HarnessEvolve.timestamp := Some "2025-01-13T08:00:00";
     HarnessEvolve.updated_at := None;
     HarnessEvolve.message := None |}.

Definition review_world : HarnessEvolve.World :=
  evolve_world None None (Some [review_item]).

(** A store with a pending [skill_add] proposal and no skill collection. *)
Definition uncollected_world : HarnessEvolve.World :=
  evolve_world None None (Some [pending_skill_add]).

(** An analysis with a finding of each kind. *)
Definition analysis_full : HarnessEvolve.Analysis :=
  {| HarnessEvolve.a_status := None;
     HarnessEvolve.common_missed_patterns := [("deploy", 4); ("lint", 2)];
     HarnessEvolve.efficiency_issues :=
       [{| HarnessEvolve.issue := "Repeated suboptimal pattern: Bash->Grep";
           HarnessEvolve.count := 4 |}];
     HarnessEvolve.success_rate_pct := Some 45%float;
     HarnessEvolve.recommendations := [rec_high "High error rate"] |}.

Definition analysed_world : HarnessEvolve.World :=
  evolve_world (Some analysis_full) None (Some [recorded_routing]).

(** An incoming skill that lacks the [skill_id] key. *)
Definition anonymous_skill : Skill :=
  {| skill_id := None; name := "untitled"; description := "untitled";
     triggers := []; prerequisites := []; key_steps := [];
     tools_typically_used := []; estimated_tokens := 0;
     success_rate := Some 1%float; times_used := Some 1;
     last_used := None; created_from_session := "" |}.

(** Four messages of two tokens each, read as their own text. *)
Definition four_messages : list string :=
  ["aaaaaaaa"; "bbbbbbbb"; "cccccccc"; "dddddddd"].

Definition own_text (m : string) : string := m.

(** Two messages, one with a text and one with a list as content. *)
Definition chat : list ContextCompression.Content :=
  [ContextCompression.Text
     "We decided to keep the retry queue for uploads. Then lunch!";
   ContextCompression.Parts
     [Some "Fixed the login redirect bug in the session middleware"; None;
      Some "and found the stale cookie that caused it"]].

Definition own_content (c : ContextCompression.Content)
  : ContextCompression.Content := c.

(** A parser that reads back the one line [toy_dumps] writes for
    [pending_skill_add]. *)
Definition toy_loads_back (line : string) : option Skill :=
  if String.eqb line "{skill: skill_auto_1a2b3c4d}"
  then Some (bare_skill "skill_auto_1a2b3c4d" "Auto-generated skill for: deploy"
               ["deploy"])
  else None.

(** A skill collection whose only line is not ended by a line feed. *)
Definition unfinished_world : HarnessEvolve.World :=
  evolve_world None (Some "{skill: seed}") (Some [pending_skill_add]).


(** A store with a pending skill to add, a routing update recorded
    earlier and a manual review item, over a one-line skill collection. *)
Definition mixed_world : HarnessEvolve.World :=
  evolve_world None (Some ("{skill: seed}" ++ PyStr.newline)%string)
    (Some [pending_skill_add; recorded_routing; review_item]).



(** Four messages, each an object with a text content, that name no tool,
    no file and no key point. *)
Definition quiet_chat : list ContextCompression.Content :=
  [ContextCompression.Text "hello there"; ContextCompression.Text "how are you";
   ContextCompression.Text "fine thanks"; ContextCompression.Text "see you soon"].

(** [str(m)] of the object [{'content': s}], for a text without quotes. *)
Definition object_text (c : ContextCompression.Content) : string :=
  "{'content': '" ++ ContextCompression.content_text c ++ "'}".

(** Every message with a text or a list as content can be read. *)
Definition any_content (_ : ContextCompression.Content) : bool := true.

(** A message that is a bare string is not an object. *)
Definition no_object (_ : string) : bool := false.

(** The summary of a middle section of such messages, in which no tool,
    file or key point is found: the count of its messages. *)
Definition quiet_summary (middle : list ContextCompression.Content)
    (_ : list string) : string :=
  "(" ++ PyStr.of_nat (length middle) ++ " messages summarized)".

End Scenarios.

(** * The skill store: merge and capture *)

(** The incremental mean as the specification words it:
    [(old_rate * old_count + new_outcome) / (old_count + 1)]. *)
Definition incremental_mean (old_rate : float) (old_count : Z)
    (new_outcome : float) : float :=
  ((old_rate * float_of_Z old_count + new_outcome)
   / float_of_Z (old_count + 1))%float.

Definition has_id (sid : string) (s : Skill) : Prop := skill_id s = Some sid.

#[local] Instance has_id_dec sid s : Decision (has_id sid s).
Proof. unfold has_id. apply _. Defined.

(** What a merge computes when it does not raise: the count is incremented
    first, and the rate is then computed from the incremented count. *)
Lemma merge_ok (existing skill : Skill) :
  default 0 (times_used existing) + 2 <> 0 ->
  CaptureSession.merge existing skill =
    Ok {| skill_id := skill_id existing; name := name existing;
          description := description existing; triggers := triggers existing;
          prerequisites := prerequisites existing;
          key_steps := key_steps existing;
          tools_typically_used := tools_typically_used existing;
          estimated_tokens := estimated_tokens existing;
          success_rate :=
            Some (PrimFloat.div
                    (PrimFloat.add
                       (PrimFloat.mul (default 1%float (success_rate existing))
                          (float_of_Z (default 0 (times_used existing) + 1)))
                       1%float)
                    (float_of_Z (default 0 (times_used existing) + 1 + 1)));
          times_used := Some (default 0 (times_used existing) + 1);
          last_used := last_used skill;
          created_from_session := created_from_session existing |}.
Proof.
  intros Hnz. unfold CaptureSession.merge. cbn.
  destruct (Z.eqb_spec (default 0 (times_used existing) + 1 + 1) 0) as [E|E].
  - lia.
  - reflexivity.
Qed.




(** The loop finds nothing when no stored skill carries the identifier. *)
Lemma update_existing_absent (skill : Skill) (sid : string) (l : list Skill) :
  skill_id skill = Some sid ->
  Forall (fun s => ~ has_id sid s) l ->
  CaptureSession.update_existing skill l = Ok None.
Proof.
  intros Hid Hl. induction Hl as [|s l Hs Hl IH]; cbn.
  - reflexivity.
  - rewrite Hid. destruct (decide (skill_id s = Some sid)) as [E|E].
    + exfalso. apply Hs. exact E.
    + rewrite IH. reflexivity.
Qed.

(** The loop passes over a prefix that does not carry the identifier. *)
Lemma update_existing_skip (skill : Skill) (sid : string) (pre rest : list Skill) :
  skill_id skill = Some sid ->
  Forall (fun s => ~ has_id sid s) pre ->
  CaptureSession.update_existing skill (pre ++ rest) =
    match CaptureSession.update_existing skill rest with
    | Ok (Some rest') => Ok (Some (pre ++ rest')%list)
    | other => other
    end.
Proof.
  intros Hid Hpre. induction Hpre as [|s l Hs Hl IH]; cbn.
  - destruct (CaptureSession.update_existing skill rest) as [[?|]|]; reflexivity.
  - rewrite Hid. destruct (decide (skill_id s = Some sid)) as [E|E].
    + exfalso. apply Hs. exact E.
    + rewrite IH.
      destruct (CaptureSession.update_existing skill rest) as [[?|]|]; reflexivity.
Qed.

(** The loop stops at the first stored skill that carries the identifier. *)
Lemma update_existing_hit (skill ex : Skill) (sid : string) (post : list Skill) :
  skill_id skill = Some sid ->
  has_id sid ex ->
  CaptureSession.update_existing skill (ex :: post) =
    match CaptureSession.merge ex skill with
    | Ok e => Ok (Some (e :: post))
    | Raise x => Raise x
    end.
Proof.
  intros Hid Hex. cbn. rewrite Hid.
  destruct (decide (skill_id ex = Some sid)) as [E|E]; [reflexivity|].
  exfalso. apply E. exact Hex.
Qed.

(** A list either has no skill carrying [sid], or splits at the first one. *)
Lemma first_with_id (sid : string) (l : list Skill) :
  Forall (fun s => ~ has_id sid s) l \/
  exists pre ex post,
    l = (pre ++ ex :: post)%list /\ has_id sid ex /\
    Forall (fun s => ~ has_id sid s) pre.
Proof.
  induction l as [|s l IH].
  - left. constructor.
  - destruct (decide (has_id sid s)) as [Hs|Hs].
    + right. exists [], s, l. repeat split; [exact Hs | constructor].
    + destruct IH as [IH|(pre & ex & post & -> & Hex & Hpre)].
      * left. constructor; assumption.
      * right. exists (s :: pre), ex, post. repeat split; [exact Hex|].
        constructor; assumption.
Qed.

(** [save_skill] appends a skill whose identifier the store lacks. *)
Lemma save_skill_new (skill : Skill) (sid : string) (file : option (list Skill)) :
  skill_id skill = Some sid ->
  Forall (fun s => ~ has_id sid s) (default [] file) ->
  CaptureSession.save_skill skill file = Ok (default [] file ++ [skill])%list.
Proof.
  intros Hid Hl. unfold CaptureSession.save_skill.
  rewrite (update_existing_absent skill sid); [reflexivity|exact Hid|exact Hl].
Qed.

(** [save_skill] merges into the first stored skill with the identifier. *)
Lemma save_skill_merge (skill ex : Skill) (sid : string) (pre post : list Skill) :
  skill_id skill = Some sid ->
  Forall (fun s => ~ has_id sid s) pre ->
  has_id sid ex ->
  CaptureSession.save_skill skill (Some (pre ++ ex :: post)%list) =
    match CaptureSession.merge ex skill with
    | Ok m => Ok (pre ++ m :: post)%list
    | Raise x => Raise x
    end.
Proof.
  intros Hid Hpre Hex. unfold CaptureSession.save_skill.
  change (default [] (Some (pre ++ ex :: post)%list)) with (pre ++ ex :: post)%list.
  rewrite (update_existing_skip skill sid) by assumption.
  rewrite (update_existing_hit skill ex sid) by assumption.
  destruct (CaptureSession.merge ex skill); reflexivity.
Qed.

(** A successful session with a task of ten characters or more yields a
    skill: first use, full success rate, identified by the task's hash. *)
Lemma extract_skill_some (md5 : string -> string)
    (sd : CaptureSession.SessionData) (c : Clock) :
  CaptureSession.outcome sd = "success" ->
  (10 <= String.length (CaptureSession.initial_task sd))%nat ->
  exists skill,
    CaptureSession.extract_skill md5 sd c = (Some skill, snd (now c)) /\
    skill_id skill =
      Some (CaptureSession.task_skill_id md5 (CaptureSession.initial_task sd)) /\
    times_used skill = Some 1 /\
    success_rate skill = Some 1%float /\
    last_used skill = Some (isoformat (fst (now c))) /\
    description skill = CaptureSession.initial_task sd.
Proof.
  intros Hout Hlen.
  assert (Hlt : (String.length (CaptureSession.initial_task sd) <? 10)%nat = false)
    by (apply Nat.ltb_ge; exact Hlen).
  unfold CaptureSession.extract_skill. rewrite Hout.
  change (negb ("success" =? "success")%string) with false.
  rewrite Hlt. cbv iota.
  destruct (now c) as [dt c'].
  eexists. split; [reflexivity|]. repeat split.
Qed.

(** No skill comes out of a task shorter than ten characters. *)
Lemma extract_skill_short (md5 : string -> string)
    (sd : CaptureSession.SessionData) (c : Clock) :
  (String.length (CaptureSession.initial_task sd) < 10)%nat ->
  CaptureSession.extract_skill md5 sd c = (None, c).
Proof.
  intros Hlen. unfold CaptureSession.extract_skill.
  destruct (negb _); [reflexivity|].
  apply Nat.ltb_lt in Hlen. rewrite Hlen. reflexivity.
Qed.

(** C4. The code does not compute the incremental mean the claim states. On
    a stored skill used twice with rate 0.5, a successful observation gives
    [times_used = 3] and [last_used] as claimed, but the rate becomes
    [(0.5 * 3 + 1) / 4 = 0.625], computed from the count after its
    increment, where the claimed [(0.5 * 2 + 1) / 3] is larger. *)
Theorem merge_rate_uses_incremented_count :
  exists merged,
    CaptureSession.merge Scenarios.stored_half Scenarios.incoming_half = Ok merged /\
    times_used merged = Some 3 /\
    last_used merged = last_used Scenarios.incoming_half /\
    success_rate merged = Some 0.625%float /\
    PrimFloat.ltb 0.625 (incremental_mean 0.5 2 1) = true.
Proof.
  eexists. split; [reflexivity|]. repeat split; reflexivity.
Qed.

(** C5. Adding the same task description twice, both times with a success
    outcome, to a store that does not hold its skill yet, leaves one stored
    skill for it, with [times_used = 2] and [success_rate = 1.0]. The task
    has the ten characters without which no skill is extracted. *)
Theorem add_twice_merges (md5 : string -> string)
    (sd1 sd2 : CaptureSession.SessionData) (c1 c2 : Clock)
    (file : option (list Skill)) :
  CaptureSession.outcome sd1 = "success" ->
  CaptureSession.outcome sd2 = "success" ->
  CaptureSession.initial_task sd2 = CaptureSession.initial_task sd1 ->
  (10 <= String.length (CaptureSession.initial_task sd1))%nat ->
  Forall (fun s => ~ has_id (CaptureSession.task_skill_id md5
                               (CaptureSession.initial_task sd1)) s)
         (default [] file) ->
  exists s1 s2 file1 stored,
    fst (CaptureSession.extract_skill md5 sd1 c1) = Some s1 /\
    fst (CaptureSession.extract_skill md5 sd2 c2) = Some s2 /\
    CaptureSession.save_skill s1 file = Ok file1 /\
    CaptureSession.save_skill s2 (Some file1) = Ok (default [] file ++ [stored])%list /\
    filter (has_id (CaptureSession.task_skill_id md5
                      (CaptureSession.initial_task sd1)))
           (default [] file ++ [stored])%list = [stored] /\
    times_used stored = Some 2 /\
    success_rate stored = Some 1%float.
Proof.
  intros H1 H2 Htask Hlen Hfresh.
  set (sid := CaptureSession.task_skill_id md5 (CaptureSession.initial_task sd1)) in *.
  destruct (extract_skill_some md5 sd1 c1 H1 Hlen)
    as (s1 & E1 & Hid1 & Hn1 & Hr1 & _).
  assert (Hlen2 : (10 <= String.length (CaptureSession.initial_task sd2))%nat)
    by (rewrite Htask; exact Hlen).
  destruct (extract_skill_some md5 sd2 c2 H2 Hlen2)
    as (s2 & E2 & Hid2 & _).
  rewrite Htask in Hid2. fold sid in Hid1, Hid2.
  assert (Hm : exists m, CaptureSession.merge s1 s2 = Ok m /\
                         skill_id m = Some sid /\
                         times_used m = Some 2 /\ success_rate m = Some 1%float).
  { rewrite merge_ok by (rewrite Hn1; cbn; lia).
    eexists. split; [reflexivity|]. cbn [skill_id times_used success_rate].
    rewrite Hid1, Hn1, Hr1. repeat split. }
  destruct Hm as (m & Em & Hidm & Hnm & Hrm).
  exists s1, s2, (default [] file ++ [s1])%list, m.
  rewrite E1, E2. split; [reflexivity|]. split; [reflexivity|].
  split; [apply (save_skill_new s1 sid); assumption|].
  split.
  { rewrite (save_skill_merge s2 s1 sid (default [] file) []) by assumption.
    rewrite Em. reflexivity. }
  split; [|split; assumption].
  rewrite filter_app.
  replace (filter (has_id sid) (default [] file)) with (@nil Skill).
  - cbn. rewrite decide_True by exact Hidm. reflexivity.
  - symmetry. clear -Hfresh. induction Hfresh as [|s l Hs Hl IH]; [reflexivity|].
    rewrite filter_cons, decide_False by exact Hs. exact IH.
Qed.

Lemma add_twice_merges_on_empty_store :
  exists s1 s2 file1 stored,
    fst (CaptureSession.extract_skill Scenarios.toy_md5 Scenarios.session_fix
           Scenarios.frozen_clock) = Some s1 /\
    fst (CaptureSession.extract_skill Scenarios.toy_md5 Scenarios.session_fix
           Scenarios.frozen_clock) = Some s2 /\
    CaptureSession.save_skill s1 None = Ok file1 /\
    CaptureSession.save_skill s2 (Some file1) = Ok ([] ++ [stored])%list /\
    filter (has_id (CaptureSession.task_skill_id Scenarios.toy_md5
                      "Fix login redirect"))
           ([] ++ [stored])%list = [stored] /\
    times_used stored = Some 2 /\
    success_rate stored = Some 1%float.
Proof.
  apply (add_twice_merges Scenarios.toy_md5 Scenarios.session_fix
           Scenarios.session_fix Scenarios.frozen_clock Scenarios.frozen_clock None).
  - reflexivity.
  - reflexivity.
  - reflexivity.
  - vm_compute. lia.
  - constructor.
Defined.






(** [save_skill] reads an absent file as an empty store. *)
Lemma save_skill_default (skill : Skill) (file : option (list Skill)) :
  CaptureSession.save_skill skill file =
  CaptureSession.save_skill skill (Some (default [] file)).
Proof. destruct file; reflexivity. Qed.




(** * Slices and the stable sort *)

Section SliceFacts.

Context {A : Type}.

(** [l[:n]] keeps the first [n] elements. *)
Lemma slice_head (n : nat) (l : list A) :
  PySeq.slice None (Some (Z.of_nat n)) l = firstn n l.
Proof.
  unfold PySeq.slice, PySeq.clamp. cbn [from_option].
  destruct (Z.ltb_spec (Z.of_nat n) 0) as [H|_]; [exfalso; lia|].
  rewrite Nat.sub_0_r. change (skipn 0 l) with l.
  destruct (Nat.le_gt_cases n (length l)) as [Hle|Hgt].
  - f_equal. lia.
  - replace (Z.to_nat (Z.min (Z.of_nat n) (Z.of_nat (length l)))) with (length l) by lia.
    rewrite firstn_all. symmetry. apply firstn_all2. lia.
Qed.

(** [l[-n:]] keeps the last [n] elements, for a positive [n]. *)
Lemma slice_last (n : nat) (l : list A) :
  (0 < n)%nat ->
  PySeq.slice (Some (- Z.of_nat n)) None l = skipn (length l - n) l.
Proof.
  intros Hn. unfold PySeq.slice, PySeq.clamp. cbn [from_option].
  destruct (Z.ltb_spec (- Z.of_nat n) 0) as [_|H]; [|exfalso; lia].
  replace (Z.to_nat (Z.max 0 (Z.of_nat (length l) + - Z.of_nat n)))
    with (length l - n)%nat by lia.
  apply firstn_all2. rewrite length_skipn. lia.
Qed.

End SliceFacts.

Section SortFacts.

Context {A : Type}.
Implicit Types (x : nat * A) (l : list (nat * A)).

(** Scores do not increase along the list. *)
Definition desc (x y : nat * A) : Prop := (fst y <= fst x)%nat.

Lemma insert_desc_perm x l : Permutation (PySeq.insert_desc x l) (x :: l).
Proof.
  induction l as [|y r IH]; cbn.
  - reflexivity.
  - destruct (fst y <=? fst x)%nat; [reflexivity|].
    rewrite IH. apply perm_swap.
Qed.

Lemma sort_desc_perm l : Permutation (PySeq.sort_desc l) l.
Proof.
  induction l as [|x r IH]; cbn.
  - reflexivity.
  - rewrite insert_desc_perm. constructor. exact IH.
Qed.

Lemma insert_desc_sorted x l :
  StronglySorted desc l -> StronglySorted desc (PySeq.insert_desc x l).
Proof.
  induction 1 as [|y r Hr IH Hy]; cbn.
  - repeat constructor.
  - destruct (Nat.leb_spec (fst y) (fst x)) as [Hle|Hgt].
    + constructor; [constructor; assumption|].
      constructor; [exact Hle|].
      eapply Forall_impl; [exact Hy|]. unfold desc. intros z Hz. cbn in *. lia.
    + constructor; [exact IH|].
      eapply Permutation_Forall; [symmetry; apply insert_desc_perm|].
      constructor; [unfold desc; lia|exact Hy].
Qed.

Lemma sort_desc_sorted l : StronglySorted desc (PySeq.sort_desc l).
Proof.
  induction l as [|x r IH]; cbn.
  - constructor.
  - apply insert_desc_sorted. exact IH.
Qed.

(** Stability: the items of one score keep their order. *)
Lemma insert_desc_stable (v : nat) x l :
  filter (fun p => fst p = v) (PySeq.insert_desc x l)
  = filter (fun p => fst p = v) (x :: l).
Proof.
  induction l as [|y r IH]; cbn [PySeq.insert_desc].
  - reflexivity.
  - destruct (Nat.leb_spec (fst y) (fst x)) as [Hle|Hgt]; [reflexivity|].
    rewrite (filter_cons _ y), IH, !filter_cons.
    destruct (decide (fst y = v)) as [Ey|Ey]; [|reflexivity].
    destruct (decide (fst x = v)) as [Ex|Ex]; [exfalso; lia|reflexivity].
Qed.

Lemma sort_desc_stable (v : nat) l :
  filter (fun p => fst p = v) (PySeq.sort_desc l)
  = filter (fun p => fst p = v) l.
Proof.
  induction l as [|x r IH]; cbn [PySeq.sort_desc].
  - reflexivity.
  - rewrite insert_desc_stable, !filter_cons, IH. reflexivity.
Qed.

End SortFacts.

(** * Matching skills against a task *)

Section MatchFacts.

Variable task : string.

Let sc : Skill -> nat := MemoryRetrieval.score task.

(** The scored candidates: the skills of positive score, in collection
    order, each with its score. *)
Lemma scored_skills_eq (skills : list Skill) :
  MemoryRetrieval.scored_skills task skills
  = map (fun s => (sc s, s)) (filter (fun s => (0 < sc s)%nat) skills).
Proof.
  induction skills as [|s l IH]; [reflexivity|].
  cbn [MemoryRetrieval.scored_skills]. rewrite filter_cons. fold (sc s).
  destruct (Nat.ltb_spec 0 (sc s)) as [H|H].
  - rewrite decide_True by exact H. cbn [map]. f_equal. exact IH.
  - rewrite decide_False by lia. exact IH.
Qed.

Definition ranked (skills : list Skill) : list (nat * Skill) :=
  PySeq.sort_desc (MemoryRetrieval.scored_skills task skills).

Lemma ranked_perm (skills : list Skill) :
  Permutation (map snd (ranked skills)) (filter (fun s => (0 < sc s)%nat) skills).
Proof.
  unfold ranked. rewrite sort_desc_perm, scored_skills_eq, map_map. cbn.
  rewrite map_id. reflexivity.
Qed.

Lemma ranked_scores (skills : list Skill) :
  Forall (fun p => fst p = sc (snd p) /\ (0 < sc (snd p))%nat) (ranked skills).
Proof.
  unfold ranked. eapply Permutation_Forall; [symmetry; apply sort_desc_perm|].
  rewrite scored_skills_eq. apply List.Forall_forall. intros p Hp.
  apply in_map_iff in Hp as (s & <- & Hs). cbn. split; [reflexivity|].
  apply list_elem_of_In, list_elem_of_filter in Hs. apply Hs.
Qed.

Lemma match_skills_eq (skills : list Skill) :
  task <> "" ->
  MemoryRetrieval.match_skills task skills = map snd (firstn 3 (ranked skills)).
Proof.
  intros Hne. unfold MemoryRetrieval.match_skills.
  destruct (String.eqb_spec task "") as [E|_]; [contradiction|].
  change 3 with (Z.of_nat 3). rewrite slice_head. reflexivity.
Qed.

(** Filtering the matched skills by score is filtering the ranked pairs by
    their first component. *)
Lemma filter_score_snd (v : nat) (l : list (nat * Skill)) :
  Forall (fun p => fst p = sc (snd p) /\ (0 < sc (snd p))%nat) l ->
  filter (fun s => sc s = v) (map snd l) = map snd (filter (fun p => fst p = v) l).
Proof.
  induction 1 as [|p l [Hp _] Hl IH]; [reflexivity|].
  cbn [map]. rewrite !filter_cons, IH.
  destruct (decide (sc (snd p) = v)) as [E|E].
  - rewrite decide_True by congruence. reflexivity.
  - rewrite decide_False by congruence. reflexivity.
Qed.

Lemma prefix_filter {B : Type} (P : B -> Prop) `{!forall x, Decision (P x)}
    (l1 l2 : list B) :
  l1 `prefix_of` l2 -> filter P l1 `prefix_of` filter P l2.
Proof. intros [k ->]. rewrite filter_app. eexists. reflexivity. Qed.

Lemma prefix_map {B C : Type} (f : B -> C) (l1 l2 : list B) :
  l1 `prefix_of` l2 -> map f l1 `prefix_of` map f l2.
Proof. intros [k ->]. rewrite map_app. eexists. reflexivity. Qed.

(** C7, as the code has it. [match_skills] returns at most three skills,
    each of positive score, in descending order of score, skills of equal
    score in collection order; for a task that is not empty they are the
    best: what is left out scores no more than what is returned, and nothing
    of positive score is left out while fewer than three are returned. The
    score is twice the number of triggers whose lowercase form occurs in the
    lowercased task, plus the number of distinct words of the lowercased
    task that occur in the lowercased description. *)
Theorem match_skills_ranks (skills : list Skill) :
  let matched := MemoryRetrieval.match_skills task skills in
  (length matched <= 3)%nat /\
  Forall (fun s => (0 < sc s)%nat) matched /\
  StronglySorted (fun a b => (sc b <= sc a)%nat) matched /\
  (forall v,
      filter (fun s => sc s = v) matched
      `prefix_of` filter (fun s => sc s = v) skills) /\
  (task <> "" ->
   exists rest,
     Permutation (matched ++ rest) (filter (fun s => (0 < sc s)%nat) skills) /\
     (forall a b, In a matched -> In b rest -> (sc b <= sc a)%nat) /\
     (rest <> [] -> length matched = 3%nat)).
Proof.
  intros matched. subst matched.
  destruct (decide (task = "")) as [E|Hne].
  { unfold MemoryRetrieval.match_skills.
    destruct (String.eqb_spec task "") as [_|N]; [|contradiction].
    repeat split; try constructor; cbn; try lia.
    - intros v. apply prefix_nil.
    - intros N. contradiction. }
  rewrite match_skills_eq by exact Hne.
  pose proof (ranked_scores skills) as Hinv.
  pose proof (sort_desc_sorted (MemoryRetrieval.scored_skills task skills)) as Hsorted.
  fold (ranked skills) in Hsorted.
  rewrite <- (firstn_skipn 3 (ranked skills)) in Hinv, Hsorted.
  apply Forall_app in Hinv as [Hhead Htail].
  apply StronglySorted_app in Hsorted as (Hcross & Hs1 & _).
  split; [|split; [|split; [|split]]].
  - rewrite length_map, length_firstn. lia.
  - apply List.Forall_forall. intros s Hs.
    apply in_map_iff in Hs as (p & <- & Hp).
    rewrite List.Forall_forall in Hhead. apply (Hhead p Hp).
  - clear -Hs1 Hhead. induction Hs1 as [|p l Hl IH Hp]; [constructor|].
    apply Forall_cons in Hhead as [[Hp1 _] Hhead].
    cbn [map]. constructor; [apply IH; exact Hhead|].
    apply List.Forall_forall. intros s Hs.
    apply in_map_iff in Hs as (q & <- & Hq).
    rewrite List.Forall_forall in Hp, Hhead.
    specialize (Hp q Hq). destruct (Hhead q Hq) as [Hq1 _].
    unfold desc in Hp. lia.
  - intros v. rewrite filter_score_snd by exact Hhead.
    destruct (decide (v = 0%nat)) as [->|Hv].
    + replace (filter (fun p : nat * Skill => fst p = 0%nat) (firstn 3 (ranked skills)))
        with (@nil (nat * Skill)); [apply prefix_nil|].
      symmetry. clear -Hhead.
      induction Hhead as [|p l [Hp1 Hp2] Hl IH]; [reflexivity|].
      rewrite filter_cons, decide_False by lia. exact IH.
    + eapply (transitivity (y := map snd (filter (fun p => fst p = v) (ranked skills)))).
      { apply prefix_map, prefix_filter, prefix_take. }
      unfold ranked. rewrite sort_desc_stable, scored_skills_eq.
      rewrite <- filter_score_snd.
      2:{ apply List.Forall_forall. intros p Hp.
          apply in_map_iff in Hp as (s & <- & Hs). cbn. split; [reflexivity|].
          apply list_elem_of_In, list_elem_of_filter in Hs. apply Hs. }
      rewrite map_map. cbn. rewrite map_id.
      rewrite list_filter_filter.
      replace (filter (fun s => sc s = v /\ (0 < sc s)%nat) skills)
        with (filter (fun s => sc s = v) skills); [reflexivity|].
      apply list_filter_iff. intros s. split; [|tauto]. intros <-. split; [reflexivity|lia].
  - intros _. exists (map snd (skipn 3 (ranked skills))).
    split; [|split].
    + rewrite <- map_app, firstn_skipn. apply ranked_perm.
    + intros a b Ha Hb.
      apply in_map_iff in Ha as (p & <- & Hp).
      apply in_map_iff in Hb as (q & <- & Hq).
      rewrite List.Forall_forall in Hhead, Htail.
      destruct (Hhead p Hp) as [Ep _]. destruct (Htail q Hq) as [Eq _].
      specialize (Hcross p q). unfold desc in Hcross.
      rewrite <- Ep, <- Eq. apply Hcross; apply list_elem_of_In; assumption.
    + intros Hrest. rewrite length_map, length_firstn.
      destruct (skipn 3 (ranked skills)) as [|q t] eqn:Esk; [contradiction|].
      assert (length (skipn 3 (ranked skills)) = S (length t)) by (rewrite Esk; reflexivity).
      rewrite length_skipn in H. lia.
Qed.

(** A skill of positive score is returned, unless three skills that score
    at least as much are returned in its place. *)
Lemma match_skills_keeps_or_beats (skills : list Skill) (skill : Skill) :
  task <> "" ->
  In skill skills ->
  (0 < sc skill)%nat ->
  In skill (MemoryRetrieval.match_skills task skills) \/
  (length (MemoryRetrieval.match_skills task skills) = 3%nat /\
   Forall (fun s => (sc skill <= sc s)%nat)
          (MemoryRetrieval.match_skills task skills)).
Proof.
  intros Hne Hin Hpos. rewrite match_skills_eq by exact Hne.
  pose proof (ranked_scores skills) as Hinv.
  pose proof (sort_desc_sorted (MemoryRetrieval.scored_skills task skills)) as Hsorted.
  fold (ranked skills) in Hsorted.
  assert (Hr : In skill (map snd (ranked skills))).
  { apply list_elem_of_In. rewrite ranked_perm.
    apply list_elem_of_filter. split; [exact Hpos|].
    apply list_elem_of_In. exact Hin. }
  rewrite <- (firstn_skipn 3 (ranked skills)) in Hinv, Hsorted, Hr.
  apply Forall_app in Hinv as [Hhead Htail].
  apply StronglySorted_app in Hsorted as (Hcross & _ & _).
  rewrite map_app in Hr. apply in_app_or in Hr as [Hr|Hr]; [left; exact Hr|].
  right. apply in_map_iff in Hr as (q & Eq & Hq). split.
  - rewrite length_map, length_firstn.
    destruct (skipn 3 (ranked skills)) as [|q' t] eqn:Esk; [destruct Hq|].
    assert (Hl : length (skipn 3 (ranked skills)) = S (length t))
      by (rewrite Esk; reflexivity).
    rewrite length_skipn in Hl. lia.
  - apply List.Forall_forall. intros s Hs.
    apply in_map_iff in Hs as (p & <- & Hp).
    rewrite List.Forall_forall in Hhead, Htail.
    destruct (Hhead p Hp) as [Ep _]. destruct (Htail q Hq) as [Eq' _].
    specialize (Hcross p q). unfold desc in Hcross.
    rewrite <- Eq, <- Ep, <- Eq'. apply Hcross; apply list_elem_of_In; assumption.
Qed.

End MatchFacts.

(** The score-ordering example of the specification. *)
Example match_skills_auth :
  MemoryRetrieval.match_skills "add auth login flow"
    [Scenarios.skill_a; Scenarios.skill_b] = [Scenarios.skill_a].
Proof. vm_compute. reflexivity. Qed.

Lemma match_skills_auth_best :
  exists rest,
    Permutation
      (MemoryRetrieval.match_skills "add auth login flow"
         [Scenarios.skill_a; Scenarios.skill_b] ++ rest)
      (filter (fun s => (0 < MemoryRetrieval.score "add auth login flow" s)%nat)
         [Scenarios.skill_a; Scenarios.skill_b]) /\
    (forall a b,
        In a (MemoryRetrieval.match_skills "add auth login flow"
                [Scenarios.skill_a; Scenarios.skill_b]) ->
        In b rest ->
        (MemoryRetrieval.score "add auth login flow" b
         <= MemoryRetrieval.score "add auth login flow" a)%nat) /\
    (rest <> [] ->
     length (MemoryRetrieval.match_skills "add auth login flow"
               [Scenarios.skill_a; Scenarios.skill_b]) = 3%nat).
Proof.
  apply (proj2 (proj2 (proj2 (proj2
           (match_skills_ranks "add auth login flow"
              [Scenarios.skill_a; Scenarios.skill_b]))))).
  discriminate.
Defined.

(** C7, as claimed, fails: the words counted are those of the task, looked
    up in the description, not those of the description looked up in the
    task. The task word [auth] occurs in the description [authentication],
    so the skill is returned, although no word of its description occurs in
    the task and no trigger does: the claimed score is 0. *)
Lemma match_skills_counts_task_words :
  MemoryRetrieval.match_skills "add auth" [Scenarios.skill_authentication]
  = [Scenarios.skill_authentication] /\
  MemoryRetrieval.score "add auth" Scenarios.skill_authentication = 1%nat /\
  MemoryRetrieval.spec_score "add auth" Scenarios.skill_authentication = 0%nat.
Proof. vm_compute. repeat split. Qed.

(** * The context compressor *)

Section CompressFacts.

Variable Message : Type.
Variable py_str : Message -> string.
Variable extract_key_points : list Message -> list string.
Variable middle_summary : list Message -> list string -> string.
Variable round1 : float -> float.

Let compress :=
  ContextCompression.compress_messages Message py_str extract_key_points
    middle_summary round1.

(** A sequence that is not empty and fits the budget comes back whole. *)
Lemma compress_small (messages : list Message) (head_count tail_count max_tokens : Z) :
  messages <> [] ->
  ContextCompression.sum_tokens Message py_str messages <= max_tokens ->
  compress messages head_count tail_count max_tokens =
    {| ContextCompression.head := messages;
       ContextCompression.summary := "";
       ContextCompression.tail := [];
       ContextCompression.key_points := [];
       ContextCompression.original_count := Some (length messages);
       ContextCompression.compressed_count := Some (Z.of_nat (length messages));
       ContextCompression.token_reduction := Some (ContextCompression.Int 0) |}.
Proof.
  intros Hne Hle. unfold compress, ContextCompression.compress_messages.
  destruct messages as [|m l]; [contradiction|].
  apply Z.leb_le in Hle. rewrite Hle. reflexivity.
Qed.

(** C6. The empty sequence costs nothing, so it fits every budget that is
    not negative; the code returns it through an earlier exit whose
    dictionary has no [token_reduction] (and no counts), where the claim
    promises [token_reduction = 0]. *)
Theorem compress_empty_has_no_token_reduction (head_count tail_count : Z) :
  ContextCompression.sum_tokens Message py_str [] <= 4000 /\
  ContextCompression.head (compress [] head_count tail_count 4000) = [] /\
  ContextCompression.summary (compress [] head_count tail_count 4000) = "" /\
  ContextCompression.tail (compress [] head_count tail_count 4000) = [] /\
  ContextCompression.token_reduction (compress [] head_count tail_count 4000) = None /\
  ContextCompression.original_count (compress [] head_count tail_count 4000) = None.
Proof. cbn. repeat split. lia. Qed.

End CompressFacts.

(** * The persistent digest *)

Lemma newest_first_lists_the_set :
  ContextCompression.lists_the_set Scenarios.newest_first.
Proof.
  intros l. unfold Scenarios.newest_first. split.
  - apply NoDup_ListNoDup, List.NoDup_rev, NoDup_ListNoDup, NoDup_remove_dups.
  - intros x. rewrite <- in_rev, <- !list_elem_of_In. apply elem_of_remove_dups.
Qed.

Section DigestFacts.

Variable set_order : list string -> list string.
Hypothesis set_order_ok : ContextCompression.lists_the_set set_order.

(** What an update of the digest does keep. After an update the digest
    holds the last five of the summaries it had with the new one appended,
    the new one last; its key points are at most twenty, without
    repetition, each an old or a new one, and none is lost while the old
    and new ones together are at most twenty. Which ones stay beyond twenty
    follows the iteration order of the set. *)
Theorem digest_update_is_capped (new_summary : string)
    (new_key_points : list string) (w : ContextCompression.World) :
  let old := ContextCompression.load_persistent_summary w in
  let w' :=
    ContextCompression.update_persistent_summary set_order new_summary
      new_key_points w in
  exists digest stamp,
    ContextCompression.summary_file w' = Some digest /\
    ContextCompression.summaries digest =
      skipn (length (ContextCompression.summaries old) + 1 - 5)
            (ContextCompression.summaries old ++ [(stamp, new_summary)])%list /\
    (length (ContextCompression.summaries digest) <= 5)%nat /\
    last (ContextCompression.summaries digest) = Some (stamp, new_summary) /\
    (length (ContextCompression.accumulated_key_points digest) <= 20)%nat /\
    NoDup (ContextCompression.accumulated_key_points digest) /\
    (forall x,
        In x (ContextCompression.accumulated_key_points digest) ->
        In x (ContextCompression.accumulated_key_points old)
        \/ In x new_key_points) /\
    ((length (set_order (ContextCompression.accumulated_key_points old
                           ++ new_key_points)%list) <= 20)%nat ->
     forall x,
       In x (ContextCompression.accumulated_key_points old)
       \/ In x new_key_points ->
       In x (ContextCompression.accumulated_key_points digest)).
Proof.
  intros old w'. subst w'.
  unfold ContextCompression.update_persistent_summary,
    ContextCompression.save_persistent_summary.
  fold old. cbn [now ContextCompression.clock ContextCompression.summary_file].
  set (stamp := isoformat _).
  set (all := (ContextCompression.accumulated_key_points old ++ new_key_points)%list).
  destruct (set_order_ok all) as [Hnd Hin].
  eexists _, stamp. split; [reflexivity|].
  cbn [ContextCompression.summaries ContextCompression.accumulated_key_points].
  change (-5) with (- Z.of_nat 5). change (-20) with (- Z.of_nat 20).
  rewrite !slice_last by lia.
  rewrite length_app. cbn [length].
  split; [reflexivity|]. split; [rewrite length_skipn, length_app; cbn; lia|].
  split.
  { rewrite drop_app_le by lia. apply last_snoc. }
  split; [rewrite length_skipn; lia|].
  split.
  { rewrite <- (firstn_skipn (length (set_order all) - 20) (set_order all)) in Hnd.
    apply NoDup_app in Hnd. apply Hnd. }
  split.
  - intros x Hx. apply in_app_or, Hin.
    rewrite <- (firstn_skipn (length (set_order all) - 20) (set_order all)).
    apply in_or_app. right. exact Hx.
  - intros Hlen x Hx. replace (length (set_order all) - 20)%nat with 0%nat by lia.
    apply Hin, in_or_app. exact Hx.
Qed.

End DigestFacts.

Lemma digest_update_on_twenty_points :
  let old :=
    ContextCompression.load_persistent_summary
      (Scenarios.digest_world Scenarios.twenty_points) in
  let w' :=
    ContextCompression.update_persistent_summary Scenarios.newest_first
      "summary 21" ["point 21"] (Scenarios.digest_world Scenarios.twenty_points) in
  exists digest stamp,
    ContextCompression.summary_file w' = Some digest /\
    ContextCompression.summaries digest =
      skipn (length (ContextCompression.summaries old) + 1 - 5)
            (ContextCompression.summaries old ++ [(stamp, "summary 21")])%list /\
    (length (ContextCompression.summaries digest) <= 5)%nat /\
    last (ContextCompression.summaries digest) = Some (stamp, "summary 21") /\
    (length (ContextCompression.accumulated_key_points digest) <= 20)%nat /\
    NoDup (ContextCompression.accumulated_key_points digest) /\
    (forall x,
        In x (ContextCompression.accumulated_key_points digest) ->
        In x (ContextCompression.accumulated_key_points old)
        \/ In x ["point 21"]) /\
    ((length (Scenarios.newest_first
                (ContextCompression.accumulated_key_points old
                 ++ ["point 21"])%list) <= 20)%nat ->
     forall x,
       In x (ContextCompression.accumulated_key_points old)
       \/ In x ["point 21"] ->
       In x (ContextCompression.accumulated_key_points digest)).
Proof.
  exact (digest_update_is_capped Scenarios.newest_first
           newest_first_lists_the_set "summary 21" ["point 21"]
           (Scenarios.digest_world Scenarios.twenty_points)).
Defined.

(** C9. The digest does not keep the twenty most recently inserted key
    points. [list(existing_points)[-20:]] slices the iteration order of a
    set, which is not the order of insertion, where the line above it,
    [summaries[-5:]], slices a list and does keep the most recent. With
    twenty points in the digest and one new point, under an order that
    lists the most recent first, the twenty kept are the old ones: the
    newest point is the one evicted, and the oldest stays. *)
Lemma digest_evicts_newest_key_point :
  ContextCompression.lists_the_set Scenarios.newest_first /\
  exists digest,
    ContextCompression.summary_file
      (ContextCompression.update_persistent_summary Scenarios.newest_first
         "summary 21" ["point 21"]
         (Scenarios.digest_world Scenarios.twenty_points)) = Some digest /\
    length (ContextCompression.accumulated_key_points digest) = 20%nat /\
    "point 1" ∈ ContextCompression.accumulated_key_points digest /\
    "point 21" ∉ ContextCompression.accumulated_key_points digest.
Proof.
  split; [exact newest_first_lists_the_set|].
  eexists. split; [vm_compute; reflexivity|].
  cbn [ContextCompression.accumulated_key_points].
  split; [reflexivity|].
  split; apply (bool_decide_unpack _); vm_compute; exact I.
Qed.

(** The digest cap of the specification: seven summaries fed in a row
    leave the last five. *)
Example digest_keeps_five_of_seven :
  exists digest,
    ContextCompression.summary_file Scenarios.after_seven = Some digest /\
    map snd (ContextCompression.summaries digest) = ["s3"; "s4"; "s5"; "s6"; "s7"].
Proof. eexists. split; vm_compute; reflexivity. Qed.

(** * The evolution pipeline: generating proposals *)

(** The arrow the analysis writes between a tool and its alternative. *)
Example search_arrow_pattern :
  HarnessEvolve.search_arrow "Repeated suboptimal pattern: Bash->Grep"
  = Some ("Bash", "Grep").
Proof. reflexivity. Qed.

Example search_arrow_second_run :
  HarnessEvolve.search_arrow "a->-b_1->c2 d" = Some ("b_1", "c2").
Proof. reflexivity. Qed.

Example search_arrow_none :
  HarnessEvolve.search_arrow "High Bash usage -> compared" = None.
Proof. reflexivity. Qed.

(** C1. The identifier is the clock reading cut to the second, so two
    proposals generated within one second carry the same identifier. From
    an analysis with two high-severity recommendations, on a clock that
    advances by a microsecond per reading, the run generates two different
    pending proposals with one identifier, and stores both. *)
Theorem proposal_ids_collide (md5 : string -> string)
    (json_loads : string -> option Skill) (str_float : float -> string) :
  let w :=
    Scenarios.evolve_world (Some Scenarios.analysis_two_reviews) None None in
  let run :=
    HarnessEvolve.run_propose Scenarios.home_dir md5 json_loads str_float w in
  exists p1 p2,
    fst run = [p1; p2] /\
    HarnessEvolve.proposals_file (snd run) = Some [p1; p2] /\
    HarnessEvolve.id p1 = Some "prop_20250115_120000" /\
    HarnessEvolve.id p2 = Some "prop_20250115_120000" /\
    HarnessEvolve.status p1 = Some "pending" /\
    HarnessEvolve.status p2 = Some "pending" /\
    HarnessEvolve.data p1
      = Some (HarnessEvolve.ReviewData (Scenarios.rec_high "High error rate")) /\
    HarnessEvolve.data p2
      = Some (HarnessEvolve.ReviewData (Scenarios.rec_high "Low task success rate")).
Proof.
  eexists _, _. split; [vm_compute; reflexivity|].
  vm_compute. repeat split.
Qed.

(** Completing a proposal changes neither its type, its data nor its
    reason, and leaves it pending. *)
Lemma stamp_keeps (p : HarnessEvolve.Proposal) (c : Clock) :
  HarnessEvolve.type (fst (HarnessEvolve.stamp p c)) = HarnessEvolve.type p /\
  HarnessEvolve.data (fst (HarnessEvolve.stamp p c)) = HarnessEvolve.data p /\
  HarnessEvolve.reason (fst (HarnessEvolve.stamp p c)) = HarnessEvolve.reason p /\
  HarnessEvolve.status (fst (HarnessEvolve.stamp p c)) = Some "pending".
Proof. repeat split. Qed.

(** The routing loop emits a proposal for each issue that passes its two
    tests. *)
Lemma routing_proposals_complete (issues : list HarnessEvolve.Issue) (c : Clock)
    (i : HarnessEvolve.Issue) (from_tool to_tool : string) :
  In i issues ->
  PyStr.contains "pattern" (PyStr.lower (HarnessEvolve.issue i)) = true ->
  HarnessEvolve.search_arrow (HarnessEvolve.issue i) = Some (from_tool, to_tool) ->
  exists p,
    In p (fst (HarnessEvolve.routing_proposals issues c)) /\
    HarnessEvolve.type p = Some "routing_update" /\
    HarnessEvolve.data p
      = Some (HarnessEvolve.RoutingData from_tool to_tool
                ("auto-detected from " ++ PyStr.of_Z (HarnessEvolve.count i)
                 ++ " occurrences")) /\
    HarnessEvolve.status p = Some "pending".
Proof.
  intros Hin Hpat Harrow. revert c.
  induction issues as [|j rest IH]; intros c; [destruct Hin|].
  cbn [HarnessEvolve.routing_proposals].
  destruct Hin as [->|Hin].
  - rewrite Hpat, Harrow.
    destruct (HarnessEvolve.stamp _ c) as [p c1] eqn:Es.
    destruct (HarnessEvolve.routing_proposals rest c1) as [ps c2].
    exists p. split; [left; reflexivity|].
    pose proof (stamp_keeps
                  (HarnessEvolve.propose_routing_update from_tool to_tool
                     (HarnessEvolve.count i)) c) as (Ht & Hd & _ & Hs).
    rewrite Es in Ht, Hd, Hs. cbn [fst] in Ht, Hd, Hs.
    rewrite Ht, Hd, Hs. repeat split.
  - destruct (PyStr.contains "pattern" (PyStr.lower (HarnessEvolve.issue j)));
      [|apply IH; exact Hin].
    destruct (HarnessEvolve.search_arrow (HarnessEvolve.issue j)) as [[a b]|];
      [|apply IH; exact Hin].
    destruct (HarnessEvolve.stamp _ c) as [p c1].
    destruct (IH Hin c1) as (q & Hq & Hrest).
    destruct (HarnessEvolve.routing_proposals rest c1) as [ps c2].
    exists q. split; [right; exact Hq|exact Hrest].
Qed.

(** C8, as the code has it. When the analysis is present and not marked
    as without data, every routing issue whose description contains the
    word [pattern] (in any case) and a tool pair gets a pending
    [routing_update] proposal naming the first such pair and the issue's
    count. *)
Theorem routing_update_proposed (home : string) (md5 : string -> string)
    (json_loads : string -> option Skill) (str_float : float -> string)
    (w : HarnessEvolve.World) (analysis : HarnessEvolve.Analysis)
    (i : HarnessEvolve.Issue) (from_tool to_tool : string) :
  HarnessEvolve.latest_analysis w = Some analysis ->
  HarnessEvolve.a_status analysis <> Some "no_data" ->
  In i (HarnessEvolve.efficiency_issues analysis) ->
  PyStr.contains "pattern" (PyStr.lower (HarnessEvolve.issue i)) = true ->
  HarnessEvolve.search_arrow (HarnessEvolve.issue i) = Some (from_tool, to_tool) ->
  exists p,
    In p (fst (HarnessEvolve.generate_proposals home md5 json_loads str_float w)) /\
    HarnessEvolve.type p = Some "routing_update" /\
    HarnessEvolve.data p
      = Some (HarnessEvolve.RoutingData from_tool to_tool
                ("auto-detected from " ++ PyStr.of_Z (HarnessEvolve.count i)
                 ++ " occurrences")) /\
    HarnessEvolve.status p = Some "pending".
Proof.
  intros Ha Hst Hin Hpat Harrow.
  unfold HarnessEvolve.generate_proposals. rewrite Ha.
  rewrite bool_decide_eq_false_2 by exact Hst.
  destruct (HarnessEvolve.skill_proposals _ _ _ _ _ _) as [p1 c1].
  destruct (routing_proposals_complete
              (HarnessEvolve.efficiency_issues analysis) c1 i from_tool to_tool
              Hin Hpat Harrow) as (p & Hp & Hrest).
  destruct (HarnessEvolve.routing_proposals _ c1) as [p2 c2].
  destruct (HarnessEvolve.threshold_proposals _ _ c2) as [p3 c3].
  destruct (HarnessEvolve.review_proposals _ c3) as [p4 c4].
  exists p. split; [|exact Hrest].
  cbn [fst] in *. apply in_or_app. right. apply in_or_app. left. exact Hp.
Qed.

Lemma routing_update_proposed_for_bash_grep :
  exists p,
    In p (fst (HarnessEvolve.generate_proposals Scenarios.home_dir
                 Scenarios.toy_md5 Scenarios.toy_loads Scenarios.toy_str_float
                 (Scenarios.evolve_world
                    (Some (Scenarios.analysis_routing
                             "Repeated suboptimal pattern: Bash->Grep" 4))
                    None None))) /\
    HarnessEvolve.type p = Some "routing_update" /\
    HarnessEvolve.data p
      = Some (HarnessEvolve.RoutingData "Bash" "Grep"
                ("auto-detected from " ++ PyStr.of_Z 4 ++ " occurrences")) /\
    HarnessEvolve.status p = Some "pending".
Proof.
  apply (routing_update_proposed Scenarios.home_dir Scenarios.toy_md5
           Scenarios.toy_loads Scenarios.toy_str_float
           (Scenarios.evolve_world
              (Some (Scenarios.analysis_routing
                       "Repeated suboptimal pattern: Bash->Grep" 4))
              None None)
           (Scenarios.analysis_routing "Repeated suboptimal pattern: Bash->Grep" 4)
           {| HarnessEvolve.issue := "Repeated suboptimal pattern: Bash->Grep";
              HarnessEvolve.count := 4 |}).
  - reflexivity.
  - discriminate.
  - left. reflexivity.
  - reflexivity.
  - reflexivity.
Defined.

(** C8, as claimed, fails: the tool pair is looked for only in issues whose
    description contains the word [pattern]. An issue that names a tool
    pair without that word gets no proposal. *)
Lemma routing_update_needs_pattern_word :
  HarnessEvolve.search_arrow "Frequent fallback Bash->Grep" = Some ("Bash", "Grep") /\
  fst (HarnessEvolve.generate_proposals Scenarios.home_dir
         Scenarios.toy_md5 Scenarios.toy_loads Scenarios.toy_str_float
         (Scenarios.evolve_world
            (Some (Scenarios.analysis_routing "Frequent fallback Bash->Grep" 4))
            None None)) = [].
Proof. split; vm_compute; reflexivity. Qed.

(** * The evolution pipeline: apply and rollback *)

Section ApplyFacts.

Variable home : string.
Variable json_dumps : option HarnessEvolve.Payload -> string.

Let skills_path : string := HarnessEvolve.skills_file home.

(** Paths under one root differ when their parts under the root do. *)
Lemma append_cons (x : ascii) (a b : string) :
  (String x a ++ b = String x (a ++ b))%string.
Proof. reflexivity. Qed.

Lemma append_nil (b : string) : ("" ++ b = b)%string.
Proof. reflexivity. Qed.

Lemma append_inj_l (a x y : string) : (a ++ x = a ++ y)%string -> x = y.
Proof.
  induction a as [|c a IH]; [trivial|].
  rewrite !append_cons. intros [= H]. apply IH. exact H.
Qed.

Lemma append_assoc (a b c : string) : ((a ++ b) ++ c = a ++ (b ++ c))%string.
Proof.
  induction a as [|x a IH]; [reflexivity|].
  rewrite !append_cons. f_equal. exact IH.
Qed.

(** A backup never lands on the skill collection itself. *)
Lemma backup_path_fresh (name_ : string) :
  (HarnessEvolve.BACKUP_DIR home ++ "/" ++ name_)%string <> skills_path.
Proof.
  unfold skills_path, HarnessEvolve.skills_file, HarnessEvolve.BACKUP_DIR,
    HarnessEvolve.EVOLUTION_DIR, HarnessEvolve.METRICS_DIR,
    HarnessEvolve.MEMORY_DIR, HarnessEvolve.CLAUDE_DIR.
  rewrite !append_assoc. intros H. apply append_inj_l in H.
  rewrite !append_cons, !append_nil in H. discriminate H.
Qed.

Lemma backup_path_not_empty (name_ : string) :
  String.eqb (HarnessEvolve.BACKUP_DIR home ++ "/" ++ name_)%string "" = false.
Proof.
  unfold HarnessEvolve.BACKUP_DIR, HarnessEvolve.EVOLUTION_DIR,
    HarnessEvolve.METRICS_DIR, HarnessEvolve.CLAUDE_DIR.
  rewrite !append_assoc. destruct home; reflexivity.
Qed.

(** After the status update, the search finds a proposal with the new
    status. *)
Lemma mark_found (pid status_ : string) (l : list HarnessEvolve.Proposal)
    (c : Clock) (p : HarnessEvolve.Proposal) :
  HarnessEvolve.find_proposal pid l = Some p ->
  exists p',
    HarnessEvolve.find_proposal pid
      (fst (HarnessEvolve.mark (Some pid) status_ l c)) = Some p' /\
    HarnessEvolve.status p' = Some status_.
Proof.
  unfold HarnessEvolve.find_proposal. revert c.
  induction l as [|q l IH]; intros c Hf; [discriminate|].
  cbn [find] in Hf. cbn [HarnessEvolve.mark].
  destruct (bool_decide (HarnessEvolve.id q = Some pid)) eqn:E.
  - destruct (now c) as [dt c1]. destruct (HarnessEvolve.mark _ _ l c1) as [ps c2].
    cbn [fst find HarnessEvolve.set_status HarnessEvolve.id].
    rewrite E. eexists. split; reflexivity.
  - destruct (IH c Hf) as (p' & Hp' & Hs).
    destruct (HarnessEvolve.mark _ _ l c) as [ps c2].
    cbn [fst find] in *. rewrite E. exists p'. split; assumption.
Qed.

(** The search returns a proposal that carries the identifier. *)
Lemma find_proposal_id (pid : string) (l : list HarnessEvolve.Proposal)
    (p : HarnessEvolve.Proposal) :
  HarnessEvolve.find_proposal pid l = Some p -> HarnessEvolve.id p = Some pid.
Proof.
  intros H. apply find_some in H as [_ H].
  apply bool_decide_eq_true in H. exact H.
Qed.

(** [update_proposal_status] rewrites the proposal store and nothing else. *)
Lemma update_proposal_status_files pid_opt status_ w :
  HarnessEvolve.files (HarnessEvolve.update_proposal_status pid_opt status_ w)
  = HarnessEvolve.files w.
Proof.
  unfold HarnessEvolve.update_proposal_status.
  destruct (HarnessEvolve.mark pid_opt status_ _ _); reflexivity.
Qed.

Lemma update_proposal_status_history pid_opt status_ w :
  HarnessEvolve.history_file (HarnessEvolve.update_proposal_status pid_opt status_ w)
  = HarnessEvolve.history_file w.
Proof.
  unfold HarnessEvolve.update_proposal_status.
  destruct (HarnessEvolve.mark pid_opt status_ _ _); reflexivity.
Qed.

Lemma update_proposal_status_proposals pid_opt status_ w :
  HarnessEvolve.proposals_file (HarnessEvolve.update_proposal_status pid_opt status_ w)
  = Some (fst (HarnessEvolve.mark pid_opt status_ (HarnessEvolve.load_proposals w)
                 (HarnessEvolve.clock w))).
Proof.
  unfold HarnessEvolve.update_proposal_status.
  destruct (HarnessEvolve.mark pid_opt status_ _ _); reflexivity.
Qed.

(** What applying a [skill_add] proposal does to the stores: one line is
    appended to the skill collection, the proposals carrying the identifier
    are marked, and, when the collection existed, the last history entry
    points to a backup holding its former content. *)
Lemma apply_skill_add_effect (p : HarnessEvolve.Proposal) (w : HarnessEvolve.World) :
  let r := HarnessEvolve.apply_skill_add home json_dumps p w in
  fst (fst r) = true /\
  HarnessEvolve.files (snd r) !! skills_path
    = Some (default "" (HarnessEvolve.files w !! skills_path)
            ++ json_dumps (HarnessEvolve.data p) ++ PyStr.newline)%string /\
  (exists c,
      HarnessEvolve.proposals_file (snd r)
      = Some (fst (HarnessEvolve.mark (HarnessEvolve.id p) "applied"
                     (HarnessEvolve.load_proposals w) c))) /\
  (forall content,
      HarnessEvolve.files w !! skills_path = Some content ->
      exists entry backup_path,
        last (HarnessEvolve.load_history (snd r)) = Some entry /\
        HarnessEvolve.h_backup entry = Some backup_path /\
        HarnessEvolve.h_type entry = Some "skill_add" /\
        String.eqb backup_path "" = false /\
        HarnessEvolve.files (snd r) !! backup_path = Some content).
Proof.
  intros r. subst r. unfold HarnessEvolve.apply_skill_add, HarnessEvolve.backup_file.
  fold skills_path.
  destruct (HarnessEvolve.files w !! skills_path) as [content|] eqn:Efile.
  - cbn [now HarnessEvolve.clock HarnessEvolve.set_clock HarnessEvolve.set_files
         HarnessEvolve.files fst snd].
    match goal with
    | |- context [<[(HarnessEvolve.BACKUP_DIR home ++ "/" ++ ?n)%string := content]> _] =>
        set (bp := (HarnessEvolve.BACKUP_DIR home ++ "/" ++ n)%string);
        assert (Hbp : bp <> skills_path) by apply backup_path_fresh;
        assert (Hne : String.eqb bp "" = false) by apply backup_path_not_empty
    end.
    rewrite lookup_insert_ne by exact Hbp. rewrite Efile.
    unfold HarnessEvolve.load_history.
    rewrite update_proposal_status_files, update_proposal_status_history,
      update_proposal_status_proposals.
    split; [reflexivity|]. split; [apply lookup_insert_eq|].
    split; [eexists; reflexivity|].
    intros content' [= <-]. eexists _, bp.
    split; [cbn; apply last_snoc|]. split; [reflexivity|]. split; [reflexivity|].
    split; [exact Hne|].
    cbn [HarnessEvolve.save_history HarnessEvolve.set_history HarnessEvolve.files
         HarnessEvolve.set_clock HarnessEvolve.set_files].
    rewrite lookup_insert_ne by (intros E; apply Hbp; symmetry; exact E).
    apply lookup_insert_eq.
  - cbn [now HarnessEvolve.clock HarnessEvolve.set_clock HarnessEvolve.set_files
         HarnessEvolve.files fst snd].
    rewrite Efile.
    rewrite update_proposal_status_files, update_proposal_status_proposals.
    split; [reflexivity|]. split; [apply lookup_insert_eq|].
    split; [eexists; reflexivity|].
    intros content' [=].
Qed.

(** A pending [skill_add] proposal goes through [apply_skill_add]. *)
Lemma apply_proposal_skill_add (pid : string) (p : HarnessEvolve.Proposal)
    (w : HarnessEvolve.World) :
  HarnessEvolve.find_proposal pid (HarnessEvolve.load_proposals w) = Some p ->
  HarnessEvolve.type p = Some "skill_add" ->
  HarnessEvolve.status p <> Some "applied" ->
  HarnessEvolve.apply_proposal home json_dumps pid false w
  = HarnessEvolve.apply_skill_add home json_dumps p w.
Proof.
  intros Hf Ht Hs. unfold HarnessEvolve.apply_proposal. rewrite Hf.
  rewrite bool_decide_eq_false_2 by exact Hs.
  rewrite bool_decide_eq_true_2 by exact Ht. reflexivity.
Qed.

(** The guard: an applied proposal is refused and nothing changes. *)
Lemma apply_proposal_applied (pid : string) (p : HarnessEvolve.Proposal)
    (dry_run : bool) (w : HarnessEvolve.World) :
  HarnessEvolve.find_proposal pid (HarnessEvolve.load_proposals w) = Some p ->
  HarnessEvolve.status p = Some "applied" ->
  HarnessEvolve.apply_proposal home json_dumps pid dry_run w
  = ((false, "Proposal " ++ pid ++ " already applied")%string, w).
Proof.
  intros Hf Hs. unfold HarnessEvolve.apply_proposal. rewrite Hf.
  rewrite bool_decide_eq_true_2 by exact Hs. reflexivity.
Qed.

(** C2, as the code has it. A proposal whose status is [applied] is
    refused, dry run or not, and every store is left as it was. A
    [skill_add] proposal that is not applied yet succeeds when applied
    without dry run, the same call then fails, and the skill collection has
    gained exactly one line. *)
Theorem apply_at_most_once (pid : string) (p : HarnessEvolve.Proposal)
    (w : HarnessEvolve.World) :
  HarnessEvolve.find_proposal pid (HarnessEvolve.load_proposals w) = Some p ->
  (HarnessEvolve.status p = Some "applied" ->
   forall dry_run,
     HarnessEvolve.apply_proposal home json_dumps pid dry_run w
     = ((false, "Proposal " ++ pid ++ " already applied")%string, w)) /\
  (HarnessEvolve.type p = Some "skill_add" ->
   HarnessEvolve.status p <> Some "applied" ->
   let first := HarnessEvolve.apply_proposal home json_dumps pid false w in
   let second :=
     HarnessEvolve.apply_proposal home json_dumps pid false (snd first) in
   fst (fst first) = true /\
   second = ((false, "Proposal " ++ pid ++ " already applied")%string, snd first) /\
   HarnessEvolve.files (snd second) !! skills_path
   = Some (default "" (HarnessEvolve.files w !! skills_path)
           ++ json_dumps (HarnessEvolve.data p) ++ PyStr.newline)%string).
Proof.
  intros Hf. split.
  - intros Hs dry_run. apply (apply_proposal_applied pid p); assumption.
  - intros Ht Hs first second. subst second first.
    rewrite (apply_proposal_skill_add pid p w Hf Ht Hs).
    destruct (apply_skill_add_effect p w) as (Hok & Hfile & (c & Hprops) & _).
    set (w1 := snd (HarnessEvolve.apply_skill_add home json_dumps p w)) in *.
    destruct (mark_found pid "applied" (HarnessEvolve.load_proposals w) c p Hf)
      as (p' & Hf' & Hs').
    assert (Hf1 : HarnessEvolve.find_proposal pid (HarnessEvolve.load_proposals w1)
                  = Some p').
    { unfold HarnessEvolve.load_proposals at 1. rewrite Hprops.
      rewrite (find_proposal_id pid _ p Hf). exact Hf'. }
    rewrite (apply_proposal_applied pid p' false w1 Hf1 Hs').
    split; [exact Hok|]. split; [reflexivity|exact Hfile].
Qed.


End ApplyFacts.

(** The guard on a store holding one pending [skill_add] proposal and a
    one-line skill collection. *)
Lemma apply_at_most_once_on_pending_skill :
  HarnessEvolve.find_proposal "prop_20250115_120000"
    (HarnessEvolve.load_proposals Scenarios.pending_world)
  = Some Scenarios.pending_skill_add /\
  fst (fst (HarnessEvolve.apply_proposal Scenarios.home_dir Scenarios.toy_dumps
              "prop_20250115_120000" false Scenarios.pending_world)) = true /\
  HarnessEvolve.apply_proposal Scenarios.home_dir Scenarios.toy_dumps
    "prop_20250115_120000" false
    (snd (HarnessEvolve.apply_proposal Scenarios.home_dir Scenarios.toy_dumps
            "prop_20250115_120000" false Scenarios.pending_world))
  = ((false, "Proposal prop_20250115_120000 already applied"),
     snd (HarnessEvolve.apply_proposal Scenarios.home_dir Scenarios.toy_dumps
            "prop_20250115_120000" false Scenarios.pending_world)) /\
  HarnessEvolve.files
    (snd (HarnessEvolve.apply_proposal Scenarios.home_dir Scenarios.toy_dumps
            "prop_20250115_120000" false
            (snd (HarnessEvolve.apply_proposal Scenarios.home_dir Scenarios.toy_dumps
                    "prop_20250115_120000" false Scenarios.pending_world))))
    !! HarnessEvolve.skills_file Scenarios.home_dir
  = Some ("{skill: seed}" ++ PyStr.newline
          ++ "{skill: skill_auto_1a2b3c4d}" ++ PyStr.newline)%string.
Proof.
  assert (Hf : HarnessEvolve.find_proposal "prop_20250115_120000"
                 (HarnessEvolve.load_proposals Scenarios.pending_world)
               = Some Scenarios.pending_skill_add) by (vm_compute; reflexivity).
  split; [exact Hf|].
  destruct (apply_at_most_once Scenarios.home_dir Scenarios.toy_dumps
              "prop_20250115_120000" Scenarios.pending_skill_add
              Scenarios.pending_world Hf) as [_ H].
  destruct H as (H1 & H2 & H3);
    [reflexivity | intros E; discriminate E |].
  split; [exact H1|]. split; [exact H2|].
  rewrite H3. vm_compute. reflexivity.
Defined.

(** C2, as claimed, fails for [recorded]: the guard of [apply_proposal]
    tests the status [applied] only. A routing proposal already recorded is
    accepted again and a second entry goes to the history. *)
Lemma apply_accepts_recorded_proposal :
  HarnessEvolve.find_proposal "prop_20250114_090000"
    (HarnessEvolve.load_proposals Scenarios.recorded_world)
  = Some Scenarios.recorded_routing /\
  HarnessEvolve.status Scenarios.recorded_routing = Some "recorded" /\
  fst (fst (HarnessEvolve.apply_proposal Scenarios.home_dir Scenarios.toy_dumps
              "prop_20250114_090000" false Scenarios.recorded_world)) = true /\
  length (HarnessEvolve.load_history Scenarios.recorded_world) = 1%nat /\
  length (HarnessEvolve.load_history
            (snd (HarnessEvolve.apply_proposal Scenarios.home_dir Scenarios.toy_dumps
                    "prop_20250114_090000" false Scenarios.recorded_world))) = 2%nat.
Proof. repeat split; vm_compute; reflexivity. Qed.


(** * The evolution pipeline: what Apply and Rollback leave alone *)

Section ApplyEdges.

Variable home : string.
Variable json_dumps : option HarnessEvolve.Payload -> string.

Let skills_path : string := HarnessEvolve.skills_file home.
Let apply := HarnessEvolve.apply_proposal home json_dumps.
Let rollback := HarnessEvolve.rollback_last home.

Lemma apply_routing_update_ok (p : HarnessEvolve.Proposal) (w : HarnessEvolve.World) :
  fst (fst (HarnessEvolve.apply_routing_update p w)) = true.
Proof. reflexivity. Qed.

Lemma apply_threshold_adjust_ok (p : HarnessEvolve.Proposal) (w : HarnessEvolve.World) :
  fst (fst (HarnessEvolve.apply_threshold_adjust p w)) = true.
Proof. reflexivity. Qed.

(** Apply changes the stores only when it is a real run that reports
    success: a dry run, and every refusal, hands the stores back as they
    were. *)
Theorem apply_changes_only_on_real_success (pid : string) (dry_run : bool)
    (w : HarnessEvolve.World) :
  dry_run = true \/ fst (fst (apply pid dry_run w)) = false ->
  snd (apply pid dry_run w) = w.
Proof.
  subst apply. cbv beta. unfold HarnessEvolve.apply_proposal.
  destruct (HarnessEvolve.find_proposal pid _) as [p|]; [|reflexivity].
  destruct (bool_decide (HarnessEvolve.status p = Some "applied")); [reflexivity|].
  destruct dry_run; [reflexivity|].
  intros [H|H]; [discriminate H|]. revert H.
  destruct (bool_decide (HarnessEvolve.type p = Some "skill_add")).
  { intros H. pose proof (apply_skill_add_effect home json_dumps p w) as [Hok _].
    cbv zeta in Hok. rewrite Hok in H. discriminate H. }
  destruct (bool_decide (HarnessEvolve.type p = Some "routing_update")).
  { rewrite apply_routing_update_ok. discriminate. }
  destruct (bool_decide (HarnessEvolve.type p = Some "threshold_adjust")).
  { rewrite apply_threshold_adjust_ok. discriminate. }
  destruct (bool_decide (HarnessEvolve.type p = Some "manual_review")); reflexivity.
Qed.

(** A proposal that is none of the three machine-applicable types (a
    manual review item, an info note, a proposal without type) is refused
    by a real run, which changes nothing, although the dry run of the same
    call reports success. *)
Theorem dry_run_accepts_what_apply_refuses (pid : string)
    (p : HarnessEvolve.Proposal) (w : HarnessEvolve.World) :
  HarnessEvolve.find_proposal pid (HarnessEvolve.load_proposals w) = Some p ->
  HarnessEvolve.status p <> Some "applied" ->
  HarnessEvolve.type p <> Some "skill_add" ->
  HarnessEvolve.type p <> Some "routing_update" ->
  HarnessEvolve.type p <> Some "threshold_adjust" ->
  fst (fst (apply pid true w)) = true /\
  fst (fst (apply pid false w)) = false /\
  snd (apply pid false w) = w /\
  (HarnessEvolve.type p = Some "manual_review" ->
   snd (fst (apply pid false w)) = "Manual review items cannot be auto-applied").
Proof.
  intros Hf Hs H1 H2 H3. subst apply. cbv beta.
  unfold HarnessEvolve.apply_proposal. rewrite Hf.
  rewrite (bool_decide_eq_false_2 _ Hs), (bool_decide_eq_false_2 _ H1),
    (bool_decide_eq_false_2 _ H2), (bool_decide_eq_false_2 _ H3).
  split; [reflexivity|].
  destruct (bool_decide (HarnessEvolve.type p = Some "manual_review")) eqn:E.
  - repeat split.
  - apply bool_decide_eq_false_1 in E. repeat split. intros N. contradiction.
Qed.

(** Rollback writes the skill collection and the history, never the
    proposal store. *)
Lemma rollback_last_proposals (w : HarnessEvolve.World) :
  HarnessEvolve.proposals_file (snd (rollback w)) = HarnessEvolve.proposals_file w.
Proof.
  subst rollback. cbv beta. unfold HarnessEvolve.rollback_last.
  destruct (last _) as [e|]; [|reflexivity].
  destruct (HarnessEvolve.h_backup e) as [bp|]; [|reflexivity].
  destruct (if String.eqb bp "" then None else _) as [content|]; [|reflexivity].
  destruct (bool_decide _); reflexivity.
Qed.

(** What a successful rollback leaves as the last history entry: the
    record of the rollback, which names no backup. *)
Lemma rollback_last_entry (w : HarnessEvolve.World) :
  fst (fst (rollback w)) = true ->
  exists e,
    last (HarnessEvolve.load_history (snd (rollback w))) = Some e /\
    HarnessEvolve.h_backup e = None /\
    HarnessEvolve.h_type e = Some "rollback".
Proof.
  subst rollback. cbv beta. unfold HarnessEvolve.rollback_last.
  destruct (last _) as [e|]; [|discriminate].
  destruct (HarnessEvolve.h_backup e) as [bp|]; [|discriminate].
  destruct (if String.eqb bp "" then None else _) as [content|]; [|discriminate].
  destruct (bool_decide _); [|discriminate].
  intros _. eexists. split; [cbn; apply last_snoc|]. split; reflexivity.
Qed.

(** Rollback undoes one step only: right after a successful rollback a
    second one is refused, and changes nothing. *)
Theorem rollback_is_one_shot (w : HarnessEvolve.World) :
  fst (fst (rollback w)) = true ->
  rollback (snd (rollback w))
  = ((false, "No backup available for rollback"), snd (rollback w)).
Proof.
  intros H. destruct (rollback_last_entry w H) as (e & Hlast & Hb & _).
  subst rollback. cbv beta in *.
  set (w1 := snd (HarnessEvolve.rollback_last home w)) in *.
  unfold HarnessEvolve.rollback_last at 1. rewrite Hlast, Hb. reflexivity.
Qed.

End ApplyEdges.

(** * The evolution pipeline: status updates *)

(** How [update_proposal_status] relates a stored proposal [p] to what it
    writes back for it: a proposal carrying the identifier gets the status
    and a time of update, any other is written back as it was. *)
Definition marked (pid : option string) (status_ : string)
    (p q : HarnessEvolve.Proposal) : Prop :=
  HarnessEvolve.id q = HarnessEvolve.id p /\
  HarnessEvolve.type q = HarnessEvolve.type p /\
  HarnessEvolve.data q = HarnessEvolve.data p /\
  HarnessEvolve.reason q = HarnessEvolve.reason p /\
  HarnessEvolve.timestamp q = HarnessEvolve.timestamp p /\
  (HarnessEvolve.id p = pid ->
   HarnessEvolve.status q = Some status_ /\
   exists t, HarnessEvolve.updated_at q = Some t) /\
  (HarnessEvolve.id p <> pid -> q = p).

Lemma mark_marked (pid : option string) (status_ : string)
    (l : list HarnessEvolve.Proposal) (c : Clock) :
  Forall2 (marked pid status_) l (fst (HarnessEvolve.mark pid status_ l c)).
Proof.
  revert c. induction l as [|p l IH]; intros c; cbn [HarnessEvolve.mark].
  - constructor.
  - destruct (bool_decide (HarnessEvolve.id p = pid)) eqn:E.
    + apply bool_decide_eq_true_1 in E. cbn [now].
      specialize (IH {| readings := readings c; tick := S (tick c) |}).
      destruct (HarnessEvolve.mark pid status_ l _) as [ps c']. cbn [fst] in *.
      constructor; [|exact IH].
      unfold marked. repeat (split; [reflexivity|]).
      split; [|intros N; contradiction].
      intros _. split; [reflexivity|]. eexists. reflexivity.
    + apply bool_decide_eq_false_1 in E. specialize (IH c).
      destruct (HarnessEvolve.mark pid status_ l c) as [ps c']. cbn [fst] in *.
      constructor; [|exact IH].
      unfold marked. repeat (split; [reflexivity|]).
      split; [intros N; contradiction|reflexivity].
Qed.

(** The first proposal with an identifier is still the first one after the
    store was marked. *)
Lemma find_marked (pid : string) (mpid : option string) (status_ : string)
    (l l' : list HarnessEvolve.Proposal) (p : HarnessEvolve.Proposal) :
  Forall2 (marked mpid status_) l l' ->
  HarnessEvolve.find_proposal pid l = Some p ->
  exists p', HarnessEvolve.find_proposal pid l' = Some p' /\ marked mpid status_ p p'.
Proof.
  unfold HarnessEvolve.find_proposal.
  induction 1 as [|q q' l l' Hq Hl IH]; cbn [List.find]; [discriminate|].
  destruct Hq as (Hid & Hrest). rewrite Hid.
  destruct (bool_decide (HarnessEvolve.id q = Some pid)).
  - intros [= <-]. exists q'. split; [reflexivity|]. split; assumption.
  - exact IH.
Qed.

(** [update_proposal_status] writes the proposal store and nothing else;
    the store keeps its length and order, every proposal keeps its
    identifier, type, data, reason and time of creation, every proposal
    that carries the identifier gets the status (all of them, when several
    share it), and the others are written back unchanged. *)
Theorem update_proposal_status_only_marks (pid : option string)
    (status_ : string) (w : HarnessEvolve.World) :
  let w' := HarnessEvolve.update_proposal_status pid status_ w in
  HarnessEvolve.files w' = HarnessEvolve.files w /\
  HarnessEvolve.history_file w' = HarnessEvolve.history_file w /\
  HarnessEvolve.latest_analysis w' = HarnessEvolve.latest_analysis w /\
  exists written,
    HarnessEvolve.proposals_file w' = Some written /\
    Forall2 (marked pid status_) (HarnessEvolve.load_proposals w) written.
Proof.
  intros w'. subst w'.
  split; [apply update_proposal_status_files|].
  split; [apply update_proposal_status_history|].
  split.
  { unfold HarnessEvolve.update_proposal_status.
    destruct (HarnessEvolve.mark pid status_ _ _); reflexivity. }
  eexists. split; [apply update_proposal_status_proposals|]. apply mark_marked.
Qed.

Section ApplyRecorded.

Variable home : string.
Variable json_dumps : option HarnessEvolve.Payload -> string.

Let skills_path : string := HarnessEvolve.skills_file home.
Let apply := HarnessEvolve.apply_proposal home json_dumps.
Let rollback := HarnessEvolve.rollback_last home.

(** What the two recording branches of Apply have in common. *)
Definition records_only (p : HarnessEvolve.Proposal) (w : HarnessEvolve.World)
    (r : bool * string * HarnessEvolve.World) : Prop :=
  fst (fst r) = true /\
  HarnessEvolve.files (snd r) = HarnessEvolve.files w /\
  (exists entry,
      HarnessEvolve.load_history (snd r)
      = (HarnessEvolve.load_history w ++ [entry])%list /\
      HarnessEvolve.h_type entry = HarnessEvolve.type p /\
      HarnessEvolve.h_data entry = HarnessEvolve.data p /\
      HarnessEvolve.h_proposal_id entry = HarnessEvolve.id p /\
      HarnessEvolve.h_backup entry = None) /\
  (exists c,
      HarnessEvolve.proposals_file (snd r)
      = Some (fst (HarnessEvolve.mark (HarnessEvolve.id p) "recorded"
                     (HarnessEvolve.load_proposals w) c))).

Lemma apply_routing_update_records (p : HarnessEvolve.Proposal)
    (w : HarnessEvolve.World) :
  HarnessEvolve.type p = Some "routing_update" ->
  records_only p w (HarnessEvolve.apply_routing_update p w).
Proof.
  intros Ht. unfold records_only, HarnessEvolve.apply_routing_update.
  cbn [now fst snd]. unfold HarnessEvolve.load_history at 1.
  rewrite update_proposal_status_files, update_proposal_status_history,
    update_proposal_status_proposals.
  split; [reflexivity|]. split; [reflexivity|].
  split; [|eexists; reflexivity].
  eexists. split; [reflexivity|]. rewrite Ht. repeat split.
Qed.

Lemma apply_threshold_adjust_records (p : HarnessEvolve.Proposal)
    (w : HarnessEvolve.World) :
  HarnessEvolve.type p = Some "threshold_adjust" ->
  records_only p w (HarnessEvolve.apply_threshold_adjust p w).
Proof.
  intros Ht. unfold records_only, HarnessEvolve.apply_threshold_adjust.
  cbn [now fst snd]. unfold HarnessEvolve.load_history at 1.
  rewrite update_proposal_status_files, update_proposal_status_history,
    update_proposal_status_proposals.
  split; [reflexivity|]. split; [reflexivity|].
  split; [|eexists; reflexivity].
  eexists. split; [reflexivity|]. rewrite Ht. repeat split.
Qed.

(** The branch Apply takes for a proposal to record. *)
Lemma apply_proposal_records (pid : string) (p : HarnessEvolve.Proposal)
    (w : HarnessEvolve.World) :
  HarnessEvolve.find_proposal pid (HarnessEvolve.load_proposals w) = Some p ->
  HarnessEvolve.status p <> Some "applied" ->
  HarnessEvolve.type p = Some "routing_update"
  \/ HarnessEvolve.type p = Some "threshold_adjust" ->
  records_only p w (apply pid false w).
Proof.
  intros Hf Hs Ht. subst apply. cbv beta.
  unfold HarnessEvolve.apply_proposal. rewrite Hf.
  rewrite (bool_decide_eq_false_2 _ Hs).
  destruct Ht as [Ht|Ht]; rewrite Ht.
  - rewrite bool_decide_eq_false_2 by discriminate.
    rewrite bool_decide_eq_true_2 by reflexivity.
    apply apply_routing_update_records. exact Ht.
  - rewrite !bool_decide_eq_false_2 by discriminate.
    rewrite bool_decide_eq_true_2 by reflexivity.
    apply apply_threshold_adjust_records. exact Ht.
Qed.

(** Applying a routing update or a threshold adjustment only records it:
    no file is written (the skill collection is untouched and no backup is
    made), the history gains one entry carrying the proposal's data, and the
    proposal is marked [recorded]. There is then nothing to roll back, and
    nothing prevents the same proposal from being applied, that is recorded,
    once more. *)
Theorem recorded_update_touches_no_file (pid : string)
    (p : HarnessEvolve.Proposal) (w : HarnessEvolve.World) :
  HarnessEvolve.find_proposal pid (HarnessEvolve.load_proposals w) = Some p ->
  HarnessEvolve.status p <> Some "applied" ->
  HarnessEvolve.type p = Some "routing_update"
  \/ HarnessEvolve.type p = Some "threshold_adjust" ->
  let applied := apply pid false w in
  fst (fst applied) = true /\
  HarnessEvolve.files (snd applied) = HarnessEvolve.files w /\
  (exists entry,
      HarnessEvolve.load_history (snd applied)
      = (HarnessEvolve.load_history w ++ [entry])%list /\
      HarnessEvolve.h_type entry = HarnessEvolve.type p /\
      HarnessEvolve.h_data entry = HarnessEvolve.data p /\
      HarnessEvolve.h_proposal_id entry = Some pid /\
      HarnessEvolve.h_backup entry = None) /\
  (exists p',
      HarnessEvolve.find_proposal pid (HarnessEvolve.load_proposals (snd applied))
      = Some p' /\
      HarnessEvolve.status p' = Some "recorded") /\
  rollback (snd applied)
  = ((false, "No backup available for rollback"), snd applied) /\
  fst (fst (apply pid false (snd applied))) = true.
Proof.
  intros Hf Hs Ht applied.
  pose proof (apply_proposal_records pid p w Hf Hs Ht)
    as (Hok & Hfiles & (entry & Hhist & Hty & Hda & Hpi & Hb) & (c & Hprops)).
  fold applied in Hok, Hfiles, Hhist, Hprops.
  pose proof (find_proposal_id pid _ p Hf) as Hid.
  destruct (find_marked pid (Some pid) "recorded" _ _ p
              (mark_marked (Some pid) "recorded" (HarnessEvolve.load_proposals w) c) Hf)
    as (p' & Hf' & Hm).
  assert (Hf1 : HarnessEvolve.find_proposal pid
                  (HarnessEvolve.load_proposals (snd applied)) = Some p').
  { unfold HarnessEvolve.load_proposals at 1. rewrite Hprops, Hid. exact Hf'. }
  destruct Hm as (_ & Hty' & _ & _ & _ & Hst & _).
  destruct (Hst Hid) as [Hst' _].
  split; [exact Hok|]. split; [exact Hfiles|].
  split.
  { exists entry. rewrite <- Hid. repeat split; assumption. }
  split; [exists p'; split; assumption|].
  split.
  - subst rollback. cbv beta. unfold HarnessEvolve.rollback_last.
    rewrite Hhist, last_snoc, Hb. reflexivity.
  - apply (apply_proposal_records pid p' (snd applied) Hf1).
    + rewrite Hst'. discriminate.
    + rewrite Hty'. exact Ht.
Qed.

(** The rollback that follows the addition of a skill to an existing
    collection succeeds, restores the collection and leaves the proposals
    as the addition marked them. *)
Lemma rollback_after_skill_add (p : HarnessEvolve.Proposal)
    (w : HarnessEvolve.World) (content : string) :
  HarnessEvolve.files w !! skills_path = Some content ->
  let w1 := snd (HarnessEvolve.apply_skill_add home json_dumps p w) in
  fst (fst (rollback w1)) = true /\
  HarnessEvolve.files (snd (rollback w1)) !! skills_path = Some content /\
  exists c,
    HarnessEvolve.proposals_file (snd (rollback w1))
    = Some (fst (HarnessEvolve.mark (HarnessEvolve.id p) "applied"
                   (HarnessEvolve.load_proposals w) c)).
Proof.
  intros Hfile w1.
  destruct (apply_skill_add_effect home json_dumps p w)
    as (_ & _ & (c & Hmark) & Hbackup).
  destruct (Hbackup content Hfile) as (entry & bp & Hlast & Hb & Hty & Hne & Hbp).
  fold w1 in Hmark, Hlast, Hbp.
  split; [|split].
  - subst rollback. cbv beta. unfold HarnessEvolve.rollback_last.
    rewrite Hlast, Hb, Hne, Hbp.
    rewrite bool_decide_eq_true_2 by exact Hty. reflexivity.
  - subst rollback. cbv beta. unfold HarnessEvolve.rollback_last.
    rewrite Hlast, Hb, Hne, Hbp.
    rewrite bool_decide_eq_true_2 by exact Hty.
    cbn [now HarnessEvolve.clock HarnessEvolve.set_files HarnessEvolve.files
         HarnessEvolve.set_clock HarnessEvolve.save_history
         HarnessEvolve.set_history fst snd].
    apply lookup_insert_eq.
  - exists c. subst rollback. cbv beta.
    rewrite (rollback_last_proposals home w1). exact Hmark.
Qed.

(** A skill that was added and rolled back cannot be added again: the
    rollback restores the collection but leaves the proposal [applied], so
    a new Apply of the same proposal is refused. *)
Theorem rolled_back_proposal_stays_applied (pid : string)
    (p : HarnessEvolve.Proposal) (w : HarnessEvolve.World) (content : string) :
  HarnessEvolve.find_proposal pid (HarnessEvolve.load_proposals w) = Some p ->
  HarnessEvolve.type p = Some "skill_add" ->
  HarnessEvolve.status p <> Some "applied" ->
  HarnessEvolve.files w !! skills_path = Some content ->
  let rolled := rollback (snd (apply pid false w)) in
  fst (fst rolled) = true /\
  HarnessEvolve.files (snd rolled) !! skills_path = Some content /\
  (exists p',
      HarnessEvolve.find_proposal pid (HarnessEvolve.load_proposals (snd rolled))
      = Some p' /\
      HarnessEvolve.status p' = Some "applied") /\
  apply pid false (snd rolled)
  = ((false, "Proposal " ++ pid ++ " already applied")%string, snd rolled).
Proof.
  intros Hf Ht Hs Hfile rolled. subst rolled apply. cbv beta.
  rewrite (apply_proposal_skill_add home json_dumps pid p w Hf Ht Hs).
  pose proof (rollback_after_skill_add p w content Hfile) as H.
  cbv zeta in H. destruct H as (Hok & Hrestored & (c & Hprops)).
  set (rolled := rollback _) in *.
  destruct (mark_found pid "applied" (HarnessEvolve.load_proposals w) c p Hf)
    as (p' & Hf' & Hs').
  assert (Hf1 : HarnessEvolve.find_proposal pid
                  (HarnessEvolve.load_proposals (snd rolled)) = Some p').
  { unfold HarnessEvolve.load_proposals at 1. rewrite Hprops.
    rewrite (find_proposal_id pid _ p Hf). exact Hf'. }
  split; [exact Hok|]. split; [exact Hrestored|].
  split; [exists p'; split; assumption|].
  apply (apply_proposal_applied home json_dumps pid p'); assumption.
Qed.

(** Adding a skill while the collection file does not exist creates the
    file with the one record and makes no backup, so that the addition
    cannot be rolled back: Rollback is refused and the new file stays. *)
Theorem skill_add_without_collection_has_no_backup (pid : string)
    (p : HarnessEvolve.Proposal) (w : HarnessEvolve.World) :
  HarnessEvolve.find_proposal pid (HarnessEvolve.load_proposals w) = Some p ->
  HarnessEvolve.type p = Some "skill_add" ->
  HarnessEvolve.status p <> Some "applied" ->
  HarnessEvolve.files w !! skills_path = None ->
  let applied := apply pid false w in
  fst (fst applied) = true /\
  HarnessEvolve.files (snd applied)
  = <[skills_path := (json_dumps (HarnessEvolve.data p) ++ PyStr.newline)%string]>
      (HarnessEvolve.files w) /\
  (exists entry,
      HarnessEvolve.load_history (snd applied)
      = (HarnessEvolve.load_history w ++ [entry])%list /\
      HarnessEvolve.h_type entry = Some "skill_add" /\
      HarnessEvolve.h_proposal_id entry = Some pid /\
      HarnessEvolve.h_backup entry = None) /\
  rollback (snd applied)
  = ((false, "No backup available for rollback"), snd applied).
Proof.
  intros Hf Ht Hs Hfile applied. subst applied apply. cbv beta.
  rewrite (apply_proposal_skill_add home json_dumps pid p w Hf Ht Hs).
  pose proof (find_proposal_id pid _ p Hf) as Hid.
  assert (H : HarnessEvolve.files
                (snd (HarnessEvolve.apply_skill_add home json_dumps p w))
              = <[skills_path := (json_dumps (HarnessEvolve.data p) ++ PyStr.newline)%string]>
                  (HarnessEvolve.files w) /\
              exists entry,
                HarnessEvolve.load_history
                  (snd (HarnessEvolve.apply_skill_add home json_dumps p w))
                = (HarnessEvolve.load_history w ++ [entry])%list /\
                HarnessEvolve.h_type entry = Some "skill_add" /\
                HarnessEvolve.h_proposal_id entry = Some pid /\
                HarnessEvolve.h_backup entry = None).
  { unfold HarnessEvolve.apply_skill_add, HarnessEvolve.backup_file.
    fold skills_path. rewrite Hfile.
    cbn [now HarnessEvolve.clock HarnessEvolve.set_clock HarnessEvolve.set_files
         HarnessEvolve.files fst snd].
    rewrite Hfile. unfold HarnessEvolve.load_history at 1.
    rewrite update_proposal_status_files, update_proposal_status_history.
    split; [reflexivity|].
    eexists. split; [reflexivity|]. rewrite Hid. repeat split. }
  destruct H as (Hfiles & entry & Hhist & Hty & Hpi & Hb).
  destruct (apply_skill_add_effect home json_dumps p w) as (Hok & _).
  split; [exact Hok|]. split; [exact Hfiles|].
  split; [exists entry; repeat split; assumption|].
  subst rollback. cbv beta. unfold HarnessEvolve.rollback_last.
  rewrite Hhist, last_snoc, Hb. reflexivity.
Qed.

End ApplyRecorded.

(** * The evolution pipeline: what is proposed, and why *)

(** A proposal as [generate_proposals] completes it: pending, with an
    identifier and a time of creation read from the clock. *)
Definition stamped (p : HarnessEvolve.Proposal) : Prop :=
  HarnessEvolve.status p = Some "pending" /\
  (exists dt, HarnessEvolve.id p = Some ("prop_" ++ strftime_compact dt)%string) /\
  (exists dt, HarnessEvolve.timestamp p = Some (isoformat dt)).

Lemma stamp_stamped (p : HarnessEvolve.Proposal) (c : Clock) :
  stamped (fst (HarnessEvolve.stamp p c)).
Proof. repeat split; eexists; reflexivity. Qed.

Section ProposeFacts.

Variable home : string.
Variable md5 : string -> string.
Variable json_loads : string -> option Skill.
Variable str_float : float -> string.
Variable w : HarnessEvolve.World.
Variable analysis : HarnessEvolve.Analysis.

(** The reason the analysis gives for a proposal, by type. *)
Definition justified (p : HarnessEvolve.Proposal) : Prop :=
  (HarnessEvolve.type p = Some "skill_add" /\
   exists pattern count skill,
     In (pattern, count) (HarnessEvolve.common_missed_patterns analysis) /\
     3 <= count /\
     HarnessEvolve.similar_skill_exists pattern
       (HarnessEvolve.load_skills home json_loads w) = false /\
     HarnessEvolve.data p = Some (HarnessEvolve.SkillData skill) /\
     skill_id skill = Some ("skill_auto_" ++ PyStr.take 8 (md5 pattern))%string /\
     triggers skill = [pattern; PyStr.replace_char "-" " " pattern] /\
     times_used skill = Some 0 /\
     success_rate skill = Some 0%float)
  \/
  (HarnessEvolve.type p = Some "routing_update" /\
   exists i from_tool to_tool,
     In i (HarnessEvolve.efficiency_issues analysis) /\
     PyStr.contains "pattern" (PyStr.lower (HarnessEvolve.issue i)) = true /\
     HarnessEvolve.search_arrow (HarnessEvolve.issue i) = Some (from_tool, to_tool) /\
     HarnessEvolve.data p
     = Some (HarnessEvolve.RoutingData from_tool to_tool
               ("auto-detected from " ++ PyStr.of_Z (HarnessEvolve.count i)
                ++ " occurrences")))
  \/
  (HarnessEvolve.type p = Some "threshold_adjust" /\
   PrimFloat.ltb (default 100%float (HarnessEvolve.success_rate_pct analysis)) 60
   = true /\
   HarnessEvolve.data p
   = Some (HarnessEvolve.ThresholdData "success_rate_low" 70 60))
  \/
  (HarnessEvolve.type p = Some "manual_review" /\
   exists rec,
     In rec (HarnessEvolve.recommendations analysis) /\
     HarnessEvolve.severity rec = Some "high" /\
     HarnessEvolve.data p = Some (HarnessEvolve.ReviewData rec)).

Lemma skill_proposals_sound (missed : list (string * Z)) (c : Clock) :
  (forall x, In x missed -> In x (HarnessEvolve.common_missed_patterns analysis)) ->
  Forall (fun p => stamped p /\ justified p)
         (fst (HarnessEvolve.skill_proposals home md5 json_loads w missed c)).
Proof.
  revert c. induction missed as [|[pattern count] rest IH]; intros c Hsub;
    cbn [HarnessEvolve.skill_proposals]; [constructor|].
  assert (Hrest : forall x, In x rest ->
                            In x (HarnessEvolve.common_missed_patterns analysis))
    by (intros x Hx; apply Hsub; right; exact Hx).
  destruct (Z.leb_spec 3 count) as [Hc|Hc]; [|apply IH; exact Hrest].
  destruct (HarnessEvolve.propose_skill_from_pattern home md5 json_loads
              pattern count w) as [sp|] eqn:Ep; [|apply IH; exact Hrest].
  pose proof (stamp_stamped sp c) as Hst.
  pose proof (stamp_keeps sp c) as (Ht & Hd & _ & _).
  destruct (HarnessEvolve.stamp sp c) as [p c1].
  specialize (IH c1 Hrest).
  destruct (HarnessEvolve.skill_proposals home md5 json_loads w rest c1) as [ps c2].
  cbn [fst] in *. constructor; [|exact IH].
  split; [exact Hst|]. left.
  unfold HarnessEvolve.propose_skill_from_pattern in Ep.
  destruct (HarnessEvolve.similar_skill_exists pattern _) eqn:Esim; [discriminate|].
  injection Ep as <-. cbn in Ht, Hd.
  split; [exact Ht|].
  eexists pattern, count, _. split; [apply Hsub; left; reflexivity|].
  split; [exact Hc|]. split; [exact Esim|]. split; [exact Hd|]. repeat split.
Qed.

Lemma routing_proposals_sound (issues : list HarnessEvolve.Issue) (c : Clock) :
  (forall x, In x issues -> In x (HarnessEvolve.efficiency_issues analysis)) ->
  Forall (fun p => stamped p /\ justified p)
         (fst (HarnessEvolve.routing_proposals issues c)).
Proof.
  revert c. induction issues as [|i rest IH]; intros c Hsub;
    cbn [HarnessEvolve.routing_proposals]; [constructor|].
  assert (Hrest : forall x, In x rest ->
                            In x (HarnessEvolve.efficiency_issues analysis))
    by (intros x Hx; apply Hsub; right; exact Hx).
  destruct (PyStr.contains "pattern" (PyStr.lower (HarnessEvolve.issue i))) eqn:Epat;
    [|apply IH; exact Hrest].
  destruct (HarnessEvolve.search_arrow (HarnessEvolve.issue i)) as [[a b]|] eqn:Earrow;
    [|apply IH; exact Hrest].
  pose proof (stamp_stamped (HarnessEvolve.propose_routing_update a b
                               (HarnessEvolve.count i)) c) as Hst.
  pose proof (stamp_keeps (HarnessEvolve.propose_routing_update a b
                             (HarnessEvolve.count i)) c) as (Ht & Hd & _ & _).
  destruct (HarnessEvolve.stamp _ c) as [p c1].
  specialize (IH c1 Hrest).
  destruct (HarnessEvolve.routing_proposals rest c1) as [ps c2].
  cbn [fst] in *. constructor; [|exact IH].
  split; [exact Hst|]. right. left. split; [exact Ht|].
  exists i, a, b. split; [apply Hsub; left; reflexivity|].
  split; [exact Epat|]. split; [exact Earrow|exact Hd].
Qed.

Lemma threshold_proposals_sound (c : Clock) :
  Forall (fun p => stamped p /\ justified p)
         (fst (HarnessEvolve.threshold_proposals str_float
                 (default 100%float (HarnessEvolve.success_rate_pct analysis)) c)).
Proof.
  unfold HarnessEvolve.threshold_proposals.
  destruct (PrimFloat.ltb _ 60) eqn:E; [|constructor].
  cbn. constructor; [|constructor]. split.
  - repeat split; eexists; reflexivity.
  - right. right. left. repeat split. exact E.
Qed.

Lemma review_proposals_sound (recs : list HarnessEvolve.Recommendation) (c : Clock) :
  (forall x, In x recs -> In x (HarnessEvolve.recommendations analysis)) ->
  Forall (fun p => stamped p /\ justified p)
         (fst (HarnessEvolve.review_proposals recs c)).
Proof.
  revert c. induction recs as [|r rest IH]; intros c Hsub;
    cbn [HarnessEvolve.review_proposals]; [constructor|].
  assert (Hrest : forall x, In x rest ->
                            In x (HarnessEvolve.recommendations analysis))
    by (intros x Hx; apply Hsub; right; exact Hx).
  destruct (bool_decide (HarnessEvolve.severity r = Some "high")) eqn:E;
    [|apply IH; exact Hrest].
  apply bool_decide_eq_true_1 in E. cbn [HarnessEvolve.generate_proposal_id now].
  match goal with
  | |- context [HarnessEvolve.review_proposals rest ?c1] => specialize (IH c1 Hrest);
      destruct (HarnessEvolve.review_proposals rest c1) as [ps c2]
  end.
  cbn [fst] in *. constructor; [|exact IH]. split.
  - repeat split; eexists; reflexivity.
  - right. right. right. split; [reflexivity|].
    exists r. split; [apply Hsub; left; reflexivity|]. split; [exact E|reflexivity].
Qed.

Lemma skill_proposals_complete (missed : list (string * Z)) (c : Clock)
    (pattern : string) (count : Z) :
  In (pattern, count) missed ->
  3 <= count ->
  HarnessEvolve.similar_skill_exists pattern
    (HarnessEvolve.load_skills home json_loads w) = false ->
  exists p skill,
    In p (fst (HarnessEvolve.skill_proposals home md5 json_loads w missed c)) /\
    HarnessEvolve.type p = Some "skill_add" /\
    HarnessEvolve.status p = Some "pending" /\
    HarnessEvolve.data p = Some (HarnessEvolve.SkillData skill) /\
    skill_id skill = Some ("skill_auto_" ++ PyStr.take 8 (md5 pattern))%string /\
    name skill = ("auto-" ++ PyStr.replace_char " " "-" pattern)%string /\
    triggers skill = [pattern; PyStr.replace_char "-" " " pattern].
Proof.
  intros Hin Hc Hsim. revert c.
  induction missed as [|[pattern' count'] rest IH]; intros c; [destruct Hin|].
  cbn [HarnessEvolve.skill_proposals].
  destruct Hin as [[= -> ->]|Hin].
  - apply Z.leb_le in Hc. rewrite Hc.
    unfold HarnessEvolve.propose_skill_from_pattern. rewrite Hsim.
    match goal with
    | |- context [HarnessEvolve.stamp ?sp c] =>
        pose proof (stamp_keeps sp c) as (Ht & Hd & _ & Hs);
        destruct (HarnessEvolve.stamp sp c) as [p c1]
    end.
    destruct (HarnessEvolve.skill_proposals home md5 json_loads w rest c1) as [ps c2].
    cbn [fst] in *. eexists p, _. split; [left; reflexivity|].
    split; [exact Ht|]. split; [exact Hs|]. split; [exact Hd|]. repeat split.
  - destruct (3 <=? count'); [|apply IH; exact Hin].
    destruct (HarnessEvolve.propose_skill_from_pattern home md5 json_loads
                pattern' count' w) as [sp|]; [|apply IH; exact Hin].
    destruct (HarnessEvolve.stamp sp c) as [p c1].
    destruct (IH Hin c1) as (q & skill & Hq & Hrest).
    destruct (HarnessEvolve.skill_proposals home md5 json_loads w rest c1) as [ps c2].
    cbn [fst] in *. exists q, skill. split; [right; exact Hq|exact Hrest].
Qed.

Lemma review_proposals_complete (recs : list HarnessEvolve.Recommendation)
    (c : Clock) (rec : HarnessEvolve.Recommendation) :
  In rec recs ->
  HarnessEvolve.severity rec = Some "high" ->
  exists p,
    In p (fst (HarnessEvolve.review_proposals recs c)) /\
    HarnessEvolve.type p = Some "manual_review" /\
    HarnessEvolve.status p = Some "pending" /\
    HarnessEvolve.data p = Some (HarnessEvolve.ReviewData rec).
Proof.
  intros Hin Hsev. revert c.
  induction recs as [|r rest IH]; intros c; [destruct Hin|].
  cbn [HarnessEvolve.review_proposals].
  destruct Hin as [->|Hin].
  - rewrite (bool_decide_eq_true_2 _ Hsev).
    cbn [HarnessEvolve.generate_proposal_id now].
    match goal with
    | |- context [HarnessEvolve.review_proposals rest ?c1] =>
        destruct (HarnessEvolve.review_proposals rest c1) as [ps c2]
    end.
    cbn [fst]. eexists. split; [left; reflexivity|]. repeat split.
  - destruct (bool_decide (HarnessEvolve.severity r = Some "high")).
    + cbn [HarnessEvolve.generate_proposal_id now].
      match goal with
      | |- context [HarnessEvolve.review_proposals rest ?c1] =>
          destruct (IH Hin c1) as (q & Hq & Hrest);
          destruct (HarnessEvolve.review_proposals rest c1) as [ps c2]
      end.
      cbn [fst] in *. exists q. split; [right; exact Hq|exact Hrest].
    + apply IH. exact Hin.
Qed.

Lemma threshold_proposals_complete (c : Clock) :
  PrimFloat.ltb (default 100%float (HarnessEvolve.success_rate_pct analysis)) 60
  = true ->
  exists p,
    In p (fst (HarnessEvolve.threshold_proposals str_float
                 (default 100%float (HarnessEvolve.success_rate_pct analysis)) c)) /\
    HarnessEvolve.type p = Some "threshold_adjust" /\
    HarnessEvolve.status p = Some "pending" /\
    HarnessEvolve.data p
    = Some (HarnessEvolve.ThresholdData "success_rate_low" 70 60).
Proof.
  intros Hlow. unfold HarnessEvolve.threshold_proposals. rewrite Hlow.
  cbn. eexists. split; [left; reflexivity|]. repeat split.
Qed.

Hypothesis analysis_loaded : HarnessEvolve.latest_analysis w = Some analysis.
Hypothesis analysis_has_data : HarnessEvolve.a_status analysis <> Some "no_data".

Lemma generate_proposals_sound :
  Forall (fun p => stamped p /\ justified p)
         (fst (HarnessEvolve.generate_proposals home md5 json_loads str_float w)).
Proof.
  unfold HarnessEvolve.generate_proposals. rewrite analysis_loaded.
  rewrite (bool_decide_eq_false_2 _ analysis_has_data).
  pose proof (skill_proposals_sound
                (HarnessEvolve.common_missed_patterns analysis)
                (HarnessEvolve.clock w) (fun _ H => H)) as H1.
  destruct (HarnessEvolve.skill_proposals _ _ _ _ _ _) as [p1 c1].
  pose proof (routing_proposals_sound
                (HarnessEvolve.efficiency_issues analysis) c1 (fun _ H => H)) as H2.
  destruct (HarnessEvolve.routing_proposals _ c1) as [p2 c2].
  pose proof (threshold_proposals_sound c2) as H3.
  destruct (HarnessEvolve.threshold_proposals _ _ c2) as [p3 c3].
  pose proof (review_proposals_sound
                (HarnessEvolve.recommendations analysis) c3 (fun _ H => H)) as H4.
  destruct (HarnessEvolve.review_proposals _ c3) as [p4 c4].
  cbn [fst] in *. repeat (apply Forall_app; split); assumption.
Qed.

(** The stores after generating: only the clock has moved. *)
Lemma generate_proposals_frame :
  let w' := snd (HarnessEvolve.generate_proposals home md5 json_loads str_float w) in
  HarnessEvolve.files w' = HarnessEvolve.files w /\
  HarnessEvolve.proposals_file w' = HarnessEvolve.proposals_file w /\
  HarnessEvolve.history_file w' = HarnessEvolve.history_file w.
Proof.
  unfold HarnessEvolve.generate_proposals. rewrite analysis_loaded.
  rewrite (bool_decide_eq_false_2 _ analysis_has_data).
  destruct (HarnessEvolve.skill_proposals _ _ _ _ _ _) as [p1 c1].
  destruct (HarnessEvolve.routing_proposals _ c1) as [p2 c2].
  destruct (HarnessEvolve.threshold_proposals _ _ c2) as [p3 c3].
  destruct (HarnessEvolve.review_proposals _ c3) as [p4 c4].
  repeat split.
Qed.

(** Every proposal generated from an analysis with data is pending,
    carries an identifier and a time of creation, and is backed by the
    analysis: a skill to add by a missed pattern seen three times or more
    that no trigger of a stored skill contains, a routing update by an
    efficiency issue naming a tool pair, the threshold adjustment by a
    success rate below 60, a manual review by a recommendation of high
    severity. *)
Theorem generated_proposals_are_justified (p : HarnessEvolve.Proposal) :
  In p (fst (HarnessEvolve.generate_proposals home md5 json_loads str_float w)) ->
  stamped p /\ justified p.
Proof.
  pose proof generate_proposals_sound as Hall.
  rewrite List.Forall_forall in Hall. apply Hall.
Qed.

(** The proposal step stores what it generated: the proposals are appended
    to the proposal store, all of them and in order of generation, and
    neither the skill collection nor the history is written. *)
Theorem run_propose_appends_generated :
  let run := HarnessEvolve.run_propose home md5 json_loads str_float w in
  HarnessEvolve.load_proposals (snd run)
  = (HarnessEvolve.load_proposals w ++ fst run)%list /\
  HarnessEvolve.files (snd run) = HarnessEvolve.files w /\
  HarnessEvolve.history_file (snd run) = HarnessEvolve.history_file w.
Proof.
  unfold HarnessEvolve.run_propose.
  pose proof generate_proposals_sound as Hall.
  pose proof generate_proposals_frame as (Hfiles & Hprops & Hhist).
  destruct (HarnessEvolve.generate_proposals home md5 json_loads str_float w)
    as [ps w1].
  cbn [fst snd] in *. cbv zeta.
  assert (Hl : HarnessEvolve.load_proposals w1 = HarnessEvolve.load_proposals w)
    by (unfold HarnessEvolve.load_proposals; rewrite Hprops; reflexivity).
  rewrite <- Hl, <- Hfiles, <- Hhist. clear Hl Hfiles Hprops Hhist.
  revert w1. induction Hall as [|p ps [(Hp & _) _] Hall IH]; intros w1; cbn [fold_left].
  - rewrite app_nil_r. repeat split.
  - rewrite (bool_decide_eq_true_2 _ Hp).
    destruct (IH (HarnessEvolve.save_proposal p w1)) as (E1 & E2 & E3).
    rewrite E1, E2, E3. unfold HarnessEvolve.save_proposal.
    cbn. rewrite <- app_assoc. repeat split.
Qed.

(** Nothing the analysis reports goes without its proposal: each missed
    pattern seen three times or more that no trigger of a stored skill
    contains yields a skill to add, each recommendation of high severity a
    manual review, and a success rate below 60 the threshold adjustment. *)
Theorem analysis_findings_are_proposed :
  let generated :=
    fst (HarnessEvolve.generate_proposals home md5 json_loads str_float w) in
  (forall pattern count,
      In (pattern, count) (HarnessEvolve.common_missed_patterns analysis) ->
      3 <= count ->
      HarnessEvolve.similar_skill_exists pattern
        (HarnessEvolve.load_skills home json_loads w) = false ->
      exists p skill,
        In p generated /\
        HarnessEvolve.type p = Some "skill_add" /\
        HarnessEvolve.status p = Some "pending" /\
        HarnessEvolve.data p = Some (HarnessEvolve.SkillData skill) /\
        skill_id skill = Some ("skill_auto_" ++ PyStr.take 8 (md5 pattern))%string /\
        name skill = ("auto-" ++ PyStr.replace_char " " "-" pattern)%string /\
        triggers skill = [pattern; PyStr.replace_char "-" " " pattern]) /\
  (forall rec,
      In rec (HarnessEvolve.recommendations analysis) ->
      HarnessEvolve.severity rec = Some "high" ->
      exists p,
        In p generated /\
        HarnessEvolve.type p = Some "manual_review" /\
        HarnessEvolve.status p = Some "pending" /\
        HarnessEvolve.data p = Some (HarnessEvolve.ReviewData rec)) /\
  (PrimFloat.ltb (default 100%float (HarnessEvolve.success_rate_pct analysis)) 60
   = true ->
   exists p,
     In p generated /\
     HarnessEvolve.type p = Some "threshold_adjust" /\
     HarnessEvolve.status p = Some "pending" /\
     HarnessEvolve.data p
     = Some (HarnessEvolve.ThresholdData "success_rate_low" 70 60)).
Proof.
  intros generated. subst generated.
  unfold HarnessEvolve.generate_proposals. rewrite analysis_loaded.
  rewrite (bool_decide_eq_false_2 _ analysis_has_data).
  pose proof (skill_proposals_complete
                (HarnessEvolve.common_missed_patterns analysis)
                (HarnessEvolve.clock w)) as H1.
  destruct (HarnessEvolve.skill_proposals _ _ _ _ _ _) as [p1 c1].
  destruct (HarnessEvolve.routing_proposals _ c1) as [p2 c2].
  pose proof (threshold_proposals_complete c2) as H3.
  destruct (HarnessEvolve.threshold_proposals _ _ c2) as [p3 c3].
  pose proof (review_proposals_complete
                (HarnessEvolve.recommendations analysis) c3) as H4.
  destruct (HarnessEvolve.review_proposals _ c3) as [p4 c4].
  cbn [fst] in *. split; [|split].
  - intros pattern count Hin Hc Hsim.
    destruct (H1 pattern count Hin Hc Hsim) as (p & skill & Hp & Hrest).
    exists p, skill. split; [|exact Hrest].
    apply in_or_app. left. exact Hp.
  - intros rec Hin Hsev. destruct (H4 rec Hin Hsev) as (p & Hp & Hrest).
    exists p. split; [|exact Hrest].
    apply in_or_app. right. apply in_or_app. right. apply in_or_app. right. exact Hp.
  - intros Hlow. destruct (H3 Hlow) as (p & Hp & Hrest).
    exists p. split; [|exact Hrest].
    apply in_or_app. right. apply in_or_app. right. apply in_or_app. left. exact Hp.
Qed.

End ProposeFacts.

(** Without an analysis, or with one that reports no data, the proposal
    step yields a single note of type [info], which has no status and is
    therefore not stored: the proposal store, the skill collection and the
    history are left as they were. *)
Theorem propose_without_data_stores_nothing (home : string)
    (md5 : string -> string) (json_loads : string -> option Skill)
    (str_float : float -> string) (w : HarnessEvolve.World) :
  HarnessEvolve.latest_analysis w = None
  \/ (exists a, HarnessEvolve.latest_analysis w = Some a /\
                HarnessEvolve.a_status a = Some "no_data") ->
  let run := HarnessEvolve.run_propose home md5 json_loads str_float w in
  (exists p,
      fst run = [p] /\
      HarnessEvolve.type p = Some "info" /\
      HarnessEvolve.status p = None /\
      HarnessEvolve.data p = None /\
      HarnessEvolve.message p
      = Some "Insufficient data for proposals. Continue using the harness.") /\
  HarnessEvolve.proposals_file (snd run) = HarnessEvolve.proposals_file w /\
  HarnessEvolve.files (snd run) = HarnessEvolve.files w /\
  HarnessEvolve.history_file (snd run) = HarnessEvolve.history_file w.
Proof.
  intros H run. subst run.
  unfold HarnessEvolve.run_propose, HarnessEvolve.generate_proposals.
  destruct H as [H|(a & H & Ha)]; rewrite H.
  - cbn. split; [eexists; split; [reflexivity|repeat split]|repeat split].
  - rewrite (bool_decide_eq_true_2 _ Ha).
    cbn. split; [eexists; split; [reflexivity|repeat split]|repeat split].
Qed.

(** ** The statements above, on concrete stores *)

Lemma apply_refusal_on_unknown_id :
  fst (fst (HarnessEvolve.apply_proposal Scenarios.home_dir Scenarios.toy_dumps
              "prop_19990101_000000" false Scenarios.pending_world)) = false /\
  snd (HarnessEvolve.apply_proposal Scenarios.home_dir Scenarios.toy_dumps
         "prop_19990101_000000" false Scenarios.pending_world)
  = Scenarios.pending_world.
Proof.
  assert (H : fst (fst (HarnessEvolve.apply_proposal Scenarios.home_dir
                          Scenarios.toy_dumps "prop_19990101_000000" false
                          Scenarios.pending_world)) = false)
    by (vm_compute; reflexivity).
  split; [exact H|].
  apply (apply_changes_only_on_real_success Scenarios.home_dir Scenarios.toy_dumps
           "prop_19990101_000000" false Scenarios.pending_world).
  right. exact H.
Defined.

Lemma dry_run_accepts_manual_review :
  fst (fst (HarnessEvolve.apply_proposal Scenarios.home_dir Scenarios.toy_dumps
              "prop_20250113_080000" true Scenarios.review_world)) = true /\
  fst (fst (HarnessEvolve.apply_proposal Scenarios.home_dir Scenarios.toy_dumps
              "prop_20250113_080000" false Scenarios.review_world)) = false /\
  snd (HarnessEvolve.apply_proposal Scenarios.home_dir Scenarios.toy_dumps
         "prop_20250113_080000" false Scenarios.review_world)
  = Scenarios.review_world /\
  (HarnessEvolve.type Scenarios.review_item = Some "manual_review" ->
   snd (fst (HarnessEvolve.apply_proposal Scenarios.home_dir Scenarios.toy_dumps
               "prop_20250113_080000" false Scenarios.review_world))
   = "Manual review items cannot be auto-applied").
Proof.
  apply (dry_run_accepts_what_apply_refuses Scenarios.home_dir Scenarios.toy_dumps
           "prop_20250113_080000" Scenarios.review_item Scenarios.review_world).
  - vm_compute. reflexivity.
  - discriminate.
  - discriminate.
  - discriminate.
  - discriminate.
Defined.

Lemma rollback_twice_after_skill_add :
  let w1 :=
    snd (HarnessEvolve.apply_proposal Scenarios.home_dir Scenarios.toy_dumps
           "prop_20250115_120000" false Scenarios.pending_world) in
  fst (fst (HarnessEvolve.rollback_last Scenarios.home_dir w1)) = true /\
  HarnessEvolve.rollback_last Scenarios.home_dir
    (snd (HarnessEvolve.rollback_last Scenarios.home_dir w1))
  = ((false, "No backup available for rollback"),
     snd (HarnessEvolve.rollback_last Scenarios.home_dir w1)).
Proof.
  intros w1.
  assert (H : fst (fst (HarnessEvolve.rollback_last Scenarios.home_dir w1)) = true)
    by (vm_compute; reflexivity).
  split; [exact H|].
  apply (rollback_is_one_shot Scenarios.home_dir w1 H).
Defined.

Lemma recorded_routing_is_recorded_again :
  let applied :=
    HarnessEvolve.apply_proposal Scenarios.home_dir Scenarios.toy_dumps
      "prop_20250114_090000" false Scenarios.recorded_world in
  fst (fst applied) = true /\
  HarnessEvolve.files (snd applied) = HarnessEvolve.files Scenarios.recorded_world /\
  HarnessEvolve.rollback_last Scenarios.home_dir (snd applied)
  = ((false, "No backup available for rollback"), snd applied) /\
  fst (fst (HarnessEvolve.apply_proposal Scenarios.home_dir Scenarios.toy_dumps
              "prop_20250114_090000" false (snd applied))) = true.
Proof.
  intros applied.
  destruct (recorded_update_touches_no_file Scenarios.home_dir Scenarios.toy_dumps
              "prop_20250114_090000" Scenarios.recorded_routing
              Scenarios.recorded_world)
    as (H1 & H2 & _ & _ & H5 & H6);
    [vm_compute; reflexivity | discriminate | left; reflexivity |].
  split; [exact H1|]. split; [exact H2|]. split; [exact H5|exact H6].
Defined.

Lemma rolled_back_pending_skill_stays_applied :
  let rolled :=
    HarnessEvolve.rollback_last Scenarios.home_dir
      (snd (HarnessEvolve.apply_proposal Scenarios.home_dir Scenarios.toy_dumps
              "prop_20250115_120000" false Scenarios.pending_world)) in
  fst (fst rolled) = true /\
  HarnessEvolve.files (snd rolled) !! HarnessEvolve.skills_file Scenarios.home_dir
  = Some ("{skill: seed}" ++ PyStr.newline)%string /\
  HarnessEvolve.apply_proposal Scenarios.home_dir Scenarios.toy_dumps
    "prop_20250115_120000" false (snd rolled)
  = ((false, "Proposal prop_20250115_120000 already applied"), snd rolled).
Proof.
  intros rolled.
  destruct (rolled_back_proposal_stays_applied Scenarios.home_dir Scenarios.toy_dumps
              "prop_20250115_120000" Scenarios.pending_skill_add
              Scenarios.pending_world ("{skill: seed}" ++ PyStr.newline)%string)
    as (H1 & H2 & _ & H4);
    [vm_compute; reflexivity | reflexivity | discriminate
    | vm_compute; reflexivity |].
  split; [exact H1|]. split; [exact H2|exact H4].
Defined.

Lemma skill_add_into_missing_collection :
  let applied :=
    HarnessEvolve.apply_proposal Scenarios.home_dir Scenarios.toy_dumps
      "prop_20250115_120000" false Scenarios.uncollected_world in
  HarnessEvolve.files Scenarios.uncollected_world
    !! HarnessEvolve.skills_file Scenarios.home_dir = None /\
  fst (fst applied) = true /\
  HarnessEvolve.files (snd applied)
  = <[HarnessEvolve.skills_file Scenarios.home_dir :=
        (Scenarios.toy_dumps (HarnessEvolve.data Scenarios.pending_skill_add)
         ++ PyStr.newline)%string]>
      (HarnessEvolve.files Scenarios.uncollected_world) /\
  HarnessEvolve.rollback_last Scenarios.home_dir (snd applied)
  = ((false, "No backup available for rollback"), snd applied).
Proof.
  intros applied.
  assert (Hfile : HarnessEvolve.files Scenarios.uncollected_world
                    !! HarnessEvolve.skills_file Scenarios.home_dir = None)
    by (vm_compute; reflexivity).
  split; [exact Hfile|].
  destruct (skill_add_without_collection_has_no_backup Scenarios.home_dir
              Scenarios.toy_dumps "prop_20250115_120000"
              Scenarios.pending_skill_add Scenarios.uncollected_world)
    as (H1 & H2 & _ & H4);
    [vm_compute; reflexivity | reflexivity | discriminate | exact Hfile |].
  split; [exact H1|]. split; [exact H2|exact H4].
Defined.

Lemma generated_from_full_analysis_are_justified :
  Forall (fun p =>
            stamped p /\
            justified Scenarios.home_dir Scenarios.toy_md5 Scenarios.toy_loads
              Scenarios.analysed_world Scenarios.analysis_full p)
         (fst (HarnessEvolve.generate_proposals Scenarios.home_dir
                 Scenarios.toy_md5 Scenarios.toy_loads Scenarios.toy_str_float
                 Scenarios.analysed_world)).
Proof.
  apply List.Forall_forall. intros p Hp.
  apply (generated_proposals_are_justified Scenarios.home_dir Scenarios.toy_md5
           Scenarios.toy_loads Scenarios.toy_str_float Scenarios.analysed_world
           Scenarios.analysis_full).
  - reflexivity.
  - discriminate.
  - exact Hp.
Defined.

Lemma run_propose_on_full_analysis :
  let run :=
    HarnessEvolve.run_propose Scenarios.home_dir Scenarios.toy_md5
      Scenarios.toy_loads Scenarios.toy_str_float Scenarios.analysed_world in
  length (fst run) = 4%nat /\
  HarnessEvolve.load_proposals (snd run)
  = (HarnessEvolve.load_proposals Scenarios.analysed_world ++ fst run)%list /\
  HarnessEvolve.files (snd run) = HarnessEvolve.files Scenarios.analysed_world /\
  HarnessEvolve.history_file (snd run)
  = HarnessEvolve.history_file Scenarios.analysed_world.
Proof.
  intros run. split; [vm_compute; reflexivity|].
  apply (run_propose_appends_generated Scenarios.home_dir Scenarios.toy_md5
           Scenarios.toy_loads Scenarios.toy_str_float Scenarios.analysed_world
           Scenarios.analysis_full).
  - reflexivity.
  - discriminate.
Defined.

Lemma full_analysis_findings_are_proposed :
  exists p,
    In p (fst (HarnessEvolve.generate_proposals Scenarios.home_dir
                 Scenarios.toy_md5 Scenarios.toy_loads Scenarios.toy_str_float
                 Scenarios.analysed_world)) /\
    HarnessEvolve.type p = Some "threshold_adjust" /\
    HarnessEvolve.status p = Some "pending" /\
    HarnessEvolve.data p
    = Some (HarnessEvolve.ThresholdData "success_rate_low" 70 60).
Proof.
  apply (proj2 (proj2 (analysis_findings_are_proposed Scenarios.home_dir
                         Scenarios.toy_md5 Scenarios.toy_loads
                         Scenarios.toy_str_float Scenarios.analysed_world
                         Scenarios.analysis_full eq_refl
                         ltac:(discriminate)))).
  reflexivity.
Defined.

Lemma propose_without_analysis :
  let run :=
    HarnessEvolve.run_propose Scenarios.home_dir Scenarios.toy_md5
      Scenarios.toy_loads Scenarios.toy_str_float Scenarios.pending_world in
  (exists p,
      fst run = [p] /\
      HarnessEvolve.type p = Some "info" /\
      HarnessEvolve.status p = None /\
      HarnessEvolve.data p = None /\
      HarnessEvolve.message p
      = Some "Insufficient data for proposals. Continue using the harness.") /\
  HarnessEvolve.proposals_file (snd run)
  = HarnessEvolve.proposals_file Scenarios.pending_world /\
  HarnessEvolve.files (snd run) = HarnessEvolve.files Scenarios.pending_world /\
  HarnessEvolve.history_file (snd run)
  = HarnessEvolve.history_file Scenarios.pending_world.
Proof.
  apply (propose_without_data_stores_nothing Scenarios.home_dir Scenarios.toy_md5
           Scenarios.toy_loads Scenarios.toy_str_float Scenarios.pending_world).
  left. reflexivity.
Defined.

(** * Python strings: case folding and substrings *)

Lemma lower_ascii_idem (c : ascii) :
  PyStr.lower_ascii (PyStr.lower_ascii c) = PyStr.lower_ascii c.
Proof. destruct c as [[] [] [] [] [] [] [] []]; reflexivity. Qed.

Lemma lower_idem (s : string) : PyStr.lower (PyStr.lower s) = PyStr.lower s.
Proof.
  induction s as [|c s IH]; [reflexivity|].
  cbn [PyStr.lower]. rewrite lower_ascii_idem, IH. reflexivity.
Qed.

Lemma lower_app (a b : string) :
  PyStr.lower (a ++ b) = (PyStr.lower a ++ PyStr.lower b)%string.
Proof.
  induction a as [|c a IH].
  - rewrite !append_nil. reflexivity.
  - rewrite append_cons. cbn [PyStr.lower]. rewrite append_cons, IH. reflexivity.
Qed.

Lemma lower_length (s : string) : String.length (PyStr.lower s) = String.length s.
Proof. induction s as [|c s IH]; [reflexivity|]. cbn. rewrite IH. reflexivity. Qed.

Lemma append_nil_r (a : string) : (a ++ "" = a)%string.
Proof.
  induction a as [|c a IH]; [reflexivity|]. rewrite append_cons, IH. reflexivity.
Qed.

(** Two concatenations that agree, with left parts of one length, agree
    part by part. *)
Lemma append_inj_length (a a' b b' : string) :
  String.length a = String.length a' ->
  (a ++ b = a' ++ b')%string -> a = a' /\ b = b'.
Proof.
  revert a'. induction a as [|c a IH]; intros [|c' a'] Hlen E;
    try discriminate Hlen.
  - rewrite !append_nil in E. split; [reflexivity|exact E].
  - rewrite !append_cons in E. injection E as -> E.
    injection Hlen as Hlen. destruct (IH a' Hlen E) as [-> ->].
    split; reflexivity.
Qed.

Lemma startswith_intro (p s : string) : PyStr.startswith p (p ++ s) = true.
Proof.
  induction p as [|c p IH].
  - reflexivity.
  - rewrite append_cons. cbn [PyStr.startswith].
    rewrite Ascii.eqb_refl. exact IH.
Qed.

Lemma startswith_elim (p s : string) :
  PyStr.startswith p s = true -> exists post, s = (p ++ post)%string.
Proof.
  revert s. induction p as [|c p IH]; intros s H.
  - exists s. rewrite append_nil. reflexivity.
  - destruct s as [|d s]; [discriminate H|]. cbn [PyStr.startswith] in H.
    destruct (Ascii.eqb_spec c d) as [->|_]; [|discriminate H].
    destruct (IH s H) as [post ->]. exists post. rewrite append_cons. reflexivity.
Qed.

Lemma contains_unfold (sub s : string) :
  PyStr.contains sub s
  = PyStr.startswith sub s
    || match s with
       | EmptyString => false
       | String _ r => PyStr.contains sub r
       end.
Proof. destruct s; reflexivity. Qed.

(** [sub in s] holds exactly when [s] is some text, [sub], and some text. *)
Lemma contains_intro (pre sub post : string) :
  PyStr.contains sub (pre ++ sub ++ post) = true.
Proof.
  induction pre as [|c pre IH].
  - rewrite append_nil, contains_unfold, startswith_intro. reflexivity.
  - rewrite append_cons, contains_unfold, IH. apply orb_true_r.
Qed.

Lemma contains_elim (sub s : string) :
  PyStr.contains sub s = true ->
  exists pre post, s = (pre ++ sub ++ post)%string.
Proof.
  induction s as [|c s IH]; rewrite contains_unfold; intros H.
  - rewrite orb_false_r in H. destruct (startswith_elim _ _ H) as [post E].
    exists "", post. rewrite append_nil. exact E.
  - apply orb_true_iff in H as [H|H].
    + destruct (startswith_elim _ _ H) as [post E].
      exists "", post. rewrite append_nil. exact E.
    + destruct (IH H) as (pre & post & ->).
      exists (String c pre), post. rewrite append_cons. reflexivity.
Qed.

(** A substring stays one when text is added on either side. *)
Lemma contains_extend (sub pre s post : string) :
  PyStr.contains sub s = true ->
  PyStr.contains sub (pre ++ s ++ post) = true.
Proof.
  intros H. destruct (contains_elim _ _ H) as (a & b & ->).
  replace (pre ++ (a ++ sub ++ b) ++ post)%string
    with ((pre ++ a) ++ sub ++ (b ++ post))%string
    by (rewrite !append_assoc; reflexivity).
  apply contains_intro.
Qed.

(** * Retrieval: domains and recent outcomes *)

Lemma sublist_filter_impl {A : Type} (P Q : A -> Prop)
    `{!forall x, Decision (P x)} `{!forall x, Decision (Q x)} (l : list A) :
  (forall x, P x -> Q x) -> filter P l `sublist_of` filter Q l.
Proof.
  intros HPQ. induction l as [|x l IH]; [constructor|].
  rewrite !filter_cons. destruct (decide (P x)) as [HP|HP].
  - rewrite decide_True by (apply HPQ; exact HP). constructor. exact IH.
  - destruct (decide (Q x)); [constructor|]; exact IH.
Qed.

Lemma sublist_map {A B : Type} (f : A -> B) (l1 l2 : list A) :
  l1 `sublist_of` l2 -> map f l1 `sublist_of` map f l2.
Proof. induction 1; cbn; constructor; assumption. Qed.

Lemma any_keyword_extend (pre task post : string) (keywords : list string) :
  MemoryRetrieval.any_keyword (PyStr.lower task) keywords = true ->
  MemoryRetrieval.any_keyword (PyStr.lower (pre ++ task ++ post)) keywords = true.
Proof.
  unfold MemoryRetrieval.any_keyword. rewrite !existsb_exists.
  intros (kw & Hin & Hkw). exists kw. split; [exact Hin|].
  rewrite !lower_app. apply contains_extend. exact Hkw.
Qed.

(** The domains detected are listed in the fixed order of the table, each
    at most once, and adding text before or after a task never loses a
    domain: detection is by substring, whatever surrounds the keyword. *)
Theorem detect_domains_grows_with_text (pre task post : string) :
  MemoryRetrieval.detect_domains task
    `sublist_of` MemoryRetrieval.detect_domains (pre ++ task ++ post) /\
  MemoryRetrieval.detect_domains (pre ++ task ++ post)
    `sublist_of` ["auth"; "api"; "database"; "testing"; "frontend"; "deployment"].
Proof.
  unfold MemoryRetrieval.detect_domains. split.
  - apply sublist_map, sublist_filter_impl. intros dk H.
    apply Is_true_true. apply Is_true_true in H.
    apply any_keyword_extend. exact H.
  - change ["auth"; "api"; "database"; "testing"; "frontend"; "deployment"]
      with (map fst MemoryRetrieval.domain_keywords).
    apply sublist_map, sublist_filter.
Qed.

Section OutcomeFacts.

Variable Outcome : Type.
Variable json_loads : string -> option Outcome.

Let load := MemoryRetrieval.load_recent_outcomes Outcome json_loads.
Let parse := MemoryRetrieval.parse_lines Outcome json_loads.

Lemma parse_lines_length (lines : list string) :
  (length (parse lines) <= length lines)%nat.
Proof.
  subst parse. cbv beta. unfold MemoryRetrieval.parse_lines.
  induction lines as [|l lines IH]; cbn; [lia|].
  destruct (if PyStr.is_blank l then None else json_loads l); cbn; lia.
Qed.

(** [load_recent_outcomes] reads a window of lines, not of records: for a
    positive [n] it parses the last [n] lines of the file, so that it
    returns at most [n] records, and fewer when some of these lines are
    blank or do not parse. For [n = 0] the window [lines[-0:]] is the whole
    file, and every record is returned. *)
Theorem load_recent_outcomes_window (n : nat) (text : string) :
  let lines := PyStr.splitlines text in
  load (Z.of_nat (S n)) (Some text) = parse (skipn (length lines - S n) lines) /\
  (length (load (Z.of_nat (S n)) (Some text)) <= S n)%nat /\
  load 0 (Some text) = parse lines /\
  load (Z.of_nat (S n)) None = [].
Proof.
  intros lines. subst load. cbv beta. unfold MemoryRetrieval.load_recent_outcomes.
  fold lines. rewrite slice_last by lia. fold parse.
  split; [reflexivity|]. split; [|split; [|reflexivity]].
  - etransitivity; [apply parse_lines_length|]. rewrite length_skipn. lia.
  - f_equal. change (- 0) with 0. unfold PySeq.slice, PySeq.clamp. cbn [from_option].
    change (0 <? 0) with false. cbv iota.
    replace (Z.to_nat (Z.min 0 (Z.of_nat (length lines)))) with 0%nat by lia.
    rewrite Nat.sub_0_r. change (skipn 0 lines) with lines. apply firstn_all.
Qed.

End OutcomeFacts.

(** * From capture to retrieval *)

Lemma string_of_list_ascii_snoc (l : list ascii) (c : ascii) (s : string) :
  (string_of_list_ascii (l ++ [c]) ++ s = string_of_list_ascii l ++ String c s)%string.
Proof.
  induction l as [|d l IH]; cbn [app string_of_list_ascii].
  - rewrite append_cons, !append_nil. reflexivity.
  - rewrite !append_cons, IH. reflexivity.
Qed.

(** Each run that [runs_aux] returns is a piece of the text it reads. *)
Lemma runs_aux_substring (p : ascii -> bool) (acc : list ascii) (s r : string) :
  In r (PyStr.runs_aux p acc s) ->
  exists pre post,
    (string_of_list_ascii (rev acc) ++ s = pre ++ r ++ post)%string.
Proof.
  revert acc. induction s as [|c s IH]; intros acc; cbn [PyStr.runs_aux].
  - destruct acc as [|a acc]; [intros []|]. intros [<-|[]].
    exists "", "". rewrite append_nil. reflexivity.
  - destruct (p c).
    + intros H. destruct (IH (c :: acc) H) as (pre & post & E).
      exists pre, post. rewrite <- E. cbn [rev].
      rewrite string_of_list_ascii_snoc. reflexivity.
    + intros H. apply in_app_or in H as [H|H].
      * destruct acc as [|a acc]; [destruct H|]. destruct H as [<-|[]].
        exists "", (String c s). rewrite append_nil. reflexivity.
      * destruct (IH [] H) as (pre & post & E).
        cbn [rev string_of_list_ascii] in E. rewrite append_nil in E.
        exists (string_of_list_ascii (rev acc) ++ String c pre)%string, post.
        rewrite E, append_assoc, append_cons. reflexivity.
Qed.

(** [s.split()] is empty only for a text of whitespace. *)
Lemma runs_aux_nil (acc : list ascii) (s : string) :
  PyStr.runs_aux (fun c => negb (PyStr.is_space c)) acc s = [] ->
  acc = [] /\ PyStr.is_blank s = true.
Proof.
  revert acc. induction s as [|c s IH]; intros acc; cbn [PyStr.runs_aux PyStr.is_blank].
  - destruct acc; [split; reflexivity|discriminate].
  - destruct (PyStr.is_space c); cbn [negb andb].
    + intros H. apply app_eq_nil in H as [Hflush H].
      destruct (IH [] H) as [_ Hs].
      destruct acc; [split; [reflexivity|exact Hs]|discriminate Hflush].
    + intros H. destruct (IH (c :: acc) H) as [N _]. discriminate N.
Qed.

Lemma is_space_lower (c : ascii) :
  PyStr.is_space (PyStr.lower_ascii c) = PyStr.is_space c.
Proof. destruct c as [[] [] [] [] [] [] [] []]; reflexivity. Qed.

Lemma is_blank_lower (s : string) :
  PyStr.is_blank (PyStr.lower s) = PyStr.is_blank s.
Proof.
  induction s as [|c s IH]; [reflexivity|].
  cbn [PyStr.lower PyStr.is_blank]. rewrite is_space_lower, IH. reflexivity.
Qed.

(** A piece of a lowercase text is lowercase. *)
Lemma lower_piece (pre r post : string) :
  PyStr.lower (pre ++ r ++ post) = (pre ++ r ++ post)%string ->
  PyStr.lower r = r.
Proof.
  rewrite !lower_app. intros E.
  apply append_inj_length in E as [_ E]; [|apply lower_length].
  apply append_inj_length in E as [E _]; [exact E|apply lower_length].
Qed.

Lemma keywords_lowercase :
  Forall (fun kw => PyStr.lower kw = kw) CaptureSession.keywords.
Proof. repeat (constructor; [reflexivity|]). constructor. Qed.

Lemma filter_all {A : Type} (P : A -> Prop) `{!forall x, Decision (P x)}
    (l : list A) :
  Forall P l -> filter P l = l.
Proof.
  induction 1 as [|x l Hx Hl IH]; [reflexivity|].
  rewrite filter_cons, decide_True by exact Hx. f_equal. exact IH.
Qed.

Lemma in_firstn {A : Type} (n : nat) (l : list A) (x : A) :
  In x (firstn n l) -> In x l.
Proof.
  intros H. rewrite <- (firstn_skipn n l). apply in_or_app. left. exact H.
Qed.

(** A single skill of positive score is what Match returns. *)
Lemma match_skills_single (task : string) (skill : Skill) :
  task <> "" ->
  (0 < MemoryRetrieval.score task skill)%nat ->
  MemoryRetrieval.match_skills task [skill] = [skill].
Proof.
  intros Hne Hpos. unfold MemoryRetrieval.match_skills.
  destruct (String.eqb_spec task "") as [E|_]; [contradiction|].
  cbn [MemoryRetrieval.scored_skills].
  apply Nat.ltb_lt in Hpos. rewrite Hpos. reflexivity.
Qed.

(** Each trigger that occurs in the task counts twice in the score. *)
Lemma score_of_triggers (task : string) (skill : Skill) :
  Forall (fun t => PyStr.contains (PyStr.lower t) (PyStr.lower task) = true)
         (triggers skill) ->
  (2 * length (triggers skill) <= MemoryRetrieval.score task skill)%nat.
Proof.
  intros Hall. unfold MemoryRetrieval.score, MemoryRetrieval.trigger_matches.
  rewrite filter_all.
  - lia.
  - eapply Forall_impl; [exact Hall|]. intros t Ht. apply Is_true_true. exact Ht.
Qed.

Section CaptureThenMatch.

Variable md5 : string -> string.

(** A skill captured from a session is found again by its task: for a
    successful session whose task has ten characters or more, not all
    whitespace, the extracted skill has at least one trigger, each of its
    triggers occurs in the lowercased task, so that it scores at least two
    per trigger for that task. From any collection that holds it, Match
    for that task returns it, or else returns three skills that each score
    at least as much; from the collection of that one skill it returns
    it. *)
Theorem captured_skill_is_matched (sd : CaptureSession.SessionData) (c : Clock) :
  CaptureSession.outcome sd = "success" ->
  (10 <= String.length (CaptureSession.initial_task sd))%nat ->
  PyStr.is_blank (CaptureSession.initial_task sd) = false ->
  let task := CaptureSession.initial_task sd in
  exists skill,
    fst (CaptureSession.extract_skill md5 sd c) = Some skill /\
    triggers skill <> [] /\
    Forall (fun t => PyStr.contains (PyStr.lower t) (PyStr.lower task) = true)
           (triggers skill) /\
    (2 * length (triggers skill) <= MemoryRetrieval.score task skill)%nat /\
    MemoryRetrieval.match_skills task [skill] = [skill] /\
    (forall skills,
        In skill skills ->
        In skill (MemoryRetrieval.match_skills task skills) \/
        (length (MemoryRetrieval.match_skills task skills) = 3%nat /\
         Forall (fun s => (MemoryRetrieval.score task skill
                           <= MemoryRetrieval.score task s)%nat)
                (MemoryRetrieval.match_skills task skills))).
Proof.
  intros Hout Hlen Hblank task.
  assert (Hlt : (String.length task <? 10)%nat = false)
    by (apply Nat.ltb_ge; exact Hlen).
  assert (Htask : task <> "").
  { intros E. unfold task in E. rewrite E in Hlen. cbn in Hlen. lia. }
  unfold CaptureSession.extract_skill. rewrite Hout.
  change (negb ("success" =? "success")%string) with false.
  fold task. rewrite Hlt. cbv iota.
  set (kws := filter (fun kw => Is_true (PyStr.contains kw (PyStr.lower task)))
                     CaptureSession.keywords).
  set (trs := match kws with
              | [] => firstn 3 (PyStr.split (PyStr.lower task))
              | _ => kws
              end).
  assert (Hne : trs <> []).
  { subst trs. destruct kws as [|k kws']; [|discriminate].
    unfold PyStr.split.
    destruct (PyStr.runs_aux _ [] (PyStr.lower task)) as [|r rs] eqn:E;
      [|discriminate].
    apply runs_aux_nil in E as [_ E]. rewrite is_blank_lower in E.
    fold task in Hblank. congruence. }
  assert (Hall : Forall (fun t => PyStr.contains (PyStr.lower t) (PyStr.lower task)
                                  = true) trs).
  { subst trs. destruct kws as [|k kws'] eqn:Ek.
    - apply List.Forall_forall. intros t Ht.
      apply in_firstn in Ht.
      destruct (runs_aux_substring _ [] _ t Ht) as (pre & post & E).
      cbn [rev string_of_list_ascii] in E. rewrite append_nil in E.
      assert (Hlow : PyStr.lower t = t).
      { apply (lower_piece pre t post). rewrite <- E. apply lower_idem. }
      rewrite Hlow, E. apply contains_intro.
    - rewrite <- Ek. apply List.Forall_forall. intros t Ht.
      apply list_elem_of_In in Ht. subst kws.
      apply list_elem_of_filter in Ht as [Hc Hk].
      pose proof keywords_lowercase as Hlow.
      rewrite List.Forall_forall in Hlow.
      rewrite (Hlow t) by (apply list_elem_of_In; exact Hk).
      apply Is_true_true. exact Hc. }
  cbn [now fst].
  eexists. split; [reflexivity|]. cbn [triggers].
  split; [exact Hne|]. split; [exact Hall|].
  match goal with
  | |- (_ <= MemoryRetrieval.score task ?s)%nat /\ _ =>
      pose proof (score_of_triggers task s Hall) as Hscore
  end.
  cbn [triggers] in Hscore.
  split; [exact Hscore|].
  assert (Hpos : forall n, (2 * length trs <= n)%nat -> (0 < n)%nat).
  { intros n Hn. destruct trs; [contradiction|]. cbn [length] in Hn. lia. }
  split.
  - apply match_skills_single; [exact Htask|]. apply Hpos. exact Hscore.
  - intros skills Hin.
    apply (match_skills_keeps_or_beats task skills _ Htask Hin).
    apply Hpos. exact Hscore.
Qed.

End CaptureThenMatch.

Lemma captured_fix_is_matched :
  exists skill,
    fst (CaptureSession.extract_skill Scenarios.toy_md5 Scenarios.session_fix
           Scenarios.frozen_clock) = Some skill /\
    triggers skill <> [] /\
    Forall (fun t => PyStr.contains (PyStr.lower t)
                       (PyStr.lower (CaptureSession.initial_task Scenarios.session_fix))
                     = true)
           (triggers skill) /\
    (2 * length (triggers skill)
     <= MemoryRetrieval.score (CaptureSession.initial_task Scenarios.session_fix) skill)%nat /\
    MemoryRetrieval.match_skills (CaptureSession.initial_task Scenarios.session_fix)
      [skill] = [skill] /\
    (forall skills,
        In skill skills ->
        In skill (MemoryRetrieval.match_skills
                    (CaptureSession.initial_task Scenarios.session_fix) skills) \/
        (length (MemoryRetrieval.match_skills
                   (CaptureSession.initial_task Scenarios.session_fix) skills) = 3%nat /\
         Forall (fun s =>
                   (MemoryRetrieval.score
                      (CaptureSession.initial_task Scenarios.session_fix) skill
                    <= MemoryRetrieval.score
                         (CaptureSession.initial_task Scenarios.session_fix) s)%nat)
                (MemoryRetrieval.match_skills
                   (CaptureSession.initial_task Scenarios.session_fix) skills))).
Proof.
  apply (captured_skill_is_matched Scenarios.toy_md5 Scenarios.session_fix
           Scenarios.frozen_clock).
  - reflexivity.
  - vm_compute. lia.
  - reflexivity.
Defined.

(** * The skill store: what a save keeps *)

(** An incoming skill without [skill_id] is appended to an empty or absent
    store, where the loop that reads the key never runs; with any stored
    skill the first comparison raises [KeyError]. *)
Theorem save_skill_without_id (skill : Skill) (file : option (list Skill)) :
  skill_id skill = None ->
  CaptureSession.save_skill skill file
  = match default [] file with
    | [] => Ok [skill]
    | _ :: _ => Raise (KeyError "skill_id")
    end.
Proof.
  intros Hid. unfold CaptureSession.save_skill.
  destruct (default [] file) as [|s l]; [reflexivity|].
  cbn [CaptureSession.update_existing]. rewrite Hid. reflexivity.
Qed.

(** What a merge changes: the count, the time of last use and the rate;
    every other field is the stored one. *)
Lemma merge_keeps (existing skill m : Skill) :
  CaptureSession.merge existing skill = Ok m ->
  skill_id m = skill_id existing /\
  name m = name existing /\
  description m = description existing /\
  triggers m = triggers existing /\
  prerequisites m = prerequisites existing /\
  key_steps m = key_steps existing /\
  tools_typically_used m = tools_typically_used existing /\
  estimated_tokens m = estimated_tokens existing /\
  created_from_session m = created_from_session existing /\
  times_used m = Some (default 0 (times_used existing) + 1) /\
  last_used m = last_used skill.
Proof.
  unfold CaptureSession.merge. cbn.
  destruct (_ =? 0); [discriminate|]. intros [= <-]. repeat split.
Qed.

(** A save that returns writes back the store with one change: either the
    incoming skill is appended, when no stored skill has its identifier, or
    the first stored skill with the identifier is updated in place. No
    record is dropped, moved or duplicated; later records with the same
    identifier are left alone; and of the incoming skill only the time of
    last use is kept: its description, triggers, steps and tools are
    discarded in favour of the stored ones. *)
Theorem save_skill_touches_one_record (skill : Skill) (sid : string)
    (file : option (list Skill)) (written : list Skill) :
  skill_id skill = Some sid ->
  CaptureSession.save_skill skill file = Ok written ->
  let old := default [] file in
  (Forall (fun s => ~ has_id sid s) old /\ written = (old ++ [skill])%list)
  \/
  (exists pre ex post m,
      old = (pre ++ ex :: post)%list /\
      written = (pre ++ m :: post)%list /\
      Forall (fun s => ~ has_id sid s) pre /\
      has_id sid ex /\
      has_id sid m /\
      name m = name ex /\
      description m = description ex /\
      triggers m = triggers ex /\
      key_steps m = key_steps ex /\
      tools_typically_used m = tools_typically_used ex /\
      estimated_tokens m = estimated_tokens ex /\
      created_from_session m = created_from_session ex /\
      times_used m = Some (default 0 (times_used ex) + 1) /\
      last_used m = last_used skill).
Proof.
  intros Hid Hsave old. rewrite save_skill_default in Hsave. fold old in Hsave.
  destruct (first_with_id sid old) as [Habs|(pre & ex & post & Hold & Hex & Hpre)].
  - left. split; [exact Habs|].
    rewrite (save_skill_new skill sid (Some old) Hid Habs) in Hsave.
    injection Hsave as <-. reflexivity.
  - right. rewrite Hold in Hsave.
    rewrite (save_skill_merge skill ex sid pre post Hid Hpre Hex) in Hsave.
    destruct (CaptureSession.merge ex skill) as [m|x] eqn:Em; [|discriminate].
    injection Hsave as <-.
    destruct (merge_keeps ex skill m Em)
      as (H1 & H2 & H3 & H4 & _ & H6 & H7 & H8 & H9 & H10 & H11).
    exists pre, ex, post, m. split; [exact Hold|]. split; [reflexivity|].
    split; [exact Hpre|]. split; [exact Hex|].
    split; [unfold has_id in *; congruence|].
    repeat (split; [assumption|]). assumption.
Qed.

(** * The capture of a session: the record and the working memory *)

Section CaptureRecord.

Variable md5 : string -> string.

(** The capture files the session under the identifier it generated,
    replacing any record already filed under it and no other; the record
    takes its task, project, tools, files and token count from the working
    memory, with the defaults of an empty one. When the capture returns the
    working memory is cleared; when the skill store makes it raise, the
    record and the outcome are already written and the working memory is
    still there. *)
Theorem capture_session_files_the_record (w : CaptureSession.World) :
  let working := CaptureSession.load_working_memory w in
  let sid := fst (CaptureSession.get_session_id w) in
  let r := CaptureSession.capture_session md5 w in
  (exists sd,
      CaptureSession.sessions (fst r) = <[sid := sd]> (CaptureSession.sessions w) /\
      CaptureSession.session_id sd = sid /\
      CaptureSession.outcome sd = "success" /\
      CaptureSession.initial_task sd
      = default "Unknown task" (CaptureSession.current_task working) /\
      CaptureSession.project_path sd
      = default (CaptureSession.cwd w) (CaptureSession.wm_project_path working) /\
      CaptureSession.tools_used sd = CaptureSession.wm_tools_used working /\
      CaptureSession.files_modified sd = CaptureSession.wm_files_modified working /\
      CaptureSession.tokens_used sd
      = CaptureSession.accumulated_context_tokens working) /\
  (snd r = None -> CaptureSession.context_buffer (fst r) = None) /\
  (forall e, snd r = Some e ->
             CaptureSession.context_buffer (fst r) = CaptureSession.context_buffer w /\
             length (CaptureSession.successes (fst r))
             = S (length (CaptureSession.successes w))).
Proof.
  intros working sid r. subst r sid.
  unfold CaptureSession.capture_session. fold working.
  assert (H0 : CaptureSession.sessions (snd (CaptureSession.get_session_id w))
               = CaptureSession.sessions w
               /\ CaptureSession.context_buffer (snd (CaptureSession.get_session_id w))
                  = CaptureSession.context_buffer w
               /\ CaptureSession.cwd (snd (CaptureSession.get_session_id w))
                  = CaptureSession.cwd w
               /\ CaptureSession.successes (snd (CaptureSession.get_session_id w))
                  = CaptureSession.successes w)
    by (repeat split).
  destruct (CaptureSession.get_session_id w) as [sid w0].
  cbn [fst snd] in *. destruct H0 as (Hs0 & Hb0 & Hc0 & Hsu0).
  destruct (now (CaptureSession.clock w0)) as [now_ c0].
  set (sd := CaptureSession.build_session_data _ _ _ _).
  set (rec := CaptureSession.Build_OutcomeRecord _ _ _ _ _ _).
  change (CaptureSession.outcome sd) with "success".
  change ("success" =? "success")%string with true. cbv iota.
  set (w1 := CaptureSession.save_session_record sd _).
  assert (H1 : CaptureSession.sessions w1 = <[sid := sd]> (CaptureSession.sessions w)
               /\ CaptureSession.context_buffer w1 = CaptureSession.context_buffer w
               /\ CaptureSession.successes w1 = CaptureSession.successes w).
  { subst w1. rewrite <- Hs0, <- Hb0, <- Hsu0. repeat split. }
  destruct H1 as (Hs1 & Hb1 & Hsu1).
  set (w2 := CaptureSession.append_outcome "successes" rec w1).
  assert (H2 : CaptureSession.sessions w2 = <[sid := sd]> (CaptureSession.sessions w)
               /\ CaptureSession.context_buffer w2 = CaptureSession.context_buffer w
               /\ CaptureSession.successes w2
                  = (CaptureSession.successes w ++ [rec])%list).
  { subst w2. rewrite <- Hs1, <- Hb1, <- Hsu1. repeat split. }
  destruct H2 as (Hs2 & Hb2 & Hsu2).
  split.
  { exists sd. split.
    - destruct (CaptureSession.extract_skill md5 sd (CaptureSession.clock w2))
        as [[skill|] c]; [|exact Hs2].
      destruct (CaptureSession.save_skill skill _); exact Hs2.
    - subst sd. cbn. rewrite Hc0. repeat split. }
  split.
  - destruct (CaptureSession.extract_skill md5 sd (CaptureSession.clock w2))
      as [[skill|] c]; [|reflexivity].
    destruct (CaptureSession.save_skill skill _); [reflexivity|discriminate].
  - intros e.
    destruct (CaptureSession.extract_skill md5 sd (CaptureSession.clock w2))
      as [[skill|] c]; [|discriminate].
    destruct (CaptureSession.save_skill skill _); [discriminate|].
    intros _. cbn [fst]. split; [exact Hb2|].
    change (CaptureSession.successes (CaptureSession.set_clock c w2))
      with (CaptureSession.successes w2).
    rewrite Hsu2, length_app. cbn. lia.
Qed.

End CaptureRecord.

(** * The context compressor: how the sequence is cut *)

Section SliceMore.

Context {A : Type}.

(** [l[h:]] *)
Lemma slice_from (h : nat) (l : list A) :
  PySeq.slice (Some (Z.of_nat h)) None l = skipn h l.
Proof.
  unfold PySeq.slice, PySeq.clamp. cbn [from_option].
  destruct (Z.ltb_spec (Z.of_nat h) 0) as [H|_]; [exfalso; lia|].
  destruct (Nat.le_gt_cases h (length l)) as [Hle|Hgt].
  - replace (Z.to_nat (Z.min (Z.of_nat h) (Z.of_nat (length l)))) with h by lia.
    apply firstn_all2. rewrite length_skipn. lia.
  - replace (Z.to_nat (Z.min (Z.of_nat h) (Z.of_nat (length l)))) with (length l) by lia.
    rewrite Nat.sub_diag, !skipn_all2 by lia. reflexivity.
Qed.

(** [l[h:-t]] for a positive [t] *)
Lemma slice_between (h t : nat) (l : list A) :
  (0 < t)%nat -> (h + t <= length l)%nat ->
  PySeq.slice (Some (Z.of_nat h)) (Some (- Z.of_nat t)) l
  = firstn (length l - t - h) (skipn h l).
Proof.
  intros Ht Hle. unfold PySeq.slice, PySeq.clamp. cbn [from_option].
  destruct (Z.ltb_spec (Z.of_nat h) 0) as [H|_]; [exfalso; lia|].
  destruct (Z.ltb_spec (- Z.of_nat t) 0) as [_|H]; [|exfalso; lia].
  replace (Z.to_nat (Z.min (Z.of_nat h) (Z.of_nat (length l)))) with h by lia.
  replace (Z.to_nat (Z.max 0 (Z.of_nat (length l) + - Z.of_nat t)))
    with (length l - t)%nat by lia.
  reflexivity.
Qed.

(** [l[-0:]] is all of [l], and [l[h:-0]] is empty. *)
Lemma slice_last_zero (l : list A) : PySeq.slice (Some (- 0)) None l = l.
Proof.
  change (- 0) with 0. unfold PySeq.slice, PySeq.clamp. cbn [from_option].
  change (0 <? 0) with false. cbv iota.
  replace (Z.to_nat (Z.min 0 (Z.of_nat (length l)))) with 0%nat by lia.
  rewrite Nat.sub_0_r. change (skipn 0 l) with l. apply firstn_all.
Qed.

Lemma slice_to_zero (h : nat) (l : list A) :
  PySeq.slice (Some (Z.of_nat h)) (Some (- 0)) l = [].
Proof.
  change (- 0) with 0. unfold PySeq.slice, PySeq.clamp. cbn [from_option].
  change (0 <? 0) with false. cbv iota.
  replace (Z.to_nat (Z.min 0 (Z.of_nat (length l)))) with 0%nat by lia.
  reflexivity.
Qed.

End SliceMore.

Section CompressCuts.

Variable Message : Type.
Variable py_str : Message -> string.
Variable extract_key_points : list Message -> list string.
Variable middle_summary : list Message -> list string -> string.
Variable round1 : float -> float.

Let compress :=
  ContextCompression.compress_messages Message py_str extract_key_points
    middle_summary round1.
Let cost := ContextCompression.sum_tokens Message py_str.

(** The fields of the result for a sequence over the budget, but for the
    reduction. *)
Lemma compress_over_budget (messages : list Message)
    (head_count tail_count max_tokens : Z) :
  max_tokens < cost messages ->
  let r := compress messages head_count tail_count max_tokens in
  let tail_ :=
    if head_count + tail_count <? Z.of_nat (length messages)
    then PySeq.slice (Some (- tail_count)) None messages
    else [] in
  let middle :=
    match tail_ with
    | [] => PySeq.slice (Some head_count) None messages
    | _ => PySeq.slice (Some head_count) (Some (- tail_count)) messages
    end in
  messages <> [] ->
  ContextCompression.head r = PySeq.slice None (Some head_count) messages /\
  ContextCompression.tail r = tail_ /\
  ContextCompression.key_points r = extract_key_points middle /\
  ContextCompression.summary r = middle_summary middle (extract_key_points middle) /\
  ContextCompression.original_count r = Some (length messages) /\
  ContextCompression.compressed_count r
  = Some (head_count + 1 + Z.of_nat (length tail_)).
Proof.
  intros Hover r tail_ middle Hne. subst r tail_ middle compress cost. cbv beta in *.
  unfold ContextCompression.compress_messages.
  destruct messages as [|m l]; [contradiction|].
  apply Z.leb_gt in Hover. rewrite Hover. repeat split.
Qed.

(** With more messages than head and tail take together, the compressor
    cuts the sequence in three without losing or repeating a message: the
    first [head_count] are kept, the last [tail_count] are kept, and what
    lies between is what the key points and the summary are made from. *)
Theorem compress_cuts_in_three (messages : list Message) (h t : nat)
    (max_tokens : Z) :
  max_tokens < cost messages ->
  (0 < t)%nat ->
  (h + t < length messages)%nat ->
  let r := compress messages (Z.of_nat h) (Z.of_nat t) max_tokens in
  exists middle,
    messages = (ContextCompression.head r ++ middle ++ ContextCompression.tail r)%list /\
    length (ContextCompression.head r) = h /\
    length (ContextCompression.tail r) = t /\
    ContextCompression.key_points r = extract_key_points middle /\
    ContextCompression.summary r = middle_summary middle (extract_key_points middle) /\
    ContextCompression.original_count r = Some (length messages) /\
    ContextCompression.compressed_count r = Some (Z.of_nat (h + 1 + t)).
Proof.
  intros Hover Ht Hlen r.
  assert (Hne : messages <> []) by (intros ->; cbn in Hlen; lia).
  pose proof (compress_over_budget messages (Z.of_nat h) (Z.of_nat t) max_tokens
                Hover Hne) as H.
  cbv zeta in H. fold r in H.
  assert (Hlt : (Z.of_nat h + Z.of_nat t <? Z.of_nat (length messages)) = true)
    by (apply Z.ltb_lt; lia).
  rewrite Hlt, slice_head, slice_last in H by exact Ht.
  assert (Htl : length (skipn (length messages - t) messages) = t)
    by (rewrite length_skipn; lia).
  destruct (skipn (length messages - t) messages) as [|x tl] eqn:Etl;
    [exfalso; cbn in Htl; lia|].
  rewrite slice_between in H by lia.
  destruct H as (Hh & Htail & Hk & Hs & Ho & Hc).
  exists (firstn (length messages - t - h) (skipn h messages)).
  rewrite Hh, Htail.
  split; [|split; [|split; [|split; [|split; [|split]]]]].
  - rewrite <- Etl.
    rewrite <- (firstn_skipn h messages) at 1. f_equal.
    rewrite <- (firstn_skipn (length messages - t - h) (skipn h messages)) at 1.
    f_equal. rewrite skipn_skipn. f_equal. lia.
  - rewrite length_firstn. lia.
  - exact Htl.
  - exact Hk.
  - exact Hs.
  - exact Ho.
  - rewrite Hc, Htl. f_equal. lia.
Qed.

(** With no more messages than head and tail take together, no tail is
    kept at all: everything after the first [head_count] messages goes to
    the summary, the most recent messages included. The count reported is
    [head_count + 1] even when the sequence is shorter than the head, in
    which case it exceeds the number of messages given. *)
Theorem compress_short_sequence_keeps_no_tail (messages : list Message)
    (h t : nat) (max_tokens : Z) :
  0 <= max_tokens ->
  max_tokens < cost messages ->
  (length messages <= h + t)%nat ->
  let r := compress messages (Z.of_nat h) (Z.of_nat t) max_tokens in
  ContextCompression.head r = firstn h messages /\
  ContextCompression.tail r = [] /\
  ContextCompression.key_points r = extract_key_points (skipn h messages) /\
  ContextCompression.summary r
  = middle_summary (skipn h messages) (extract_key_points (skipn h messages)) /\
  ContextCompression.compressed_count r = Some (Z.of_nat (h + 1)) /\
  ((length messages <= h)%nat ->
   ContextCompression.head r = messages /\
   ContextCompression.key_points r = extract_key_points [] /\
   exists n c,
     ContextCompression.original_count r = Some n /\
     ContextCompression.compressed_count r = Some c /\
     Z.of_nat n < c).
Proof.
  intros Hmax Hover Hlen r.
  assert (Hne : messages <> []) by (intros ->; cbn in Hover; lia).
  pose proof (compress_over_budget messages (Z.of_nat h) (Z.of_nat t) max_tokens
                Hover Hne) as H.
  cbv zeta in H. fold r in H.
  assert (Hlt : (Z.of_nat h + Z.of_nat t <? Z.of_nat (length messages)) = false)
    by (apply Z.ltb_ge; lia).
  rewrite Hlt, slice_head, slice_from in H.
  destruct H as (Hh & Htail & Hk & Hs & Ho & Hc).
  split; [exact Hh|]. split; [exact Htail|]. split; [exact Hk|].
  split; [exact Hs|].
  split; [rewrite Hc; cbn [length]; f_equal; lia|].
  intros Hshort. rewrite Hh, Hk, skipn_all2, firstn_all2 by lia.
  split; [reflexivity|]. split; [reflexivity|].
  eexists _, _. split; [exact Ho|]. split; [exact Hc|]. cbn [length]. lia.
Qed.

(** A tail count of zero does not drop the tail: [messages[-0:]] is the
    whole sequence, so the result holds the head and then every message
    again, nothing is summarised, and the count reported exceeds the number
    of messages given. *)
Theorem compress_zero_tail_keeps_everything (messages : list Message) (h : nat)
    (max_tokens : Z) :
  max_tokens < cost messages ->
  (h < length messages)%nat ->
  let r := compress messages (Z.of_nat h) 0 max_tokens in
  ContextCompression.head r = firstn h messages /\
  ContextCompression.tail r = messages /\
  ContextCompression.key_points r = extract_key_points [] /\
  ContextCompression.summary r = middle_summary [] (extract_key_points []) /\
  ContextCompression.original_count r = Some (length messages) /\
  ContextCompression.compressed_count r
  = Some (Z.of_nat (h + 1 + length messages)).
Proof.
  intros Hover Hlen r.
  assert (Hne : messages <> []) by (intros ->; cbn in Hlen; lia).
  pose proof (compress_over_budget messages (Z.of_nat h) 0 max_tokens
                Hover Hne) as H.
  cbv zeta in H. fold r in H.
  assert (Hlt : (Z.of_nat h + 0 <? Z.of_nat (length messages)) = true)
    by (apply Z.ltb_lt; lia).
  rewrite Hlt, slice_head, slice_last_zero in H.
  assert (Hmid : match messages with
                 | [] => PySeq.slice (Some (Z.of_nat h)) None messages
                 | _ :: _ => PySeq.slice (Some (Z.of_nat h)) (Some (- 0)) messages
                 end = []).
  { destruct messages; [exfalso; cbn in Hlen; lia|apply slice_to_zero]. }
  rewrite Hmid in H.
  destruct H as (Hh & Htail & Hk & Hs & Ho & Hc).
  repeat (split; [assumption|]). rewrite Hc. f_equal. lia.
Qed.

End CompressCuts.

(** * The context compressor: key points *)

Lemma take_length (n : nat) (s : string) :
  String.length (PyStr.take n s) = Nat.min n (String.length s).
Proof.
  revert s. induction n as [|n IH]; intros [|c s]; cbn; try reflexivity.
  rewrite IH. reflexivity.
Qed.

Lemma append_length (a b : string) :
  String.length (a ++ b) = (String.length a + String.length b)%nat.
Proof.
  induction a as [|c a IH]; [rewrite append_nil; reflexivity|].
  rewrite append_cons. cbn. rewrite IH. reflexivity.
Qed.

(** What one category contributes for one message: nothing, or one point
    made of the tag and of a stripped sentence cut at a hundred
    characters. *)
Lemma category_points_shape (text : string) (category : string * list string)
    (kp : string) :
  In kp (ContextCompression.category_points text category) ->
  exists body,
    kp = ("[" ++ fst category ++ "] " ++ body)%string /\
    (21 <= String.length body <= 100)%nat.
Proof.
  unfold ContextCompression.category_points.
  destruct (find _ (snd category)) as [kw|]; [|intros []].
  destruct (ContextCompression.sentence_with kw _) as [sent|] eqn:E; [|intros []].
  intros [<-|[]]. eexists. split; [reflexivity|].
  unfold ContextCompression.sentence_with in E.
  apply find_some in E as [_ E]. apply andb_true_iff in E as [_ E].
  apply Nat.ltb_lt in E. rewrite take_length. lia.
Qed.

Lemma category_points_length (text : string) (category : string * list string) :
  (length (ContextCompression.category_points text category) <= 1)%nat.
Proof.
  unfold ContextCompression.category_points.
  destruct (find _ (snd category)) as [kw|]; [|cbn; lia].
  destruct (ContextCompression.sentence_with kw _); cbn; lia.
Qed.

Lemma message_points_length (text : string) :
  (length (flat_map (ContextCompression.category_points text)
                    ContextCompression.key_point_keywords) <= 4)%nat.
Proof.
  pose proof (category_points_length text) as H.
  unfold ContextCompression.key_point_keywords. cbn [flat_map].
  rewrite !length_app. cbn [length].
  pose proof (H ("decision", ["decided"; "chose"; "using"; "will use"; "going with"])).
  pose proof (H ("action", ["created"; "modified"; "deleted"; "added"; "removed"; "fixed"])).
  pose proof (H ("error", ["error"; "failed"; "issue"; "problem"; "bug"])).
  pose proof (H ("finding", ["found"; "discovered"; "noticed"; "identified"])).
  lia.
Qed.

Section KeyPointFacts.

Variable Message : Type.
Variable content : Message -> ContextCompression.Content.
Variable set_order : list string -> list string.
Hypothesis set_order_ok : ContextCompression.lists_the_set set_order.

Let collected := ContextCompression.collected_points Message content.

Lemma collected_points_length (messages : list Message) :
  (length (collected messages) <= 4 * length messages)%nat.
Proof.
  subst collected. cbv beta. unfold ContextCompression.collected_points.
  induction messages as [|m l IH]; [cbn; lia|].
  cbn [flat_map length]. rewrite length_app.
  pose proof (message_points_length
                (ContextCompression.content_text (content m))).
  lia.
Qed.

Lemma collected_points_shape (messages : list Message) (kp : string) :
  In kp (collected messages) ->
  exists category body,
    In category ["decision"; "action"; "error"; "finding"] /\
    kp = ("[" ++ category ++ "] " ++ body)%string /\
    (21 <= String.length body <= 100)%nat.
Proof.
  subst collected. cbv beta. unfold ContextCompression.collected_points.
  intros H. apply in_flat_map in H as (m & _ & H).
  apply in_flat_map in H as (category & Hcat & H).
  destruct (category_points_shape _ _ _ H) as (body & -> & Hbody).
  exists (fst category), body. split; [|split; [reflexivity|exact Hbody]].
  change ["decision"; "action"; "error"; "finding"]
    with (map fst ContextCompression.key_point_keywords).
  apply in_map. exact Hcat.
Qed.

(** The key points extracted from any sequence of messages are at most
    ten, and at most four for each message (one for each category),
    without repetition; each is a tag naming one of the four categories
    followed by a sentence of the message, stripped and cut, of 21 to 100
    characters. *)
Theorem key_points_are_few_and_tagged (messages : list Message) :
  let kps :=
    ContextCompression.extract_key_points Message content set_order messages in
  (length kps <= 10)%nat /\
  (length kps <= 4 * length messages)%nat /\
  NoDup kps /\
  Forall (fun kp =>
            exists category body,
              In category ["decision"; "action"; "error"; "finding"] /\
              kp = ("[" ++ category ++ "] " ++ body)%string /\
              (21 <= String.length body <= 100)%nat)
         kps.
Proof.
  intros kps. subst kps. unfold ContextCompression.extract_key_points.
  fold (collected messages).
  change 10 with (Z.of_nat 10). rewrite slice_head.
  destruct (set_order_ok (collected messages)) as [Hnd Hin].
  split; [rewrite length_firstn; lia|]. split; [|split].
  - rewrite length_firstn.
    assert (Hle : (length (set_order (collected messages))
                   <= length (collected messages))%nat).
    { apply submseteq_length, NoDup_submseteq; [exact Hnd|].
      intros x Hx. apply list_elem_of_In, Hin, list_elem_of_In. exact Hx. }
    pose proof (collected_points_length messages). lia.
  - rewrite <- (firstn_skipn 10 (set_order (collected messages))) in Hnd.
    apply NoDup_app in Hnd. apply Hnd.
  - apply List.Forall_forall. intros kp Hkp.
    apply in_firstn, Hin in Hkp. apply (collected_points_shape messages kp Hkp).
Qed.

End KeyPointFacts.

(** ** The statements above, on concrete inputs *)

Example detect_domains_jwt :
  MemoryRetrieval.detect_domains "Add JWT login to the API"
  = ["auth"; "api"].
Proof. vm_compute. reflexivity. Qed.

Example key_points_of_chat :
  ContextCompression.extract_key_points ContextCompression.Content
    Scenarios.own_content Scenarios.newest_first Scenarios.chat
  = ["[finding] Fixed the login redirect bug in the session middleware and found the stale cookie that caused it";
     "[error] Fixed the login redirect bug in the session middleware and found the stale cookie that caused it";
     "[action] Fixed the login redirect bug in the session middleware and found the stale cookie that caused it";
     "[decision] We decided to keep the retry queue for uploads"].
Proof. vm_compute. reflexivity. Qed.

Lemma save_anonymous_skill_raises :
  CaptureSession.save_skill Scenarios.anonymous_skill (Some [Scenarios.stored_half])
  = Raise (KeyError "skill_id") /\
  CaptureSession.save_skill Scenarios.anonymous_skill None
  = Ok [Scenarios.anonymous_skill].
Proof.
  split.
  - apply (save_skill_without_id Scenarios.anonymous_skill
             (Some [Scenarios.stored_half])). reflexivity.
  - apply (save_skill_without_id Scenarios.anonymous_skill None). reflexivity.
Defined.

Lemma save_incoming_half_touches_stored_half :
  exists written,
    CaptureSession.save_skill Scenarios.incoming_half (Some [Scenarios.stored_half])
    = Ok written /\
    ((Forall (fun s => ~ has_id "skill_ab12cd34" s) [Scenarios.stored_half] /\
      written = ([Scenarios.stored_half] ++ [Scenarios.incoming_half])%list)
     \/
     (exists pre ex post m,
         [Scenarios.stored_half] = (pre ++ ex :: post)%list /\
         written = (pre ++ m :: post)%list /\
         Forall (fun s => ~ has_id "skill_ab12cd34" s) pre /\
         has_id "skill_ab12cd34" ex /\
         has_id "skill_ab12cd34" m /\
         name m = name ex /\
         description m = description ex /\
         triggers m = triggers ex /\
         key_steps m = key_steps ex /\
         tools_typically_used m = tools_typically_used ex /\
         estimated_tokens m = estimated_tokens ex /\
         created_from_session m = created_from_session ex /\
         times_used m = Some (default 0 (times_used ex) + 1) /\
         last_used m = last_used Scenarios.incoming_half)).
Proof.
  destruct (CaptureSession.save_skill Scenarios.incoming_half
              (Some [Scenarios.stored_half])) as [written|x] eqn:E;
    [|vm_compute in E; discriminate E].
  exists written. split; [reflexivity|].
  apply (save_skill_touches_one_record Scenarios.incoming_half "skill_ab12cd34"
           (Some [Scenarios.stored_half]) written); [reflexivity|exact E].
Defined.

Lemma compress_four_messages_in_three :
  let r :=
    ContextCompression.compress_messages string Scenarios.own_text
      Scenarios.no_key_points Scenarios.no_summary Scenarios.no_rounding
      Scenarios.four_messages (Z.of_nat 1) (Z.of_nat 1) 3 in
  exists middle,
    Scenarios.four_messages
    = (ContextCompression.head r ++ middle ++ ContextCompression.tail r)%list /\
    length (ContextCompression.head r) = 1%nat /\
    length (ContextCompression.tail r) = 1%nat /\
    ContextCompression.compressed_count r = Some 3.
Proof.
  intros r.
  destruct (compress_cuts_in_three string Scenarios.own_text
              Scenarios.no_key_points Scenarios.no_summary Scenarios.no_rounding
              Scenarios.four_messages 1 1 3)
    as (middle & Hsplit & Hh & Ht & _ & _ & _ & Hc);
    [vm_compute; reflexivity | lia | cbn; lia |].
  fold r in Hsplit, Hh, Ht, Hc.
  exists middle. split; [exact Hsplit|]. split; [exact Hh|].
  split; [exact Ht|exact Hc].
Defined.

Lemma compress_four_messages_without_tail :
  let r :=
    ContextCompression.compress_messages string Scenarios.own_text
      Scenarios.no_key_points Scenarios.no_summary Scenarios.no_rounding
      Scenarios.four_messages (Z.of_nat 5) (Z.of_nat 10) 3 in
  ContextCompression.head r = Scenarios.four_messages /\
  ContextCompression.tail r = [] /\
  ContextCompression.original_count r = Some 4%nat /\
  ContextCompression.compressed_count r = Some 6.
Proof.
  intros r.
  destruct (compress_short_sequence_keeps_no_tail string Scenarios.own_text
              Scenarios.no_key_points Scenarios.no_summary Scenarios.no_rounding
              Scenarios.four_messages 5 10 3)
    as (_ & Htail & _ & _ & Hc & Hshort);
    [lia | vm_compute; reflexivity | cbn; lia |].
  destruct Hshort as (Hh & _ & _); [cbn; lia|].
  fold r in Hh, Htail, Hc.
  split; [exact Hh|]. split; [exact Htail|]. split; [reflexivity|exact Hc].
Defined.

Lemma compress_four_messages_with_zero_tail :
  let r :=
    ContextCompression.compress_messages string Scenarios.own_text
      Scenarios.no_key_points Scenarios.no_summary Scenarios.no_rounding
      Scenarios.four_messages (Z.of_nat 1) 0 3 in
  ContextCompression.head r = ["aaaaaaaa"] /\
  ContextCompression.tail r = Scenarios.four_messages /\
  ContextCompression.original_count r = Some 4%nat /\
  ContextCompression.compressed_count r = Some 6.
Proof.
  intros r.
  destruct (compress_zero_tail_keeps_everything string Scenarios.own_text
              Scenarios.no_key_points Scenarios.no_summary Scenarios.no_rounding
              Scenarios.four_messages 1 3)
    as (Hh & Htail & _ & _ & Ho & Hc);
    [vm_compute; reflexivity | cbn; lia |].
  fold r in Hh, Htail, Ho, Hc.
  split; [exact Hh|]. split; [exact Htail|]. split; [exact Ho|exact Hc].
Defined.

Lemma key_points_of_chat_are_tagged :
  let kps :=
    ContextCompression.extract_key_points ContextCompression.Content
      Scenarios.own_content Scenarios.newest_first Scenarios.chat in
  (length kps <= 10)%nat /\
  (length kps <= 4 * length Scenarios.chat)%nat /\
  NoDup kps /\
  Forall (fun kp =>
            exists category body,
              In category ["decision"; "action"; "error"; "finding"] /\
              kp = ("[" ++ category ++ "] " ++ body)%string /\
              (21 <= String.length body <= 100)%nat)
         kps.
Proof.
  exact (key_points_are_few_and_tagged ContextCompression.Content
           Scenarios.own_content Scenarios.newest_first
           newest_first_lists_the_set Scenarios.chat).
Defined.

(** * The tool pair of a routing issue *)

(** A text made of word characters only. *)
Fixpoint all_word (s : string) : bool :=
  match s with
  | EmptyString => true
  | String c r => PyStr.is_word c && all_word r
  end.

(** Whether an arrow starts at [c], after a run of word characters. *)
Definition arrow_here (acc : list ascii) (c : ascii) (r : string) : bool :=
  match acc, r with
  | _ :: _, String d _ => Ascii.eqb c "-" && Ascii.eqb d ">"
  | _, _ => false
  end.

(** One step of the search, by cases on the character read. *)
Lemma search_arrow_aux_step (acc : list ascii) (c : ascii) (r : string) :
  HarnessEvolve.search_arrow_aux acc (String c r)
  = if PyStr.is_word c then HarnessEvolve.search_arrow_aux (c :: acc) r
    else if arrow_here acc c r then
      match r with
      | String _ after =>
          match HarnessEvolve.word_prefix after with
          | EmptyString => HarnessEvolve.search_arrow_aux [] r
          | to_tool => Some (string_of_list_ascii (rev acc), to_tool)
          end
      | EmptyString => None
      end
    else HarnessEvolve.search_arrow_aux [] r.
Proof.
  destruct acc as [|a acc].
  - cbn [HarnessEvolve.search_arrow_aux arrow_here].
    destruct (PyStr.is_word c); reflexivity.
  - destruct r as [|d after];
      destruct c as [[] [] [] [] [] [] [] []]; try reflexivity.
    destruct d as [[] [] [] [] [] [] [] []]; reflexivity.
Qed.

Lemma word_prefix_spec (s : string) :
  all_word (HarnessEvolve.word_prefix s) = true /\
  exists rest, s = (HarnessEvolve.word_prefix s ++ rest)%string.
Proof.
  induction s as [|c s [IHw [rest IHr]]]; cbn [HarnessEvolve.word_prefix].
  - split; [reflexivity|]. exists "". reflexivity.
  - destruct (PyStr.is_word c) eqn:E.
    + cbn [all_word]. rewrite E, IHw. split; [reflexivity|].
      exists rest. rewrite append_cons, <- IHr. reflexivity.
    + split; [reflexivity|]. exists (String c s). rewrite append_nil. reflexivity.
Qed.

Lemma all_word_rev_acc (acc : list ascii) :
  forallb PyStr.is_word acc = true ->
  all_word (string_of_list_ascii (rev acc)) = true.
Proof.
  intros H.
  assert (Hrev : forallb PyStr.is_word (rev acc) = true).
  { rewrite forallb_forall in *. intros x Hx. apply H, in_rev. exact Hx. }
  induction (rev acc) as [|x l IH]; [reflexivity|].
  cbn in *. apply andb_true_iff in Hrev as [-> Hl]. apply IH. exact Hl.
Qed.

Lemma string_of_rev_cons_nonempty (a : ascii) (acc : list ascii) :
  string_of_list_ascii (rev (a :: acc)) <> "".
Proof.
  cbn [rev]. destruct (rev acc); discriminate.
Qed.

Lemma search_arrow_aux_sound (acc : list ascii) (s a b : string) :
  forallb PyStr.is_word acc = true ->
  HarnessEvolve.search_arrow_aux acc s = Some (a, b) ->
  a <> "" /\ b <> "" /\ all_word a = true /\ all_word b = true /\
  exists pre post,
    (string_of_list_ascii (rev acc) ++ s = pre ++ (a ++ "->" ++ b) ++ post)%string.
Proof.
  revert acc. induction s as [|c r IH]; intros acc Hacc; [discriminate|].
  rewrite search_arrow_aux_step.
  assert (Hskip : HarnessEvolve.search_arrow_aux [] r = Some (a, b) ->
                  a <> "" /\ b <> "" /\ all_word a = true /\ all_word b = true /\
                  exists pre post,
                    (string_of_list_ascii (rev acc) ++ String c r
                     = pre ++ (a ++ "->" ++ b) ++ post)%string).
  { intros H. destruct (IH [] eq_refl H) as (Ha & Hb & Hwa & Hwb & pre & post & E).
    cbn [rev string_of_list_ascii] in E. rewrite append_nil in E.
    repeat (split; [assumption|]).
    exists (string_of_list_ascii (rev acc) ++ String c pre)%string, post.
    rewrite E, (append_assoc (string_of_list_ascii (rev acc)) (String c pre)).
    rewrite (append_cons c pre). reflexivity. }
  destruct (PyStr.is_word c) eqn:Ec.
  - intros H.
    destruct (IH (c :: acc)) as (Ha & Hb & Hwa & Hwb & pre & post & E);
      [cbn; rewrite Ec; exact Hacc | exact H |].
    repeat (split; [assumption|]). exists pre, post.
    rewrite <- E. cbn [rev]. rewrite string_of_list_ascii_snoc. reflexivity.
  - destruct (arrow_here acc c r) eqn:Earrow; [|exact Hskip].
    destruct acc as [|a0 acc0]; [discriminate Earrow|].
    destruct r as [|d after]; [discriminate Earrow|].
    cbn [arrow_here] in Earrow. apply andb_true_iff in Earrow as [Hc Hd].
    apply Ascii.eqb_eq in Hc, Hd. subst c d.
    destruct (HarnessEvolve.word_prefix after) as [|x y] eqn:Ew; [exact Hskip|].
    intros [= <- <-].
    destruct (word_prefix_spec after) as [Hw [rest Hrest]]. rewrite Ew in Hw, Hrest.
    split; [apply (string_of_rev_cons_nonempty a0 acc0)|]. split; [discriminate|].
    split; [apply (all_word_rev_acc (a0 :: acc0)); exact Hacc|]. split; [exact Hw|].
    exists "", rest. rewrite append_nil. rewrite Hrest at 1.
    rewrite !append_assoc. reflexivity.
Qed.

(** The pair [search_arrow] returns is really in the text: both names are
    runs of word characters that are not empty, and the text contains the
    first, the arrow and the second in a row. A text without an arrow has
    no pair. *)
Theorem search_arrow_finds_a_pair (s : string) :
  match HarnessEvolve.search_arrow s with
  | Some (a, b) =>
      a <> "" /\ b <> "" /\ all_word a = true /\ all_word b = true /\
      PyStr.contains (a ++ "->" ++ b) s = true /\
      PyStr.contains "->" s = true
  | None => True
  end.
Proof.
  unfold HarnessEvolve.search_arrow.
  destruct (HarnessEvolve.search_arrow_aux [] s) as [[a b]|] eqn:E; [|exact I].
  destruct (search_arrow_aux_sound [] s a b eq_refl E)
    as (Ha & Hb & Hwa & Hwb & pre & post & Hs).
  cbn [rev string_of_list_ascii] in Hs. rewrite append_nil in Hs.
  repeat (split; [assumption|]). split.
  - rewrite Hs. apply contains_intro.
  - rewrite Hs.
    replace (pre ++ (a ++ "->" ++ b) ++ post)%string
      with ((pre ++ a) ++ "->" ++ (b ++ post))%string
      by (rewrite !append_assoc; reflexivity).
    apply contains_intro.
Qed.

(** * The skill collection: what is written is read back *)

(** A text without line boundary. *)
Fixpoint no_linebreak (s : string) : bool :=
  match s with
  | EmptyString => true
  | String c r => negb (PyStr.is_linebreak c) && no_linebreak r
  end.

(** A text whose last line is complete: empty, or ending in a line feed. *)
Definition terminated (s : string) : Prop :=
  s = "" \/ exists body, s = (body ++ PyStr.newline)%string.

Lemma splitlines_aux_cons (acc : list ascii) (c : ascii) (r : string) :
  PyStr.splitlines_aux acc (String c r)
  = if PyStr.is_linebreak c then
      string_of_list_ascii (rev acc) ::
        match r with
        | String c' r' =>
            if ((nat_of_ascii c =? 13)%nat && (nat_of_ascii c' =? 10)%nat)%bool
            then PyStr.splitlines_aux [] r'
            else PyStr.splitlines_aux [] r
        | EmptyString => PyStr.splitlines_aux [] r
        end
    else PyStr.splitlines_aux (c :: acc) r.
Proof. reflexivity. Qed.

Lemma splitlines_aux_newline (acc : list ascii) (rest : string) :
  PyStr.splitlines_aux acc (PyStr.newline ++ rest)
  = string_of_list_ascii (rev acc) :: PyStr.splitlines_aux [] rest.
Proof.
  unfold PyStr.newline. rewrite append_cons, append_nil, splitlines_aux_cons.
  change (PyStr.is_linebreak (ascii_of_nat 10)) with true. cbv iota.
  destruct rest as [|c' r']; reflexivity.
Qed.

Lemma splitlines_aux_newline_only (acc : list ascii) :
  PyStr.splitlines_aux acc PyStr.newline = [string_of_list_ascii (rev acc)].
Proof. reflexivity. Qed.

(** One complete line without boundary inside is one line. *)
Lemma splitlines_aux_line (acc : list ascii) (line : string) :
  no_linebreak line = true ->
  PyStr.splitlines_aux acc (line ++ PyStr.newline)
  = [(string_of_list_ascii (rev acc) ++ line)%string].
Proof.
  revert acc. induction line as [|c line IH]; intros acc H.
  - rewrite append_nil, append_nil_r. apply splitlines_aux_newline_only.
  - cbn [no_linebreak] in H. apply andb_true_iff in H as [Hc H].
    apply negb_true_iff in Hc.
    rewrite append_cons, splitlines_aux_cons, Hc, (IH _ H). cbn [rev].
    rewrite string_of_list_ascii_snoc. reflexivity.
Qed.

(** What follows a complete last line is split on its own. *)
Lemma splitlines_aux_app (n : nat) :
  forall (body : string) (acc : list ascii) (rest : string),
    (String.length body <= n)%nat ->
    PyStr.splitlines_aux acc ((body ++ PyStr.newline) ++ rest)
    = (PyStr.splitlines_aux acc (body ++ PyStr.newline)
       ++ PyStr.splitlines_aux [] rest)%list.
Proof.
  induction n as [n IH] using lt_wf_ind. intros body acc rest Hlen.
  destruct body as [|d body].
  - rewrite append_nil, splitlines_aux_newline, splitlines_aux_newline_only.
    reflexivity.
  - cbn [String.length] in Hlen.
    rewrite !append_cons, !splitlines_aux_cons.
    destruct (PyStr.is_linebreak d).
    2:{ apply (IH (String.length body)); lia. }
    cbn [app]. f_equal.
    destruct body as [|e body].
    + rewrite !append_nil. unfold PyStr.newline. rewrite append_cons, append_nil.
      change (nat_of_ascii (ascii_of_nat 10) =? 10)%nat with true.
      rewrite andb_true_r.
      destruct (nat_of_ascii d =? 13)%nat; [reflexivity|].
      change (String (ascii_of_nat 10) rest) with (PyStr.newline ++ rest)%string.
      change (String (ascii_of_nat 10) "") with PyStr.newline.
      rewrite splitlines_aux_newline, splitlines_aux_newline_only. reflexivity.
    + cbn [String.length] in Hlen. rewrite !append_cons.
      destruct ((nat_of_ascii d =? 13)%nat && (nat_of_ascii e =? 10)%nat)%bool.
      * apply (IH (String.length body)); lia.
      * rewrite <- !append_cons. apply (IH (String.length (String e body))).
        -- cbn. lia.
        -- cbn. lia.
Qed.

(** Appending a line to a text whose last line is complete adds that line
    to its lines, and changes none of them. *)
Lemma splitlines_append (content line : string) :
  terminated content ->
  no_linebreak line = true ->
  PyStr.splitlines (content ++ line ++ PyStr.newline)
  = (PyStr.splitlines content ++ [line])%list.
Proof.
  intros [->|[body ->]] Hline; unfold PyStr.splitlines.
  - rewrite append_nil, (splitlines_aux_line [] line Hline). reflexivity.
  - rewrite (splitlines_aux_app (String.length body)) by lia.
    rewrite (splitlines_aux_line [] line Hline). reflexivity.
Qed.

Section SkillRoundTrip.

Variable home : string.
Variable md5 : string -> string.
Variable json_dumps : option HarnessEvolve.Payload -> string.
Variable json_loads : string -> option Skill.

Let skills_path : string := HarnessEvolve.skills_file home.
Let apply := HarnessEvolve.apply_proposal home json_dumps.
Let load_skills := HarnessEvolve.load_skills home json_loads.

(** What the parsers make of the line written for a proposal's data. *)
Definition reads_back (p : HarnessEvolve.Proposal) (s : Skill) : Prop :=
  no_linebreak (json_dumps (HarnessEvolve.data p)) = true /\
  PyStr.is_blank (json_dumps (HarnessEvolve.data p)) = false /\
  json_loads (json_dumps (HarnessEvolve.data p)) = Some s.

Lemma load_skills_after_add (p : HarnessEvolve.Proposal) (s : Skill)
    (w : HarnessEvolve.World) :
  terminated (default "" (HarnessEvolve.files w !! skills_path)) ->
  reads_back p s ->
  load_skills (snd (HarnessEvolve.apply_skill_add home json_dumps p w))
  = (load_skills w ++ [s])%list.
Proof.
  intros Hterm (Hline & Hblank & Hload).
  destruct (apply_skill_add_effect home json_dumps p w) as (_ & Hfile & _).
  fold skills_path in Hfile.
  subst load_skills. cbv beta. unfold HarnessEvolve.load_skills.
  fold skills_path. rewrite Hfile.
  rewrite (splitlines_append _ _ Hterm Hline), omap_app.
  cbn [omap list_omap]. rewrite Hblank, Hload. cbn.
  destruct (HarnessEvolve.files w !! skills_path) as [content|]; reflexivity.
Qed.

(** A skill that Apply adds is there at the next reading: when the
    collection's last line is complete and the line written for the
    proposal's data parses back to a skill, the skills loaded after the
    addition are those loaded before, in the same order, and the new skill
    last. *)
Theorem added_skill_is_loaded_back (pid : string) (p : HarnessEvolve.Proposal)
    (s : Skill) (w : HarnessEvolve.World) :
  HarnessEvolve.find_proposal pid (HarnessEvolve.load_proposals w) = Some p ->
  HarnessEvolve.type p = Some "skill_add" ->
  HarnessEvolve.status p <> Some "applied" ->
  terminated (default "" (HarnessEvolve.files w !! skills_path)) ->
  reads_back p s ->
  load_skills (snd (apply pid false w)) = (load_skills w ++ [s])%list.
Proof.
  intros Hf Ht Hs Hterm Hback. subst apply. cbv beta.
  rewrite (apply_proposal_skill_add home json_dumps pid p w Hf Ht Hs).
  apply load_skills_after_add; assumption.
Qed.

(** Once a skill is added, the pattern it answers is not proposed again:
    a pattern that occurs, whatever the case, in a trigger of the added
    skill finds a similar skill at the next proposal step, so that
    [propose_skill_from_pattern] returns nothing for it. *)
Theorem added_pattern_is_not_proposed_again (pid : string)
    (p : HarnessEvolve.Proposal) (s : Skill) (w : HarnessEvolve.World)
    (pattern trigger : string) (count : Z) :
  HarnessEvolve.find_proposal pid (HarnessEvolve.load_proposals w) = Some p ->
  HarnessEvolve.type p = Some "skill_add" ->
  HarnessEvolve.status p <> Some "applied" ->
  terminated (default "" (HarnessEvolve.files w !! skills_path)) ->
  reads_back p s ->
  In trigger (triggers s) ->
  PyStr.contains (PyStr.lower pattern) (PyStr.lower trigger) = true ->
  HarnessEvolve.propose_skill_from_pattern home md5 json_loads pattern count
    (snd (apply pid false w)) = None.
Proof.
  intros Hf Ht Hs Hterm Hback Hin Hsub. subst apply. cbv beta.
  rewrite (apply_proposal_skill_add home json_dumps pid p w Hf Ht Hs).
  unfold HarnessEvolve.propose_skill_from_pattern.
  pose proof (load_skills_after_add p s w Hterm Hback) as Hload.
  subst load_skills. cbv beta in Hload. rewrite Hload.
  replace (HarnessEvolve.similar_skill_exists pattern _) with true; [reflexivity|].
  symmetry. unfold HarnessEvolve.similar_skill_exists.
  apply existsb_exists. exists s. split; [apply in_or_app; right; left; reflexivity|].
  apply existsb_exists. exists trigger. split; [exact Hin|exact Hsub].
Qed.

End SkillRoundTrip.

Lemma pending_skill_is_loaded_back :
  HarnessEvolve.load_skills Scenarios.home_dir Scenarios.toy_loads_back
    (snd (HarnessEvolve.apply_proposal Scenarios.home_dir Scenarios.toy_dumps
            "prop_20250115_120000" false Scenarios.pending_world))
  = (HarnessEvolve.load_skills Scenarios.home_dir Scenarios.toy_loads_back
       Scenarios.pending_world
     ++ [Scenarios.bare_skill "skill_auto_1a2b3c4d"
           "Auto-generated skill for: deploy" ["deploy"]])%list.
Proof.
  apply (added_skill_is_loaded_back Scenarios.home_dir Scenarios.toy_dumps
           Scenarios.toy_loads_back "prop_20250115_120000"
           Scenarios.pending_skill_add).
  - vm_compute. reflexivity.
  - reflexivity.
  - discriminate.
  - right. exists "{skill: seed}". vm_compute. reflexivity.
  - repeat split; vm_compute; reflexivity.
Defined.

Lemma deploy_is_not_proposed_again :
  HarnessEvolve.propose_skill_from_pattern Scenarios.home_dir Scenarios.toy_md5
    Scenarios.toy_loads_back "Deploy" 5
    (snd (HarnessEvolve.apply_proposal Scenarios.home_dir Scenarios.toy_dumps
            "prop_20250115_120000" false Scenarios.pending_world))
  = None.
Proof.
  apply (added_pattern_is_not_proposed_again Scenarios.home_dir Scenarios.toy_md5
           Scenarios.toy_dumps Scenarios.toy_loads_back "prop_20250115_120000"
           Scenarios.pending_skill_add
           (Scenarios.bare_skill "skill_auto_1a2b3c4d"
              "Auto-generated skill for: deploy" ["deploy"])
           Scenarios.pending_world "Deploy" "deploy" 5).
  - vm_compute. reflexivity.
  - reflexivity.
  - discriminate.
  - right. exists "{skill: seed}". vm_compute. reflexivity.
  - repeat split; vm_compute; reflexivity.
  - left. reflexivity.
  - reflexivity.
Defined.

(** * The compressor run *)

Section RunCompress.

Variable Message : Type.
Variable py_str : Message -> string.
Variable readable : Message -> bool.
Variable key_points_of : list Message -> list string.
Variable middle_summary : list Message -> list string -> string.
Variable round1 : float -> float.
Variable set_order : list string -> list string.

Let run :=
  ContextCompression.run_compress Message py_str readable key_points_of
    middle_summary round1 set_order.

(** Over the budget, the key points of the result are those of the middle
    section. *)
Lemma compress_reads_middle_section (messages : list Message)
    (head_count tail_count max_tokens : Z) :
  messages <> [] ->
  max_tokens < ContextCompression.sum_tokens Message py_str messages ->
  ContextCompression.key_points
    (ContextCompression.compress_messages Message py_str key_points_of
       middle_summary round1 messages head_count tail_count max_tokens)
  = key_points_of
      (ContextCompression.middle_section Message messages head_count tail_count).
Proof.
  intros Hne Hover. unfold ContextCompression.compress_messages.
  destruct messages as [|m l]; [contradiction|].
  apply Z.leb_gt in Hover. rewrite Hover. reflexivity.
Qed.

(** A run on messages that fit the budget never touches the persistent
    digest: the summary is empty, so the digest is not fed. On an empty
    sequence the run then ends in [KeyError], raised by the closing lines
    that read [original_count] from a result that has none; on any other
    sequence within the budget it completes. *)
Theorem run_within_budget_leaves_the_digest (messages : list Message)
    (head_count tail_count max_tokens : Z) (w : ContextCompression.World) :
  ContextCompression.sum_tokens Message py_str messages <= max_tokens ->
  fst (run messages head_count tail_count max_tokens w) = w /\
  snd (run messages head_count tail_count max_tokens w)
  = match messages with
    | [] => Some (KeyError "original_count")
    | _ :: _ => None
    end.
Proof.
  intros Hfit. subst run. cbv beta. unfold ContextCompression.run_compress.
  destruct messages as [|m l].
  - split; reflexivity.
  - cbv zeta.
    rewrite (proj2 (Z.leb_le _ _) Hfit). cbn [negb andb].
    rewrite (compress_small Message py_str key_points_of middle_summary round1
               (m :: l) head_count tail_count max_tokens) by (discriminate || exact Hfit).
    split; reflexivity.
Qed.

(** A run over the budget reads the middle section. When one of its
    messages cannot be read, the run ends in [AttributeError] and the
    digest is as it was. When all can be read and the summary is not
    empty, the run feeds the digest: the summary becomes the digest's most
    recent entry, and the run completes. *)
Theorem run_over_budget_feeds_the_digest (messages : list Message)
    (head_count tail_count max_tokens : Z) (w : ContextCompression.World) :
  messages <> [] ->
  max_tokens < ContextCompression.sum_tokens Message py_str messages ->
  let middle :=
    ContextCompression.middle_section Message messages head_count tail_count in
  let result :=
    ContextCompression.compress_messages Message py_str key_points_of
      middle_summary round1 messages head_count tail_count max_tokens in
  (forallb readable middle = false ->
   run messages head_count tail_count max_tokens w = (w, Some AttributeError)) /\
  (forallb readable middle = true ->
   ContextCompression.summary result <> "" ->
   snd (run messages head_count tail_count max_tokens w) = None /\
   exists digest stamp,
     ContextCompression.summary_file
       (fst (run messages head_count tail_count max_tokens w)) = Some digest /\
     last (ContextCompression.summaries digest)
     = Some (stamp, ContextCompression.summary result)).
Proof.
  intros Hne Hover middle result. subst run. cbv beta.
  unfold ContextCompression.run_compress. fold middle. fold result.
  assert (Hbudget :
            match messages with
            | [] => false
            | _ :: _ =>
                negb (ContextCompression.sum_tokens Message py_str messages
                      <=? max_tokens)
            end = true).
  { destruct messages as [|m l]; [contradiction|].
    apply Z.leb_gt in Hover. rewrite Hover. reflexivity. }
  cbv zeta. rewrite Hbudget. cbn [andb].
  split.
  { intros Hbad. rewrite Hbad. reflexivity. }
  intros Hread Hsum. rewrite Hread. cbn [negb].
  destruct (String.eqb_spec (ContextCompression.summary result) "") as [E|_];
    [contradiction|].
  assert (Hcounts : exists a b c,
             ContextCompression.original_count result = Some a /\
             ContextCompression.compressed_count result = Some b /\
             ContextCompression.token_reduction result = Some c).
  { subst result. unfold ContextCompression.compress_messages.
    destruct messages as [|m l]; [contradiction|].
    apply Z.leb_gt in Hover. rewrite Hover. eexists _, _, _. repeat split. }
  destruct Hcounts as (a & b & c & -> & -> & ->).
  split; [reflexivity|]. cbn [fst].
  unfold ContextCompression.update_persistent_summary,
    ContextCompression.save_persistent_summary.
  cbn [now ContextCompression.clock ContextCompression.summary_file].
  eexists _, _. split; [reflexivity|].
  cbn [ContextCompression.summaries].
  change (-5) with (- Z.of_nat 5). rewrite slice_last by lia.
  rewrite length_app. cbn [length]. rewrite drop_app_le by lia. apply last_snoc.
Qed.

End RunCompress.

Lemma run_on_nothing_raises :
  fst (ContextCompression.run_compress string Scenarios.own_text Scenarios.no_object
         Scenarios.no_key_points Scenarios.no_summary Scenarios.no_rounding
         Scenarios.newest_first [] 5 10 4000
         (Scenarios.digest_world Scenarios.twenty_points))
  = Scenarios.digest_world Scenarios.twenty_points /\
  snd (ContextCompression.run_compress string Scenarios.own_text Scenarios.no_object
         Scenarios.no_key_points Scenarios.no_summary Scenarios.no_rounding
         Scenarios.newest_first [] 5 10 4000
         (Scenarios.digest_world Scenarios.twenty_points))
  = Some (KeyError "original_count").
Proof.
  apply (run_within_budget_leaves_the_digest string Scenarios.own_text
           Scenarios.no_object
           Scenarios.no_key_points Scenarios.no_summary Scenarios.no_rounding
           Scenarios.newest_first [] 5 10 4000
           (Scenarios.digest_world Scenarios.twenty_points)).
  cbn. lia.
Defined.

Lemma run_on_quiet_chat_feeds_the_digest :
  snd (ContextCompression.run_compress ContextCompression.Content
         Scenarios.object_text Scenarios.any_content
         (ContextCompression.extract_key_points ContextCompression.Content
            Scenarios.own_content Scenarios.newest_first)
         Scenarios.quiet_summary Scenarios.no_rounding
         Scenarios.newest_first Scenarios.quiet_chat 1 1 20
         (Scenarios.digest_world Scenarios.twenty_points)) = None /\
  exists digest stamp,
    ContextCompression.summary_file
      (fst (ContextCompression.run_compress ContextCompression.Content
              Scenarios.object_text Scenarios.any_content
              (ContextCompression.extract_key_points ContextCompression.Content
                 Scenarios.own_content Scenarios.newest_first)
              Scenarios.quiet_summary Scenarios.no_rounding
              Scenarios.newest_first Scenarios.quiet_chat 1 1 20
              (Scenarios.digest_world Scenarios.twenty_points))) = Some digest /\
    last (ContextCompression.summaries digest)
    = Some (stamp, "(2 messages summarized)").
Proof.
  apply (proj2 (run_over_budget_feeds_the_digest ContextCompression.Content
                  Scenarios.object_text Scenarios.any_content
                  (ContextCompression.extract_key_points ContextCompression.Content
                     Scenarios.own_content Scenarios.newest_first)
                  Scenarios.quiet_summary Scenarios.no_rounding
                  Scenarios.newest_first Scenarios.quiet_chat 1 1 20
                  (Scenarios.digest_world Scenarios.twenty_points)
                  ltac:(discriminate) ltac:(vm_compute; reflexivity))).
  - reflexivity.
  - vm_compute. discriminate.
Defined.

(** * The skill collection: an unfinished last line *)

Lemma no_linebreak_app (a b : string) :
  no_linebreak a = true -> no_linebreak b = true -> no_linebreak (a ++ b) = true.
Proof.
  intros Ha Hb. induction a as [|c a IH]; [rewrite append_nil; exact Hb|].
  cbn [no_linebreak] in Ha. apply andb_true_iff in Ha as [Hc Ha].
  rewrite append_cons. cbn [no_linebreak]. rewrite Hc, (IH Ha). reflexivity.
Qed.

(** A last line that no boundary ends is still a line. *)
Lemma splitlines_aux_unfinished (acc : list ascii) (s : string) :
  no_linebreak s = true ->
  acc <> [] \/ s <> "" ->
  PyStr.splitlines_aux acc s = [(string_of_list_ascii (rev acc) ++ s)%string].
Proof.
  revert acc. induction s as [|c s IH]; intros acc Hs Hne.
  - destruct Hne as [Hne|Hne]; [|contradiction].
    destruct acc as [|a acc]; [contradiction|].
    rewrite append_nil_r. reflexivity.
  - cbn [no_linebreak] in Hs. apply andb_true_iff in Hs as [Hc Hs].
    apply negb_true_iff in Hc. rewrite splitlines_aux_cons, Hc.
    rewrite (IH (c :: acc) Hs) by (left; discriminate).
    cbn [rev]. rewrite string_of_list_ascii_snoc. reflexivity.
Qed.

(** The lines of a text that ends in an unfinished line, before and after
    a line is appended to it. *)
Lemma splitlines_unfinished (body last_line line : string) :
  terminated body ->
  no_linebreak last_line = true ->
  last_line <> "" ->
  no_linebreak line = true ->
  PyStr.splitlines (body ++ last_line)
  = (PyStr.splitlines body ++ [last_line])%list /\
  PyStr.splitlines ((body ++ last_line) ++ line ++ PyStr.newline)
  = (PyStr.splitlines body ++ [(last_line ++ line)%string])%list.
Proof.
  intros Hbody Hlast Hne Hline. unfold PyStr.splitlines.
  assert (Hglued : PyStr.splitlines_aux [] (last_line ++ line ++ PyStr.newline)
                   = [(last_line ++ line)%string]).
  { rewrite <- append_assoc.
    rewrite (splitlines_aux_line [] (last_line ++ line)
               (no_linebreak_app _ _ Hlast Hline)).
    reflexivity. }
  destruct Hbody as [->|[b ->]].
  - rewrite !append_nil. split; [|exact Hglued].
    rewrite (splitlines_aux_unfinished [] last_line Hlast) by (right; exact Hne).
    reflexivity.
  - split.
    + rewrite (splitlines_aux_app (String.length b)) by lia.
      rewrite (splitlines_aux_unfinished [] last_line Hlast) by (right; exact Hne).
      reflexivity.
    + rewrite (append_assoc (b ++ PyStr.newline) last_line).
      rewrite (splitlines_aux_app (String.length b)) by lia.
      rewrite Hglued. reflexivity.
Qed.

Section UnfinishedLine.

Variable home : string.
Variable json_dumps : option HarnessEvolve.Payload -> string.
Variable json_loads : string -> option Skill.

Let skills_path : string := HarnessEvolve.skills_file home.
Let apply := HarnessEvolve.apply_proposal home json_dumps.
Let load_skills := HarnessEvolve.load_skills home json_loads.

(** Apply appends to the collection as it is. When the collection's last
    line is not ended by a line feed, the record written for the new skill
    continues that line: the collection has as many lines after the
    addition as before, the last one holding the former last record and
    the new one side by side. If that line does not parse, the collection
    then loads without either of them. *)
Theorem skill_added_to_unfinished_line_is_glued (pid : string)
    (p : HarnessEvolve.Proposal) (w : HarnessEvolve.World)
    (body last_line : string) :
  HarnessEvolve.find_proposal pid (HarnessEvolve.load_proposals w) = Some p ->
  HarnessEvolve.type p = Some "skill_add" ->
  HarnessEvolve.status p <> Some "applied" ->
  HarnessEvolve.files w !! skills_path = Some (body ++ last_line)%string ->
  terminated body ->
  no_linebreak last_line = true ->
  last_line <> "" ->
  no_linebreak (json_dumps (HarnessEvolve.data p)) = true ->
  let glued := (last_line ++ json_dumps (HarnessEvolve.data p))%string in
  (exists written,
      HarnessEvolve.files (snd (apply pid false w)) !! skills_path = Some written /\
      PyStr.splitlines written = (PyStr.splitlines body ++ [glued])%list /\
      length (PyStr.splitlines written)
      = length (PyStr.splitlines (body ++ last_line))) /\
  (json_loads glued = None ->
   load_skills w
   = (load_skills (snd (apply pid false w))
      ++ omap (fun line => if PyStr.is_blank line then None else json_loads line)
              [last_line])%list).
Proof.
  intros Hf Ht Hs Hfile Hbody Hlast Hne Hline glued. subst apply. cbv beta.
  rewrite (apply_proposal_skill_add home json_dumps pid p w Hf Ht Hs).
  destruct (apply_skill_add_effect home json_dumps p w) as (_ & Hwritten & _).
  fold skills_path in Hwritten. rewrite Hfile in Hwritten.
  cbn [default from_option id] in Hwritten.
  destruct (splitlines_unfinished body last_line _ Hbody Hlast Hne Hline)
    as [Hbefore Hafter].
  split.
  - eexists. split; [exact Hwritten|]. split; [exact Hafter|].
    rewrite Hafter, Hbefore, !length_app. reflexivity.
  - intros Hbad.
    subst load_skills. cbv beta. unfold HarnessEvolve.load_skills.
    fold skills_path. rewrite Hwritten, Hfile, Hafter, Hbefore, !omap_app.
    f_equal. cbn [omap list_omap]. fold glued. rewrite Hbad.
    destruct (PyStr.is_blank glued); cbn; rewrite app_nil_r; reflexivity.
Qed.

End UnfinishedLine.

Lemma skill_added_to_unfinished_seed :
  let applied :=
    HarnessEvolve.apply_proposal Scenarios.home_dir Scenarios.toy_dumps
      "prop_20250115_120000" false Scenarios.unfinished_world in
  exists written,
    HarnessEvolve.files (snd applied) !! HarnessEvolve.skills_file Scenarios.home_dir
    = Some written /\
    PyStr.splitlines written
    = (PyStr.splitlines "" ++ ["{skill: seed}{skill: skill_auto_1a2b3c4d}"])%list /\
    length (PyStr.splitlines written)
    = length (PyStr.splitlines ("" ++ "{skill: seed}")).
Proof.
  intros applied.
  apply (skill_added_to_unfinished_line_is_glued Scenarios.home_dir
           Scenarios.toy_dumps Scenarios.toy_loads_back "prop_20250115_120000"
           Scenarios.pending_skill_add Scenarios.unfinished_world
           "" "{skill: seed}").
  - vm_compute. reflexivity.
  - reflexivity.
  - discriminate.
  - vm_compute. reflexivity.
  - left. reflexivity.
  - reflexivity.
  - discriminate.
  - reflexivity.
Defined.

(** * Matching ignores case *)

Lemma score_lower_task (task : string) (skill : Skill) :
  MemoryRetrieval.score (PyStr.lower task) skill = MemoryRetrieval.score task skill.
Proof. unfold MemoryRetrieval.score. rewrite lower_idem. reflexivity. Qed.

Lemma scored_skills_lower_task (task : string) (skills : list Skill) :
  MemoryRetrieval.scored_skills (PyStr.lower task) skills
  = MemoryRetrieval.scored_skills task skills.
Proof.
  induction skills as [|s l IH]; [reflexivity|].
  cbn [MemoryRetrieval.scored_skills]. rewrite score_lower_task, IH. reflexivity.
Qed.

Lemma trigger_matches_lower (task_lower : string) (triggers : list string) :
  MemoryRetrieval.trigger_matches task_lower (map PyStr.lower triggers)
  = MemoryRetrieval.trigger_matches task_lower triggers.
Proof.
  unfold MemoryRetrieval.trigger_matches.
  induction triggers as [|t l IH]; [reflexivity|].
  cbn [map]. rewrite !filter_cons, lower_idem.
  destruct (decide (Is_true (PyStr.contains (PyStr.lower t) task_lower)));
    cbn [length]; rewrite IH; reflexivity.
Qed.

(** Matching reads the task, the triggers and the description in lower
    case only: the skills returned for a task are those returned for the
    task in lower case, and two skills whose triggers and descriptions
    differ by case alone get the same score. *)
Theorem match_skills_ignores_case (task : string) (skills : list Skill) :
  MemoryRetrieval.match_skills (PyStr.lower task) skills
  = MemoryRetrieval.match_skills task skills /\
  forall s1 s2 : Skill,
    map PyStr.lower (triggers s1) = map PyStr.lower (triggers s2) ->
    PyStr.lower (description s1) = PyStr.lower (description s2) ->
    MemoryRetrieval.score task s1 = MemoryRetrieval.score task s2.
Proof.
  split.
  - unfold MemoryRetrieval.match_skills. rewrite scored_skills_lower_task.
    destruct task; reflexivity.
  - intros s1 s2 Ht Hd. unfold MemoryRetrieval.score.
    rewrite <- (trigger_matches_lower _ (triggers s1)),
      <- (trigger_matches_lower _ (triggers s2)), Ht, Hd.
    reflexivity.
Qed.

(** * The save and its division *)



(** * Applying every pending proposal *)

(** The status a real Apply gives a proposal, by type; [None] for the
    types it refuses. *)
Definition target (p : HarnessEvolve.Proposal) : option string :=
  if bool_decide (HarnessEvolve.type p = Some "skill_add") then Some "applied"
  else if bool_decide (HarnessEvolve.type p = Some "routing_update") then
    Some "recorded"
  else if bool_decide (HarnessEvolve.type p = Some "threshold_adjust") then
    Some "recorded"
  else None.

(** A stored proposal [p] and what the store holds for it once the
    proposals with the identifiers [done] were gone through. *)
Definition settled_among (done : list (option string))
    (p p' : HarnessEvolve.Proposal) : Prop :=
  HarnessEvolve.id p' = HarnessEvolve.id p /\
  HarnessEvolve.type p' = HarnessEvolve.type p /\
  HarnessEvolve.data p' = HarnessEvolve.data p /\
  match target p with
  | Some st =>
      (In (HarnessEvolve.id p) done -> HarnessEvolve.status p' = Some st) /\
      (~ In (HarnessEvolve.id p) done -> p' = p)
  | None => p' = p
  end.

(** A stored proposal and what the store holds for it after
    [--apply-all]. *)
Definition settled (p p' : HarnessEvolve.Proposal) : Prop :=
  HarnessEvolve.id p' = HarnessEvolve.id p /\
  HarnessEvolve.type p' = HarnessEvolve.type p /\
  HarnessEvolve.data p' = HarnessEvolve.data p /\
  match target p with
  | Some st =>
      (HarnessEvolve.status p = Some "pending" ->
       HarnessEvolve.status p' = Some st) /\
      (HarnessEvolve.status p <> Some "pending" -> p' = p)
  | None => p' = p
  end.

Lemma settled_among_nil (l : list HarnessEvolve.Proposal) :
  Forall2 (settled_among []) l l.
Proof.
  induction l as [|p l IH]; constructor; [|exact IH].
  unfold settled_among. repeat (split; [reflexivity|]).
  destruct (target p); [|reflexivity].
  split; [intros []|reflexivity].
Qed.

(** While a proposal's turn has not come, the store holds it unchanged,
    and, identifiers being unique, it is the one its identifier finds. *)
Lemma find_unsettled (pid : string) (done : list (option string))
    (p : HarnessEvolve.Proposal) (l0 l : list HarnessEvolve.Proposal) :
  Forall2 (settled_among done) l0 l ->
  (forall x, In x l0 -> HarnessEvolve.id x = Some pid -> x = p) ->
  In p l0 ->
  HarnessEvolve.id p = Some pid ->
  ~ In (Some pid) done ->
  HarnessEvolve.find_proposal pid l = Some p.
Proof.
  intros Hrel Huniq Hin Hid Hdone. unfold HarnessEvolve.find_proposal.
  induction Hrel as [|x x' l0 l Hx Hl IH]; [destruct Hin|].
  cbn [List.find]. destruct Hx as (Hid' & _ & _ & Hx). rewrite Hid'.
  destruct (decide (HarnessEvolve.id x = Some pid)) as [E|E].
  - rewrite (bool_decide_eq_true_2 _ E).
    assert (x = p) by (apply Huniq; [left; reflexivity|exact E]). subst x.
    f_equal. destruct (target p).
    + apply Hx. rewrite Hid. exact Hdone.
    + exact Hx.
  - rewrite (bool_decide_eq_false_2 _ E). apply IH.
    + intros y Hy. apply Huniq. right. exact Hy.
    + destruct Hin as [->|Hin]; [contradiction|exact Hin].
Qed.

(** One more proposal gone through: its status is its target when Apply
    marked it, and the others are as they were. *)
Lemma settle_one (pid : string) (st : string) (done : list (option string))
    (p : HarnessEvolve.Proposal) (l0 l l' : list HarnessEvolve.Proposal) :
  (forall x, In x l0 -> HarnessEvolve.id x = Some pid -> x = p) ->
  HarnessEvolve.id p = Some pid ->
  ~ In (Some pid) done ->
  target p = Some st ->
  Forall2 (settled_among done) l0 l ->
  Forall2 (marked (Some pid) st) l l' ->
  Forall2 (settled_among (done ++ [Some pid])) l0 l'.
Proof.
  intros Huniq Hid Hdone Htarget Hrel. revert l'.
  induction Hrel as [|x x' l0 l Hx Hl IH]; intros l' Hmark;
    inversion Hmark as [|? x'' ? l'' Hx'' Hl'']; subst; constructor.
  - destruct Hx as (Hi & Ht & Hd & Hx).
    destruct Hx'' as (Hi' & Ht' & Hd' & _ & _ & Hhit & Hmiss).
    unfold settled_among.
    split; [congruence|]. split; [congruence|]. split; [congruence|].
    destruct (decide (HarnessEvolve.id x = Some pid)) as [E|E].
    + assert (x = p) by (apply Huniq; [left; reflexivity|exact E]). subst x.
      rewrite Htarget in *. split.
      * intros _. apply Hhit. congruence.
      * intros N. exfalso. apply N. apply in_or_app. right. left.
        symmetry. exact Hid.
    + assert (Hsame : x'' = x') by (apply Hmiss; congruence). subst x''.
      destruct (target x) as [st'|]; [|exact Hx].
      destruct Hx as [Hin Hout]. split.
      * intros H. apply in_app_or in H as [H|[H|[]]]; [apply Hin; exact H|].
        exfalso. apply E. symmetry. exact H.
      * intros N. apply Hout. intros H. apply N. apply in_or_app. left. exact H.
  - apply IH; [|exact Hl''].
    intros y Hy. apply Huniq. right. exact Hy.
Qed.

(** A proposal gone through that Apply refuses leaves the store alone. *)
Lemma settle_none (pid : option string) (done : list (option string))
    (p : HarnessEvolve.Proposal) (l0 l : list HarnessEvolve.Proposal) :
  (forall x, In x l0 -> HarnessEvolve.id x = pid -> x = p) ->
  target p = None ->
  Forall2 (settled_among done) l0 l ->
  Forall2 (settled_among (done ++ [pid])) l0 l.
Proof.
  intros Huniq Htarget Hrel.
  induction Hrel as [|x x' l0 l Hx Hl IH]; constructor.
  - destruct Hx as (Hi & Ht & Hd & Hx). unfold settled_among.
    repeat (split; [assumption|]).
    destruct (target x) as [st|] eqn:Etx; [|exact Hx].
    destruct Hx as [Hin Hout]. split.
    + intros H. apply in_app_or in H as [H|[H|[]]]; [apply Hin; exact H|].
      assert (x = p) by (apply Huniq; [left; reflexivity|symmetry; exact H]).
      subst x. congruence.
    + intros N. apply Hout. intros H. apply N. apply in_or_app. left. exact H.
  - apply IH. intros y Hy. apply Huniq. right. exact Hy.
Qed.

Lemma Forall2_impl_in {A B : Type} (R S : A -> B -> Prop)
    (l : list A) (l' : list B) :
  Forall2 R l l' ->
  (forall x y, In x l -> R x y -> S x y) ->
  Forall2 S l l'.
Proof.
  induction 1 as [|x y l l' Hxy Hl IH]; intros HRS; constructor.
  - apply HRS; [left; reflexivity|exact Hxy].
  - apply IH. intros a b Ha. apply HRS. right. exact Ha.
Qed.

Section ApplyAll.

Variable home : string.
Variable json_dumps : option HarnessEvolve.Payload -> string.

Let apply_any := HarnessEvolve.apply_proposal_any home json_dumps.
Let apply_each := HarnessEvolve.apply_each home json_dumps.

(** On an identifier that is there, [apply_proposal_any] is
    [apply_proposal]. *)
Lemma apply_proposal_any_some (pid : string) (dry_run : bool)
    (w : HarnessEvolve.World) :
  apply_any (Some pid) dry_run w
  = HarnessEvolve.apply_proposal home json_dumps pid dry_run w.
Proof.
  subst apply_any. cbv beta.
  unfold HarnessEvolve.apply_proposal_any, HarnessEvolve.apply_proposal,
    HarnessEvolve.find_proposal.
  destruct (List.find _ _) as [p|] eqn:E; [|reflexivity].
  apply find_some in E as [_ E]. apply bool_decide_eq_true_1 in E.
  unfold HarnessEvolve.is_empty_dict. rewrite E. reflexivity.
Qed.

(** What a real Apply does to the proposal store for a pending proposal
    that its identifier finds. *)
Lemma apply_pending_marks (pid : string) (p : HarnessEvolve.Proposal)
    (w : HarnessEvolve.World) :
  HarnessEvolve.find_proposal pid (HarnessEvolve.load_proposals w) = Some p ->
  HarnessEvolve.status p = Some "pending" ->
  HarnessEvolve.machine_applicable p = true ->
  let r := HarnessEvolve.apply_proposal home json_dumps pid false w in
  match target p with
  | Some st =>
      fst (fst r) = true /\
      exists c,
        HarnessEvolve.load_proposals (snd r)
        = fst (HarnessEvolve.mark (Some pid) st (HarnessEvolve.load_proposals w) c)
  | None => fst (fst r) = false /\ snd r = w
  end.
Proof.
  intros Hf Hs Happ r. subst r.
  assert (Hna : HarnessEvolve.status p <> Some "applied")
    by (rewrite Hs; discriminate).
  pose proof (find_proposal_id pid _ p Hf) as Hid.
  unfold target.
  destruct (bool_decide (HarnessEvolve.type p = Some "skill_add")) eqn:E1.
  { apply bool_decide_eq_true_1 in E1.
    rewrite (apply_proposal_skill_add home json_dumps pid p w Hf E1 Hna).
    destruct (apply_skill_add_effect home json_dumps p w) as (Hok & _ & (c & Hm) & _).
    split; [exact Hok|]. exists c.
    unfold HarnessEvolve.load_proposals at 1. rewrite Hm, Hid. reflexivity. }
  apply bool_decide_eq_false_1 in E1.
  destruct (bool_decide (HarnessEvolve.type p = Some "routing_update")) eqn:E2.
  { apply bool_decide_eq_true_1 in E2.
    destruct (apply_proposal_records home json_dumps pid p w Hf Hna (or_introl E2))
      as (Hok & _ & _ & (c & Hm)).
    split; [exact Hok|]. exists c.
    unfold HarnessEvolve.load_proposals at 1. rewrite Hm, Hid. reflexivity. }
  apply bool_decide_eq_false_1 in E2.
  destruct (bool_decide (HarnessEvolve.type p = Some "threshold_adjust")) eqn:E3.
  { apply bool_decide_eq_true_1 in E3.
    destruct (apply_proposal_records home json_dumps pid p w Hf Hna (or_intror E3))
      as (Hok & _ & _ & (c & Hm)).
    split; [exact Hok|]. exists c.
    unfold HarnessEvolve.load_proposals at 1. rewrite Hm, Hid. reflexivity. }
  apply bool_decide_eq_false_1 in E3.
  unfold HarnessEvolve.apply_proposal. rewrite Hf.
  rewrite (bool_decide_eq_false_2 _ Hna), (bool_decide_eq_false_2 _ E1),
    (bool_decide_eq_false_2 _ E2), (bool_decide_eq_false_2 _ E3).
  destruct (bool_decide (HarnessEvolve.type p = Some "manual_review"));
    split; reflexivity.
Qed.

(** The loop, from any point of its run. *)
Lemma apply_each_settles (l0 : list HarnessEvolve.Proposal) :
  NoDup (map HarnessEvolve.id l0) ->
  forall (pending : list HarnessEvolve.Proposal) (done : list (option string))
         (w : HarnessEvolve.World),
    (forall p, In p pending ->
               In p l0 /\ HarnessEvolve.status p = Some "pending" /\
               HarnessEvolve.id p <> None) ->
    (forall p, In p pending -> ~ In (HarnessEvolve.id p) done) ->
    NoDup (map HarnessEvolve.id pending) ->
    Forall2 (settled_among done) l0 (HarnessEvolve.load_proposals w) ->
    Forall2 (settled_among (done ++ map HarnessEvolve.id pending)) l0
            (HarnessEvolve.load_proposals (snd (apply_each pending false w))) /\
    Forall2 (fun p r =>
               fst (fst r) = HarnessEvolve.id p /\
               snd (fst r) = bool_decide (target p <> None))
            (List.filter HarnessEvolve.machine_applicable pending)
            (fst (apply_each pending false w)).
Proof.
  intros Hnd0.
  assert (Huniq : forall (pid : option string) (p : HarnessEvolve.Proposal),
             In p l0 -> HarnessEvolve.id p = pid ->
             forall x, In x l0 -> HarnessEvolve.id x = pid -> x = p).
  { clear -Hnd0. induction l0 as [|y l0 IH]; intros pid p Hp Hid x Hx Hxid;
      [destruct Hp|].
    cbn [map] in Hnd0. apply NoDup_cons in Hnd0 as [Hy Hnd].
    assert (Hmem : forall z, In z l0 -> HarnessEvolve.id z ∈ map HarnessEvolve.id l0).
    { intros z Hz. apply list_elem_of_In, in_map. exact Hz. }
    destruct Hp as [->|Hp], Hx as [->|Hx].
    - reflexivity.
    - exfalso. apply Hy. rewrite Hid, <- Hxid. apply Hmem. exact Hx.
    - exfalso. apply Hy. rewrite Hxid, <- Hid. apply Hmem. exact Hp.
    - apply (IH Hnd pid p Hp Hid x Hx Hxid). }
  induction pending as [|p rest IH]; intros done w Hpend Hfresh Hndp Hrel.
  - subst apply_each. cbn. rewrite app_nil_r. split; [exact Hrel|constructor].
  - destruct (Hpend p (or_introl eq_refl)) as (Hin & Hst & Hsome).
    destruct (HarnessEvolve.id p) as [pid|] eqn:Hid; [|contradiction].
    cbn [map] in Hndp. rewrite Hid in Hndp. apply NoDup_cons in Hndp as [Hp Hndp].
    assert (Hdone : ~ In (Some pid) done)
      by (rewrite <- Hid; apply Hfresh; left; reflexivity).
    assert (Hpend' : forall q, In q rest ->
                       In q l0 /\ HarnessEvolve.status q = Some "pending" /\
                       HarnessEvolve.id q <> None)
      by (intros q Hq; apply Hpend; right; exact Hq).
    assert (Hfresh' : forall q, In q rest ->
                        ~ In (HarnessEvolve.id q) (done ++ [Some pid])).
    { intros q Hq H. apply in_app_or in H as [H|[H|[]]].
      - apply (Hfresh q); [right; exact Hq|exact H].
      - apply Hp. rewrite H. apply list_elem_of_In, in_map. exact Hq. }
    assert (Hstep : forall w1,
               Forall2 (settled_among (done ++ [Some pid])) l0
                       (HarnessEvolve.load_proposals w1) ->
               Forall2 (settled_among (done ++ map HarnessEvolve.id (p :: rest))) l0
                       (HarnessEvolve.load_proposals
                          (snd (apply_each rest false w1))) /\
               Forall2 (fun p r =>
                          fst (fst r) = HarnessEvolve.id p /\
                          snd (fst r) = bool_decide (target p <> None))
                       (List.filter HarnessEvolve.machine_applicable rest)
                       (fst (apply_each rest false w1))).
    { intros w1 Hrel1. cbn [map]. rewrite Hid.
      replace (done ++ Some pid :: map HarnessEvolve.id rest)%list
        with ((done ++ [Some pid]) ++ map HarnessEvolve.id rest)%list
        by (rewrite <- app_assoc; reflexivity).
      apply IH; assumption. }
    subst apply_each. cbv beta in *.
    cbn [HarnessEvolve.apply_each List.filter].
    destruct (HarnessEvolve.machine_applicable p) eqn:Happ.
    + rewrite Hid. fold apply_any. rewrite apply_proposal_any_some.
      assert (Hf : HarnessEvolve.find_proposal pid (HarnessEvolve.load_proposals w)
                   = Some p).
      { apply (find_unsettled pid done p l0); try assumption.
        intros x Hx Hxid. apply (Huniq (Some pid) p Hin Hid x Hx Hxid). }
      pose proof (apply_pending_marks pid p w Hf Hst Happ) as Hmarks.
      cbv zeta in Hmarks.
      destruct (HarnessEvolve.apply_proposal home json_dumps pid false w)
        as [[ok msg] w1].
      cbn [fst snd] in Hmarks.
      assert (Hrel1 : Forall2 (settled_among (done ++ [Some pid])) l0
                              (HarnessEvolve.load_proposals w1) /\
                      ok = bool_decide (target p <> None)).
      { destruct (target p) as [st|] eqn:Etarget.
        - destruct Hmarks as (Hok & c & Hm). split.
          + rewrite Hm.
            eapply (settle_one pid st done p l0);
              [|exact Hid|exact Hdone|exact Etarget|exact Hrel|apply mark_marked].
            intros x Hx Hxid. apply (Huniq (Some pid) p Hin Hid x Hx Hxid).
          + rewrite Hok. symmetry. apply bool_decide_eq_true_2. discriminate.
        - destruct Hmarks as (Hok & ->). split.
          + apply (settle_none (Some pid) done p l0); try assumption.
            intros x Hx Hxid. apply (Huniq (Some pid) p Hin Hid x Hx Hxid).
          + rewrite Hok. symmetry. apply bool_decide_eq_false_2.
            intros N. apply N. reflexivity. }
      destruct Hrel1 as [Hrel1 Hok].
      destruct (Hstep w1 Hrel1) as [Hfinal Hres].
      destruct (HarnessEvolve.apply_each home json_dumps rest false w1)
        as [results w2].
      cbn [fst snd] in *. split; [exact Hfinal|].
      constructor; [|exact Hres]. cbn [fst snd]. rewrite Hid. split; [reflexivity|exact Hok].
    + apply Hstep.
      apply (settle_none (Some pid) done p l0); try assumption.
      * intros x Hx Hxid. apply (Huniq (Some pid) p Hin Hid x Hx Hxid).
      * unfold HarnessEvolve.machine_applicable in Happ. unfold target.
        apply andb_false_iff in Happ as [Happ|Happ];
          apply negb_false_iff, bool_decide_eq_true_1 in Happ; rewrite Happ;
          reflexivity.
Qed.

(** When the stored proposals have identifiers, all different, a real
    [--apply-all] settles every pending proposal: each attempt on a
    [skill_add], [routing_update] or [threshold_adjust] proposal succeeds
    and leaves it [applied], respectively [recorded]; the attempts on other
    types fail ([manual_review] and [info] are not attempted); and every
    proposal that was not pending, or is of another type, is stored as it
    was. Length and order of the store, identifiers, types and data are
    kept. *)
Theorem apply_all_settles_pending_proposals (w : HarnessEvolve.World) :
  NoDup (map HarnessEvolve.id (HarnessEvolve.load_proposals w)) ->
  Forall (fun p => HarnessEvolve.id p <> None) (HarnessEvolve.load_proposals w) ->
  let run := HarnessEvolve.run_apply_all home json_dumps false w in
  let pending :=
    List.filter (fun p => bool_decide (HarnessEvolve.status p = Some "pending"))
                (HarnessEvolve.load_proposals w) in
  Forall2 settled (HarnessEvolve.load_proposals w)
          (HarnessEvolve.load_proposals (snd run)) /\
  Forall2 (fun p r =>
             fst (fst r) = HarnessEvolve.id p /\
             snd (fst r) = bool_decide (target p <> None))
          (List.filter HarnessEvolve.machine_applicable pending)
          (fst run).
Proof.
  intros Hnd Hids run pending. subst run.
  unfold HarnessEvolve.run_apply_all. fold pending.
  set (l0 := HarnessEvolve.load_proposals w) in *.
  assert (Hpend : forall p, In p pending ->
                    In p l0 /\ HarnessEvolve.status p = Some "pending" /\
                    HarnessEvolve.id p <> None).
  { intros p Hp. subst pending. apply List.filter_In in Hp as [Hp Hs].
    apply bool_decide_eq_true_1 in Hs. split; [exact Hp|]. split; [exact Hs|].
    rewrite List.Forall_forall in Hids. apply Hids. exact Hp. }
  assert (Hndp : NoDup (map HarnessEvolve.id pending)).
  { subst pending. clear -Hnd. induction l0 as [|x l IH]; [constructor|].
    cbn [map] in Hnd. apply NoDup_cons in Hnd as [Hx Hnd]. cbn [List.filter].
    destruct (bool_decide _); [|apply IH; exact Hnd].
    cbn [map]. apply NoDup_cons. split; [|apply IH; exact Hnd].
    intros H. apply Hx. apply list_elem_of_In in H. apply list_elem_of_In.
    apply in_map_iff in H as (y & Hy & Hin). apply List.filter_In in Hin as [Hin _].
    rewrite <- Hy. apply in_map. exact Hin. }
  destruct (apply_each_settles l0 Hnd pending [] w Hpend
              (fun _ _ H => H) Hndp (settled_among_nil l0)) as [Hfinal Hres].
  split; [|exact Hres].
  cbn [app] in Hfinal. subst apply_each. cbv beta in Hfinal.
  eapply Forall2_impl_in; [exact Hfinal|]. clear Hfinal Hres.
  intros p p' Hp (Hi & Ht & Hd & Hrest). unfold settled.
  repeat (split; [assumption|]).
  destruct (target p) as [st|]; [|exact Hrest].
  destruct Hrest as [Hin Hout]. split.
  - intros Hs. apply Hin. apply in_map. subst pending.
    apply List.filter_In. split; [exact Hp|]. apply bool_decide_eq_true_2. exact Hs.
  - intros Hs. apply Hout. intros H.
    apply in_map_iff in H as (q & Hq & Hqin). subst pending.
    apply List.filter_In in Hqin as [Hqin Hqs]. apply bool_decide_eq_true_1 in Hqs.
    assert (q = p); [|congruence].
    clear -Hnd Hp Hqin Hq. induction l0 as [|y l IH]; [destruct Hp|].
    cbn [map] in Hnd. apply NoDup_cons in Hnd as [Hy Hnd].
    assert (Hmem : forall z, In z l -> HarnessEvolve.id z ∈ map HarnessEvolve.id l)
      by (intros z Hz; apply list_elem_of_In, in_map; exact Hz).
    destruct Hp as [->|Hp], Hqin as [->|Hqin].
    + reflexivity.
    + exfalso. apply Hy. rewrite <- Hq. apply Hmem. exact Hqin.
    + exfalso. apply Hy. rewrite Hq. apply Hmem. exact Hp.
    + apply IH; assumption.
Qed.

End ApplyAll.

Example apply_all_on_mixed_store :
  map HarnessEvolve.status
      (HarnessEvolve.load_proposals
         (snd (HarnessEvolve.run_apply_all Scenarios.home_dir Scenarios.toy_dumps
                 false Scenarios.mixed_world)))
  = [Some "applied"; Some "recorded"; Some "pending"] /\
  map (fun r => (fst (fst r), snd (fst r)))
      (fst (HarnessEvolve.run_apply_all Scenarios.home_dir Scenarios.toy_dumps
              false Scenarios.mixed_world))
  = [(Some "prop_20250115_120000", true)].
Proof. split; vm_compute; reflexivity. Qed.

Lemma apply_all_settles_mixed_store :
  let run :=
    HarnessEvolve.run_apply_all Scenarios.home_dir Scenarios.toy_dumps false
      Scenarios.mixed_world in
  let pending :=
    List.filter (fun p => bool_decide (HarnessEvolve.status p = Some "pending"))
                (HarnessEvolve.load_proposals Scenarios.mixed_world) in
  Forall2 settled (HarnessEvolve.load_proposals Scenarios.mixed_world)
          (HarnessEvolve.load_proposals (snd run)) /\
  Forall2 (fun p r =>
             fst (fst r) = HarnessEvolve.id p /\
             snd (fst r) = bool_decide (target p <> None))
          (List.filter HarnessEvolve.machine_applicable pending)
          (fst run).
Proof.
  apply (apply_all_settles_pending_proposals Scenarios.home_dir Scenarios.toy_dumps
           Scenarios.mixed_world).
  - apply (bool_decide_unpack _). vm_compute. exact I.
  - repeat (constructor; [discriminate|]). constructor.
Defined.
